(** * GSRF: a shallow embedding of the symbol codec of kis9a/gsrf

    The development follows the Go sources:
    - [gsrf/symbol.go]  : the Symbol model and [Format];
    - [gsrf/parse.go]   : [Parse] and [parseTypeArgs];
    - [adapters/ssa.go] : [FromSSA] and [ToSSA];
    - [adapters/stacktrace.go] : [FromStackTrace], [parseTypeParams] and
      [ToStackTrace].

    Modelling conventions.
    - A Go [string] is a sequence of bytes: Rocq's [string] (a list of 8-bit
      [ascii]).  Non-ASCII text is written out as its UTF-8 bytes.
    - A Go [int] is a [Z]; indices returned by [strings.Index] and
      [strings.LastIndex] keep their [-1] for "not found".
    - A nil slice and an empty slice are both the empty [list]; a nil map and
      an empty map are both the empty [gmap]; a nil [*Receiver] is [None].
    - A Go function returning a Symbol pointer and an error returns a pair of
      options, one per Go result, built exactly where the source returns. *)

From Stdlib Require Import ZArith Lia List Bool Ascii String.
From stdpp Require Import gmap strings list fin_maps.

Local Open Scope string_scope.
Local Open Scope Z_scope.

(* stdpp freezes [String.append] under [simpl]; the proofs below unfold it. *)
#[local] Arguments String.append !s1 s2 : simpl nomatch.

(** ** The fragment of Go's [strings], [strconv] and [unicode/utf8] packages
       that the codec uses *)

Definition len (s : string) : Z := Z.of_nat (String.length s).

Fixpoint sdrop (n : nat) (s : string) : string :=
  match n, s with
  | O, _ => s
  | S n', String _ s' => sdrop n' s'
  | S _, EmptyString => EmptyString
  end.

Fixpoint stake (n : nat) (s : string) : string :=
  match n, s with
  | O, _ => EmptyString
  | S n', String c s' => String c (stake n' s')
  | S _, EmptyString => EmptyString
  end.

(** [s[lo:hi]], [s[lo:]] and [s[:hi]].  Every slice expression of the
    modelled sources is guarded so that its bounds are in range. *)
Definition slice (s : string) (lo hi : Z) : string :=
  stake (Z.to_nat (hi - lo)) (sdrop (Z.to_nat lo) s).
Definition from (s : string) (lo : Z) : string := sdrop (Z.to_nat lo) s.
Definition upto (s : string) (hi : Z) : string := stake (Z.to_nat hi) s.

Fixpoint HasPrefix (s p : string) {struct p} : bool :=
  match p with
  | EmptyString => true
  | String a p' =>
      match s with
      | EmptyString => false
      | String b s' => if Ascii.eqb a b then HasPrefix s' p' else false
      end
  end.

Fixpoint srev_app (s acc : string) : string :=
  match s with
  | EmptyString => acc
  | String c s' => srev_app s' (String c acc)
  end.
Definition srev (s : string) : string := srev_app s EmptyString.

Definition HasSuffix (s p : string) : bool := HasPrefix (srev s) (srev p).

(** [strings.Index]: the first byte offset of [sub] in [s], or [-1]. *)
Fixpoint Index (s sub : string) : Z :=
  if HasPrefix s sub then 0
  else match s with
       | EmptyString => -1
       | String _ s' => let i := Index s' sub in if i <? 0 then -1 else i + 1
       end.

(** [strings.LastIndex]: the last byte offset of [sub] in [s], or [-1]. *)
Fixpoint LastIndex (s sub : string) : Z :=
  match s with
  | EmptyString => if HasPrefix s sub then 0 else -1
  | String _ s' =>
      let i := LastIndex s' sub in
      if 0 <=? i then i + 1 else if HasPrefix s sub then 0 else -1
  end.

Definition Contains (s sub : string) : bool := 0 <=? Index s sub.

Fixpoint mem_byte (c : ascii) (chars : string) : bool :=
  match chars with
  | EmptyString => false
  | String d chars' => Ascii.eqb c d || mem_byte c chars'
  end.

(** [strings.ContainsAny] for a set of ASCII characters. *)
Fixpoint ContainsAny (s chars : string) : bool :=
  match s with
  | EmptyString => false
  | String c s' => mem_byte c chars || ContainsAny s' chars
  end.

(** [strings.Split] for a non-empty separator. [skip] counts the bytes of a
    separator occurrence that are still to be stepped over. *)
Fixpoint split_from (sep : string) (skip : nat) (s : string) : list string :=
  match s with
  | EmptyString => [EmptyString]
  | String c s' =>
      match skip with
      | S k => split_from sep k s'
      | O =>
          if HasPrefix s sep
          then EmptyString :: split_from sep (String.length sep - 1) s'
          else match split_from sep 0 s' with
               | h :: t => String c h :: t
               | [] => [String c EmptyString]
               end
      end
  end.
Definition Split (s sep : string) : list string := split_from sep 0 s.

(** [strings.SplitN(s, sep, 2)]. *)
Definition SplitN2 (s sep : string) : list string :=
  let m := Index s sep in
  if m <? 0 then [s] else [upto s m; from s (m + len sep)].

(** [strings.Join]. *)
Fixpoint Join (elems : list string) (sep : string) : string :=
  match elems with
  | [] => EmptyString
  | [x] => x
  | x :: rest => x +:+ sep +:+ Join rest sep
  end.

Definition byte (n : nat) : ascii := ascii_of_nat n.
Definition code (c : ascii) : nat := nat_of_ascii c.
Definition in_range (lo hi : nat) (c : ascii) : bool :=
  (lo <=? code c)%nat && (code c <=? hi)%nat.

(** [unicode.IsSpace], read on the UTF-8 encoding of a rune: the ASCII
    blanks, U+0085, U+00A0, U+1680, U+2000..U+200A, U+2028, U+2029, U+202F,
    U+205F and U+3000. *)
Definition isAsciiSpace (c : ascii) : bool :=
  in_range 9 13 c || (code c =? 32)%nat.
Definition isSpace2 (c1 c2 : ascii) : bool :=
  (code c1 =? 194)%nat && ((code c2 =? 133)%nat || (code c2 =? 160)%nat).
Definition isSpace3 (c1 c2 c3 : ascii) : bool :=
  ((code c1 =? 225)%nat && (code c2 =? 154)%nat && (code c3 =? 128)%nat)
  || ((code c1 =? 226)%nat && (code c2 =? 128)%nat
      && (in_range 128 138 c3 || in_range 168 169 c3 || (code c3 =? 175)%nat))
  || ((code c1 =? 226)%nat && (code c2 =? 129)%nat && (code c3 =? 159)%nat)
  || ((code c1 =? 227)%nat && (code c2 =? 128)%nat && (code c3 =? 128)%nat).

(** [strings.TrimLeftFunc(s, unicode.IsSpace)]. *)
Fixpoint trimLeft (s : string) : string :=
  match s with
  | EmptyString => EmptyString
  | String c1 s1 =>
      if isAsciiSpace c1 then trimLeft s1
      else match s1 with
           | EmptyString => s
           | String c2 s2 =>
               if isSpace2 c1 c2 then trimLeft s2
               else match s2 with
                    | EmptyString => s
                    | String c3 s3 =>
                        if isSpace3 c1 c2 c3 then trimLeft s3 else s
                    end
           end
  end.

(** [strings.TrimRightFunc(s, unicode.IsSpace)]: the longest suffix made of
    white-space runes is removed. *)
Fixpoint trimRight (s : string) : string :=
  match s with
  | EmptyString => EmptyString
  | String c s' =>
      match trimLeft s with
      | EmptyString => EmptyString
      | _ => String c (trimRight s')
      end
  end.

(** [strings.TrimSpace]. *)
Definition TrimSpace (s : string) : string := trimRight (trimLeft s).

(** [utf8.DecodeRuneInString] followed by [WriteRune]: [runes s] lists, for
    each rune that [for _, r := range s] yields, the bytes that
    [strings.Builder.WriteRune(r)] writes.  A byte that does not start a
    well-formed UTF-8 sequence is yielded as U+FFFD (width 1). *)
Definition RuneError : string :=
  String (byte 239) (String (byte 191) (String (byte 189) EmptyString)).
Definition isCont (c : ascii) : bool := in_range 128 191 c.
Definition lead2 (c1 : ascii) : bool := in_range 194 223 c1.
Definition lead3 (c1 c2 : ascii) : bool :=
  ((code c1 =? 224)%nat && in_range 160 191 c2)
  || ((in_range 225 236 c1 || in_range 238 239 c1) && isCont c2)
  || ((code c1 =? 237)%nat && in_range 128 159 c2).
Definition lead4 (c1 c2 : ascii) : bool :=
  ((code c1 =? 240)%nat && in_range 144 191 c2)
  || (in_range 241 243 c1 && isCont c2)
  || ((code c1 =? 244)%nat && in_range 128 143 c2).

Fixpoint runes (s : string) : list string :=
  match s with
  | EmptyString => []
  | String c1 s1 =>
      if (code c1 <? 128)%nat then String c1 EmptyString :: runes s1
      else match s1 with
           | EmptyString => RuneError :: runes s1
           | String c2 s2 =>
               if lead2 c1 && isCont c2
               then String c1 (String c2 EmptyString) :: runes s2
               else match s2 with
                    | EmptyString => RuneError :: runes s1
                    | String c3 s3 =>
                        if lead3 c1 c2 && isCont c3
                        then String c1 (String c2 (String c3 EmptyString))
                             :: runes s3
                        else match s3 with
                             | EmptyString => RuneError :: runes s1
                             | String c4 s4 =>
                                 if lead4 c1 c2 && isCont c3 && isCont c4
                                 then String c1 (String c2 (String c3
                                        (String c4 EmptyString))) :: runes s4
                                 else RuneError :: runes s1
                             end
                    end
           end
  end.

(** [strconv.Atoi] on a 64-bit [int]: the value and whether [err == nil].
    A syntax error yields [0]; a range error yields the nearest bound. *)
Definition isDigit (c : ascii) : bool := in_range 48 57 c.
Definition maxInt : Z := 9223372036854775807.
Definition minInt : Z := -9223372036854775808.

Fixpoint digitsVal (s : string) (acc : Z) : option Z :=
  match s with
  | EmptyString => Some acc
  | String c s' =>
      if isDigit c then digitsVal s' (10 * acc + (Z.of_nat (code c) - 48))
      else None
  end.

Definition Atoi (s : string) : Z * bool :=
  let '(neg, body) :=
    match s with
    | String c s' =>
        if Ascii.eqb c "-" then (true, s')
        else if Ascii.eqb c "+" then (false, s') else (false, s)
    | EmptyString => (false, s)
    end in
  match body with
  | EmptyString => (0, false)
  | _ =>
      match digitsVal body 0 with
      | None => (0, false)
      | Some un =>
          if negb neg && (maxInt <? un) then (maxInt, false)
          else if neg && (- minInt <? un) then (minInt, false)
          else (if neg then - un else un, true)
      end
  end.

(** [strconv.Itoa] and [fmt.Sprintf("%d", n)]. *)
Definition digit (d : Z) : ascii := byte (Z.to_nat (48 + d)).
Fixpoint utoa (fuel : nat) (n : Z) (acc : string) : string :=
  match fuel with
  | O => acc
  | S f =>
      let acc' := String (digit (n mod 10)) acc in
      if n <? 10 then acc' else utoa f (n / 10) acc'
  end.
Definition Itoa (n : Z) : string :=
  if n <? 0 then String "-" (utoa (S (Z.to_nat (Z.log2 (- n)))) (- n) EmptyString)
  else utoa (S (Z.to_nat (Z.log2 n))) n EmptyString.

(** ** The Symbol model ([symbol.go]) *)

Record Receiver := mkReceiver {
  TypeName : string;           (* Name of the receiver type *)
  IsPointer : bool;            (* True if pointer receiver *)
  RTypeArgs : list string      (* Receiver.TypeArgs *)
}.

Record TypeParam := mkTypeParam {
  PName : string;              (* TypeParam.Name *)
  Constraint : string          (* empty means "any" *)
}.

Record Metadata := mkMetadata {
  Via : string;
  Alias : string;
  Position : string;
  Custom : gmap string string
}.

Record Symbol := mkSymbol {
  PackagePath : string;
  Name : string;
  Recv : option Receiver;      (* Symbol.Receiver, nil for functions *)
  IsInit : bool;
  IsAnonymous : bool;
  AnonParent : string;
  AnonIndex : Z;
  TypeParams : list TypeParam;
  TypeArgs : list string;
  Context : string;
  Meta : Metadata              (* Symbol.Metadata *)
}.

(** The zero values [Metadata{}] and [Symbol{}]. *)
Definition noMetadata : Metadata := mkMetadata "" "" "" ∅.
Definition zeroSymbol : Symbol :=
  mkSymbol "" "" None false false "" 0 [] [] "" noMetadata.


Global Instance Receiver_eq_dec : EqDecision Receiver.
Proof. solve_decision. Defined.
Global Instance TypeParam_eq_dec : EqDecision TypeParam.
Proof. solve_decision. Defined.
Global Instance Metadata_eq_dec : EqDecision Metadata.
Proof. solve_decision. Defined.
Global Instance Symbol_eq_dec : EqDecision Symbol.
Proof. solve_decision. Defined.

(** The separator of anonymous functions.  [parse.go] searches for the five
    bytes [C2 B7 6C 69 74] (U+00B7 then [lit]); the string literal that
    [symbol.go] writes is the seven bytes [C3 82 C2 B7 6C 69 74]. *)
Definition litPart : string :=
  String (byte 194) (String (byte 183) "lit").
Definition litWritten : string :=
  String (byte 195) (String (byte 130) (String (byte 194) (String (byte 183) "lit"))).

(** ** [Format] ([symbol.go]) *)

Definition hasMetadata (m : Metadata) : bool :=
  negb (Via m =? "")%string || negb (Alias m =? "")%string
  || negb (Position m =? "")%string || (0 <? Z.of_nat (size (Custom m))).

Definition formatTypeParam (tp : TypeParam) : string :=
  PName tp +:+
  (if negb (Constraint tp =? "")%string && negb (Constraint tp =? "any")%string
   then " " +:+ Constraint tp else "").

Definition formatReceiver (r : option Receiver) : string :=
  match r with
  | None => ""
  | Some rc =>
      "(" +:+ (if IsPointer rc then "*" else "") +:+ TypeName rc
      +:+ (if (0 <? Z.of_nat (length (RTypeArgs rc)))
           then "[" +:+ Join (RTypeArgs rc) ", " +:+ "]" else "")
      +:+ ")."
  end.

Definition formatName (s : Symbol) : string :=
  if IsAnonymous s
  then Name s +:+ litWritten
       +:+ (if 0 <? AnonIndex s then Itoa (AnonIndex s) else "")
  else Name s.

Definition formatGenerics (s : Symbol) : string :=
  if 0 <? Z.of_nat (length (TypeArgs s))
  then "[" +:+ Join (TypeArgs s) ", " +:+ "]"
  else if 0 <? Z.of_nat (length (TypeParams s))
  then "[" +:+ Join (map formatTypeParam (TypeParams s)) ", " +:+ "]"
  else "".

Definition formatContext (s : Symbol) : string :=
  if negb (Context s =? "")%string then "@" +:+ Context s else "".

(** The [metaParts] slice, where [custom] is the sequence of entries that
    [for k, v := range s.Metadata.Custom] yields. *)
Definition metaParts (m : Metadata) (custom : list (string * string))
  : list string :=
  (if negb (Via m =? "")%string then ["via:" +:+ Via m] else [])
  ++ (if negb (Alias m =? "")%string then ["alias:" +:+ Alias m] else [])
  ++ (if negb (Position m =? "")%string then ["pos:" +:+ Position m] else [])
  ++ map (fun kv => fst kv +:+ ":" +:+ snd kv) custom.

Definition formatMetadata (m : Metadata) (custom : list (string * string))
  : string :=
  if hasMetadata m
  then let parts := metaParts m custom in
       if 0 <? Z.of_nat (length parts)
       then "{" +:+ Join parts "," +:+ "}" else ""
  else "".

(** The text written before the metadata block. *)
Definition formatHead (s : Symbol) : string :=
  PackagePath s +:+ "." +:+ formatReceiver (Recv s) +:+ formatName s
  +:+ formatGenerics s +:+ formatContext s.

(** [Format] when the range over the custom map yields [custom]. *)
Definition FormatWith (custom : list (string * string)) (s : Symbol) : string :=
  formatHead s +:+ formatMetadata (Meta s) custom.

(** Go does not specify the iteration order of a map: a [range] yields the
    entries in any order. *)
Definition map_range (m : gmap string string) (kvs : list (string * string))
  : Prop := kvs ≡ₚ map_to_list m.

(** [s.Format()] may return [out]. *)
Definition Format (s : Symbol) (out : string) : Prop :=
  exists kvs, map_range (Custom (Meta s)) kvs /\ out = FormatWith kvs s.

(** ** [parseTypeArgs] and [Parse] ([parse.go]) *)

(** The state of the loop of [parseTypeArgs]. *)
Record targsState := mkTargs {
  ta_args : list string;
  ta_current : string;
  ta_depth : Z;
  ta_parenDepth : Z
}.

(** [append(args, trimmed)] guarded by [trimmed != ""]. *)
Definition pushTrimmed (args : list string) (current : string) : list string :=
  let trimmed := TrimSpace current in
  if (trimmed =? "")%string then args else args ++ [trimmed].

(** One iteration of [for _, r := range s], on the rune [r]. *)
Definition targsStep (st : targsState) (r : string) : targsState :=
  let '(mkTargs args current depth parenDepth) := st in
  if (r =? "[")%string then mkTargs args (current +:+ r) (depth + 1) parenDepth
  else if (r =? "]")%string then mkTargs args (current +:+ r) (depth - 1) parenDepth
  else if (r =? "(")%string then mkTargs args (current +:+ r) depth (parenDepth + 1)
  else if (r =? ")")%string then mkTargs args (current +:+ r) depth (parenDepth - 1)
  else if (r =? ",")%string then
    if (depth =? 0) && (parenDepth =? 0)
    then mkTargs (pushTrimmed args current) "" depth parenDepth
    else mkTargs args (current +:+ r) depth parenDepth
  else mkTargs args (current +:+ r) depth parenDepth.

Definition parseTypeArgs (s : string) : list string :=
  if (s =? "")%string then []
  else
    let st := fold_left targsStep (runes s) (mkTargs [] "" 0 0) in
    if 0 <? len (ta_current st)
    then pushTrimmed (ta_args st) (ta_current st)
    else ta_args st.

(** The counter of the loops [for i := 0; i < idx; i++] of [Parse], run over
    the bytes of [input[:idx]]. *)
Fixpoint bracketCount (s : string) : Z :=
  match s with
  | EmptyString => 0
  | String c s' =>
      (if Ascii.eqb c "[" then 1 else if Ascii.eqb c "]" then -1 else 0)
      + bracketCount s'
  end.

(** One iteration of the loop over [strings.Split(metaStr, ",")]. *)
Definition parseMetaPart (m : Metadata) (part : string) : Metadata :=
  match SplitN2 part ":" with
  | [k; v] =>
      let key := TrimSpace k in
      let value := TrimSpace v in
      if (key =? "via")%string then mkMetadata value (Alias m) (Position m) (Custom m)
      else if (key =? "alias")%string then mkMetadata (Via m) value (Position m) (Custom m)
      else if (key =? "pos")%string then mkMetadata (Via m) (Alias m) value (Custom m)
      else mkMetadata (Via m) (Alias m) (Position m) (<[key := value]> (Custom m))
  | _ => m
  end.

(** Phase 1: the metadata block.  Returns the remaining input and the
    metadata.  (The [make(map[string]string)] of the source only turns a nil
    map into an empty one.) *)
Definition extractMetadata (input : string) : string * Metadata :=
  let idx := LastIndex input "{" in
  if (0 <? idx) && HasSuffix input "}" then
    let metaStr := slice input (idx + 1) (len input - 1) in
    if bracketCount (upto input idx) =? 0
    then (upto input idx, fold_left parseMetaPart (Split metaStr ",") noMetadata)
    else (input, noMetadata)
  else (input, noMetadata).

(** Phase 2: the context modifier.  [None] is the error return. *)
Definition extractContext (input : string) : option (string * string) :=
  let idx := LastIndex input "@" in
  if 0 <? idx then
    if bracketCount (upto input idx) =? 0 then
      let context := from input (idx + 1) in
      if (context =? "")%string then None
      else Some (upto input idx, context)
    else Some (input, "")
  else Some (input, "").

(** Phase 3: the package path and the symbol part, or the error message. *)
Definition splitPackage (input : string) : (string * string) + string :=
  if Contains input ".(" && negb (Contains input ").")
  then inr "incomplete method receiver"
  else if Contains input ")." then
    let methodSep := LastIndex input ")." in
    if methodSep =? -1 then inr "invalid method format"
    else
      let lastDotBeforeReceiver := LastIndex (upto input methodSep) ".(" in
      let lastDotBeforeReceiver' :=
        if lastDotBeforeReceiver =? -1 then
          let openParen := Index input "(" in
          if 0 <? openParen then LastIndex (upto input openParen) "."
          else lastDotBeforeReceiver
        else lastDotBeforeReceiver in
      if lastDotBeforeReceiver' =? -1
      then inr "invalid GSRF symbol: no package separator found"
      else inl (upto input lastDotBeforeReceiver',
                from input (lastDotBeforeReceiver' + 1))
  else
    let idx := Index input "[" in
    if 0 <? idx then
      let lastDot := LastIndex (upto input idx) "." in
      if lastDot =? -1
      then inr "invalid GSRF symbol: no package separator found"
      else inl (upto input lastDot, from input (lastDot + 1))
    else
      let lastDot := LastIndex input "." in
      if (lastDot =? -1) || (lastDot =? 0) || (lastDot =? len input - 1)
      then inr "invalid GSRF symbol: no package separator found"
      else inl (upto input lastDot, from input (lastDot + 1)).

(** The generic arguments of a receiver type. *)
Definition receiverOf (recvStr0 : string) : Receiver :=
  let isPtr := HasPrefix recvStr0 "*" in
  let recvStr := if isPtr then from recvStr0 1 else recvStr0 in
  let idx := Index recvStr "[" in
  if 0 <? idx then
    let e := LastIndex recvStr "]" in
    mkReceiver (upto recvStr idx) isPtr
      (if idx <? e then parseTypeArgs (slice recvStr (idx + 1) e) else [])
  else mkReceiver recvStr isPtr [].

(** Phase 5: type arguments in the name. *)
Definition extractTypeArgs (sym : Symbol) : option Symbol * option string :=
  if Contains (Name sym) "[" then
    let idx := Index (Name sym) "[" in
    if 0 <? idx then
      let baseName := upto (Name sym) idx in
      let e := LastIndex (Name sym) "]" in
      if idx <? e then
        let argsStr := slice (Name sym) (idx + 1) e in
        (Some (mkSymbol (PackagePath sym) baseName (Recv sym) (IsInit sym)
                 (IsAnonymous sym) (AnonParent sym) (AnonIndex sym)
                 (TypeParams sym) (parseTypeArgs argsStr) (Context sym)
                 (Meta sym)), None)
      else (None, Some "invalid GSRF symbol: unclosed type parameter bracket")
    else (Some sym, None)
  else (Some sym, None).

(** Phase 4 and 5, on the symbol part. *)
Definition classify (packagePath symbolPart context : string)
    (metadata : Metadata) : option Symbol * option string :=
  let sym := mkSymbol packagePath "" None false false "" 0 [] [] context metadata in
  if (symbolPart =? "init")%string then
    (Some (mkSymbol packagePath "init" None true false "" 0 [] [] context metadata),
     None)
  else if Contains symbolPart litPart then
    let litIndex := Index symbolPart litPart in
    let name := upto symbolPart litIndex in
    let indexStr := from symbolPart (litIndex + len litPart) in
    let index :=
      if negb (indexStr =? "")%string then
        let '(index, ok) := Atoi indexStr in if ok then index else 0
      else 0 in
    extractTypeArgs
      (mkSymbol packagePath name None false true (packagePath +:+ "." +:+ name)
         index [] [] context metadata)
  else if HasPrefix symbolPart "(" then
    let recvEnd := Index symbolPart ")" in
    if (recvEnd =? -1) || negb (Contains symbolPart ").")
    then (None, Some "invalid method receiver")
    else
      let receiver := receiverOf (slice symbolPart 1 recvEnd) in
      if recvEnd + 2 <? len symbolPart then
        extractTypeArgs
          (mkSymbol packagePath (from symbolPart (recvEnd + 2)) (Some receiver)
             false false "" 0 [] [] context metadata)
      else (None, Some "invalid GSRF symbol: receiver without method name")
  else
    extractTypeArgs
      (mkSymbol packagePath symbolPart None false false "" 0 [] [] context metadata).

Definition Parse (input : string) : option Symbol * option string :=
  if (input =? "")%string then (None, Some "invalid GSRF symbol: empty string")
  else
    let '(input1, metadata) := extractMetadata input in
    match extractContext input1 with
    | None => (None, Some "invalid GSRF symbol: empty context after @")
    | Some (input2, context) =>
        match splitPackage input2 with
        | inr msg => (None, Some msg)
        | inl (packagePath, symbolPart) =>
            if (packagePath =? "")%string || (symbolPart =? "")%string
            then (None, Some "invalid GSRF symbol: empty package or symbol part")
            else classify packagePath symbolPart context metadata
        end
    end.

(** [MustParse] panics on an error; [None] stands for the panic. *)
Definition MustParse (input : string) : option Symbol :=
  match Parse input with
  | (Some sym, None) => Some sym
  | _ => None
  end.

(** ** The fragment of Go's [regexp] that the adapters use

    The patterns of the adapters start with [^] and are sequences of
    literals and of repeated character classes, some of them captured.  Go's
    [regexp] returns the match that a backtracking search finds first
    (leftmost-first), with greedy repetitions: [matchItems] is that search.
    The classes are negated ASCII sets, [\d] and [.]; they are read on
    bytes, which agrees with Go's rune-wise reading because every literal
    next to a repetition is ASCII. *)

Inductive quant := Plus | Opt.

Inductive item :=
| Lit (s : string)
| Rep (capture : bool) (q : quant) (cls : ascii -> bool).

Record regex := mkRegex {
  re_items : list item;
  re_anchoredEnd : bool       (* the pattern ends with [$] *)
}.

(** [c+]: take one byte of the class, then prefer to take more. *)
Fixpoint plusLoop {R : Type} (cls : ascii -> bool) (k : string -> option R)
    (s : string) : option (string * R) :=
  match s with
  | EmptyString => None
  | String c s' =>
      if cls c then
        match plusLoop cls k s' with
        | Some (m, r) => Some (String c m, r)
        | None =>
            match k s' with
            | Some r => Some (String c EmptyString, r)
            | None => None
            end
        end
      else None
  end.

Definition capture (cap : bool) (m : string) (r : list string * string)
  : list string * string :=
  (if cap then m :: fst r else fst r, snd r).

(** The captured groups and the unmatched rest of the text. *)
Fixpoint matchItems (its : list item) (anchoredEnd : bool) (s : string)
  : option (list string * string) :=
  match its with
  | [] =>
      if anchoredEnd
      then (if (s =? "")%string then Some ([], "") else None)
      else Some ([], s)
  | Lit l :: its' =>
      if HasPrefix s l then matchItems its' anchoredEnd (sdrop (String.length l) s)
      else None
  | Rep cap Plus cls :: its' =>
      match plusLoop cls (matchItems its' anchoredEnd) s with
      | Some (m, r) => Some (capture cap m r)
      | None => None
      end
  | Rep cap Opt cls :: its' =>
      let skip := option_map (capture cap "") (matchItems its' anchoredEnd s) in
      match s with
      | String c s' =>
          if cls c then
            match matchItems its' anchoredEnd s' with
            | Some r => Some (capture cap (String c "") r)
            | None => skip
            end
          else skip
      | EmptyString => skip
      end
  end.

(** [re.FindStringSubmatch(s)]: the matched text, then the groups. *)
Definition FindStringSubmatch (re : regex) (s : string) : option (list string) :=
  match matchItems (re_items re) (re_anchoredEnd re) s with
  | Some (groups, rest) => Some (upto s (len s - len rest) :: groups)
  | None => None
  end.

(** [re.MatchString(s)]. *)
Definition MatchString (re : regex) (s : string) : bool :=
  match matchItems (re_items re) (re_anchoredEnd re) s with
  | Some _ => true
  | None => false
  end.

Definition anyChar (c : ascii) : bool := negb (code c =? 10)%nat.   (* [.] *)
Definition notChar (x : ascii) (c : ascii) : bool := negb (Ascii.eqb c x).
Definition isChar (x : ascii) (c : ascii) : bool := Ascii.eqb c x.

(** ** The SSA adapter ([adapters/ssa.go]) *)

(** [^(.+)\.init#(\d+)$] *)
Definition ssaInitPattern : regex :=
  mkRegex [Rep true Plus anyChar; Lit ".init#"; Rep true Plus isDigit] true.
(** [^(.+)\.([^.]+)$] *)
Definition ssaFuncPattern : regex :=
  mkRegex [Rep true Plus anyChar; Lit "."; Rep true Plus (notChar ".")] true.
(** [^(.+)\.\((\*?)([^)]+)\)\.([^.]+)$] *)
Definition ssaMethodPattern : regex :=
  mkRegex [Rep true Plus anyChar; Lit ".("; Rep true Opt (isChar "*");
           Rep true Plus (notChar ")"); Lit ")."; Rep true Plus (notChar ".")]
          true.
(** [^(.+)\.([^.]+)\$\d+$] *)
Definition ssaAnonPattern : regex :=
  mkRegex [Rep true Plus anyChar; Lit "."; Rep true Plus (notChar ".");
           Lit "$"; Rep false Plus isDigit] true.
(** [^(.+)@([^:]+):(\d+):(\d+)$] *)
Definition ssaLocationPattern : regex :=
  mkRegex [Rep true Plus anyChar; Lit "@"; Rep true Plus (notChar ":");
           Lit ":"; Rep true Plus isDigit; Lit ":"; Rep true Plus isDigit] true.

(** [sym.Metadata = gsrf.Metadata{Position: location}] under
    [if location != ""]. *)
Definition locationMetadata (location : string) : Metadata :=
  if negb (location =? "")%string then mkMetadata "" "" location ∅
  else noMetadata.

(** The anonymous-function branch of [FromSSA]; [None] when it falls
    through to the function pattern. *)
Definition ssaAnonBranch (ssa : string) (meta : Metadata) : option Symbol :=
  match FindStringSubmatch ssaAnonPattern ssa with
  | Some (m0 :: _) =>
      match Split m0 "$" with
      | [p0; p1] =>
          let index := fst (Atoi p1) in
          let baseParts := LastIndex p0 "." in
          if 0 <=? baseParts then
            Some (mkSymbol (upto p0 baseParts) (from p0 (baseParts + 1))
                    None false true p0 index [] [] "" meta)
          else None
      | _ => None
      end
  | _ => None
  end.

(** The function branch of [FromSSA] and its final error. *)
Definition ssaFuncBranch (ssa : string) (meta : Metadata)
  : option Symbol * option string :=
  match FindStringSubmatch ssaFuncPattern ssa with
  | Some (_ :: m1 :: m2 :: _) =>
      (Some (mkSymbol m1 m2 None false false "" 0 [] [] "" meta), None)
  | _ => (None, Some ("invalid SSA format: " +:+ ssa))
  end.

(** [FromSSA] once the location has been removed from [ssa]. *)
Definition fromSSALocated (ssa location : string)
  : option Symbol * option string :=
  let meta := locationMetadata location in
  match FindStringSubmatch ssaInitPattern ssa with
  | Some (_ :: m1 :: _) =>
      (Some (mkSymbol m1 "init" None true false "" 0 [] [] "" meta), None)
  | _ =>
      match FindStringSubmatch ssaMethodPattern ssa with
      | Some (_ :: m1 :: m2 :: m3 :: m4 :: _) =>
          (Some (mkSymbol m1 m4 (Some (mkReceiver m3 (m2 =? "*")%string []))
                   false false "" 0 [] [] "" meta), None)
      | _ =>
          match ssaAnonBranch ssa meta with
          | Some sym => (Some sym, None)
          | None => ssaFuncBranch ssa meta
          end
      end
  end.

Definition FromSSA (ssa : string) : option Symbol * option string :=
  match FindStringSubmatch ssaLocationPattern ssa with
  | Some (_ :: m1 :: m2 :: m3 :: m4 :: _) =>
      fromSSALocated m1 (m2 +:+ ":" +:+ m3 +:+ ":" +:+ m4)
  | _ => fromSSALocated ssa ""
  end.

Definition ToSSA (sym : Symbol) : string :=
  PackagePath sym +:+ "." +:+
  (if IsInit sym then "init#1"
   else match Recv sym with
        | Some r =>
            "(" +:+ (if IsPointer r then "*" else "") +:+ TypeName r +:+ ")"
            +:+ "." +:+ Name sym
        | None =>
            if IsAnonymous sym
            then Name sym +:+ "$"
                 +:+ (if 0 <? AnonIndex sym then Itoa (AnonIndex sym) else "1")
            else Name sym
        end)
  +:+ (if negb (Position (Meta sym) =? "")%string
       then "@" +:+ Position (Meta sym) else "").

(** ** The stack-trace adapter ([adapters/stacktrace.go]) *)

(** [^(.+)\.init\.func\d+$] *)
Definition stackInitPattern : regex :=
  mkRegex [Rep true Plus anyChar; Lit ".init.func"; Rep false Plus isDigit] true.
(** [^(.+)\.func\d+] *)
Definition stackAnonPattern : regex :=
  mkRegex [Rep true Plus anyChar; Lit ".func"; Rep false Plus isDigit] false.

(** The removal of the file and line information. *)
Definition stripFileInfo (trace : string) : string :=
  let idx := Index trace " /" in
  if 0 <? idx then upto trace idx
  else
    let idx := LastIndex trace " " in
    if 0 <? idx then
      let afterSpace := from trace (idx + 1) in
      if Contains afterSpace ".go:" || Contains afterSpace "/"
      then upto trace idx else trace
    else trace.

(** The loop [for i, ch := range remainder] that looks for the parenthesis
    closing the receiver; [i] is the byte offset of [ch].  The loop only
    compares [ch] with ASCII characters, so it is run on bytes.  The result is
    [closeParen]. *)
Fixpoint findCloseParen (remainder : string) (i : Z) (parenDepth : Z)
    (inBrackets : bool) : Z :=
  match remainder with
  | EmptyString => -1
  | String ch rest =>
      if Ascii.eqb ch "[" then findCloseParen rest (i + 1) parenDepth true
      else if Ascii.eqb ch "]" then findCloseParen rest (i + 1) parenDepth false
      else if Ascii.eqb ch "(" && negb inBrackets
      then findCloseParen rest (i + 1) (parenDepth + 1) inBrackets
      else if Ascii.eqb ch ")" && negb inBrackets
      then if parenDepth - 1 =? 0 then i
           else findCloseParen rest (i + 1) (parenDepth - 1) inBrackets
      else findCloseParen rest (i + 1) parenDepth inBrackets
  end.

(** The state of the loop of [parseTypeParams]. *)
Record tparamsState := mkTparams {
  tp_result : list string;
  tp_current : string;
  tp_depth : Z
}.

Definition tparamsStep (st : tparamsState) (ch : string) : tparamsState :=
  let '(mkTparams result current depth) := st in
  if (ch =? "[")%string then mkTparams result (current +:+ ch) (depth + 1)
  else if (ch =? "]")%string then mkTparams result (current +:+ ch) (depth - 1)
  else if (ch =? ",")%string then
    if depth =? 0 then mkTparams (result ++ [TrimSpace current]) "" depth
    else mkTparams result (current +:+ ch) depth
  else if (ch =? " ")%string then
    if (0 <? depth) || (0 <? len current)
    then mkTparams result (current +:+ ch) depth
    else st
  else mkTparams result (current +:+ ch) depth.

Definition parseTypeParams (s : string) : list string :=
  let st := fold_left tparamsStep (runes s) (mkTparams [] "" 0) in
  if 0 <? len (tp_current st)
  then tp_result st ++ [TrimSpace (tp_current st)]
  else tp_result st.

(** The method branch of [FromStackTrace]; [None] when it falls through. *)
Definition traceMethod (trace : string) : option Symbol :=
  if Contains trace ".(*" then
    let startParen := Index trace ".(*" in
    if 0 <? startParen then
      let pkg := upto trace startParen in
      let remainder := from trace (startParen + 3) in
      let closeParen := findCloseParen remainder 0 1 false in
      if 0 <? closeParen then
        let receiverContent := upto remainder closeParen in
        let idx := Index receiverContent "[" in
        let '(receiver, typeArgs) :=
          if 0 <? idx then
            let endBracket := LastIndex receiverContent "]" in
            (upto receiverContent idx,
             if idx <? endBracket
             then parseTypeParams (slice receiverContent (idx + 1) endBracket)
             else [])
          else (receiverContent, []) in
        let afterReceiver := from remainder (closeParen + 1) in
        if HasPrefix afterReceiver "." then
          Some (mkSymbol pkg (from afterReceiver 1)
                  (Some (mkReceiver receiver true typeArgs))
                  false false "" 0 [] [] "" noMetadata)
        else None
      else None
    else None
  else None.

(** The generic-function branch. *)
Definition traceGeneric (trace : string) : option Symbol :=
  let bracketStart := Index trace "[" in
  if 0 <? bracketStart then
    let bracketEnd := LastIndex trace "]" in
    if bracketStart <? bracketEnd then
      let beforeBracket := upto trace bracketStart in
      let lastDot := LastIndex beforeBracket "." in
      if 0 <? lastDot then
        Some (mkSymbol (upto trace lastDot) (from beforeBracket (lastDot + 1))
                None false false "" 0 []
                (parseTypeParams (slice trace (bracketStart + 1) bracketEnd))
                "" noMetadata)
      else None
    else None
  else None.

(** The characters ["[]()* \t\n"]. *)
Definition traceSpecials : string :=
  "[]()* " +:+ String (byte 9) (String (byte 10) "").

(** The plain-function branch. *)
Definition traceFunc (trace : string) : option Symbol :=
  let lastDot := LastIndex trace "." in
  if 0 <? lastDot then
    let funcName := from trace (lastDot + 1) in
    if negb (funcName =? "")%string
       && negb (ContainsAny funcName traceSpecials)
    then Some (mkSymbol (upto trace lastDot) funcName None false false "" 0
                 [] [] "" noMetadata)
    else None
  else None.

(** The init branch. *)
Definition traceInit (trace : string) : option Symbol :=
  if MatchString stackInitPattern trace then
    let parts := Split trace "." in
    if 2 <=? Z.of_nat (length parts) then
      Some (mkSymbol (Join (take (length parts - 2) parts) ".") "init" None
              true false "" 0 [] [] "" noMetadata)
    else None
  else None.

(** The anonymous-function branch. *)
Definition traceAnon (trace : string) : option Symbol :=
  match FindStringSubmatch stackAnonPattern trace with
  | Some (_ :: base :: _) =>
      let idx := LastIndex base "." in
      if 0 <? idx then
        Some (mkSymbol (upto base idx) (from base (idx + 1)) None false true
                base 0 [] [] "" noMetadata)
      else None
  | _ => None
  end.

(** [FromStackTrace] once the file information has been removed. *)
Definition fromStackTraceStripped (trace : string)
  : option Symbol * option string :=
  match traceInit trace with
  | Some sym => (Some sym, None)
  | None =>
  match traceAnon trace with
  | Some sym => (Some sym, None)
  | None =>
  match traceMethod trace with
  | Some sym => (Some sym, None)
  | None =>
  match traceGeneric trace with
  | Some sym => (Some sym, None)
  | None =>
  match traceFunc trace with
  | Some sym => (Some sym, None)
  | None => (None, Some ("invalid stack trace format: " +:+ trace))
  end end end end end.

Definition FromStackTrace (trace : string) : option Symbol * option string :=
  fromStackTraceStripped (stripFileInfo trace).

Definition ToStackTrace (sym : Symbol) : string :=
  if IsAnonymous sym then
    if negb (AnonParent sym =? "")%string
    then AnonParent sym +:+ ".func"
         +:+ (if 0 <? AnonIndex sym then Itoa (AnonIndex sym) else "1")
    else ""
  else
    PackagePath sym +:+ "." +:+
    (if IsInit sym then "init.func1"
     else match Recv sym with
          | Some r =>
              "(*" +:+ TypeName r
              +:+ (if 0 <? Z.of_nat (length (RTypeArgs r))
                   then "[" +:+ Join (RTypeArgs r) ", " +:+ "]" else "")
              +:+ ")." +:+ Name sym
          | None =>
              Name sym
              +:+ (if 0 <? Z.of_nat (length (TypeArgs sym))
                   then "[" +:+ Join (TypeArgs sym) ", " +:+ "]" else "")
          end).

(** ** Fields that hold a brace *)

(** [strings.ContainsAny(s, "{}")]. *)
Definition hasBrace (s : string) : bool := ContainsAny s "{}".

(** Whether a field of the Symbol other than its metadata holds a brace. *)
Definition fieldsHaveBrace (s : Symbol) : bool :=
  hasBrace (PackagePath s) || hasBrace (Name s)
  || match Recv s with
     | Some r => hasBrace (TypeName r) || existsb hasBrace (RTypeArgs r)
     | None => false
     end
  || existsb hasBrace (TypeArgs s)
  || existsb (fun tp => hasBrace (PName tp) || hasBrace (Constraint tp))
       (TypeParams s)
  || hasBrace (Context s).

(** ** Symbols that differ by their position only *)


(** ** Commas outside every group *)

(** The commas among the runes [rs] that lie outside every bracket group and
    every parenthesis group, [depth] and [parenDepth] being the numbers of
    groups open before [rs]. *)
Fixpoint topLevelCommas (rs : list string) (depth parenDepth : Z) : nat :=
  match rs with
  | [] => 0
  | r :: rs' =>
      if (r =? "[")%string then topLevelCommas rs' (depth + 1) parenDepth
      else if (r =? "]")%string then topLevelCommas rs' (depth - 1) parenDepth
      else if (r =? "(")%string then topLevelCommas rs' depth (parenDepth + 1)
      else if (r =? ")")%string then topLevelCommas rs' depth (parenDepth - 1)
      else if (r =? ",")%string then
        ((if (depth =? 0)%Z && (parenDepth =? 0)%Z then 1 else 0)
         + topLevelCommas rs' depth parenDepth)%nat
      else topLevelCommas rs' depth parenDepth
  end.

(** ** What a pattern accepts *)

(** Every byte of [s] is in the class. *)
Fixpoint allC (cls : ascii -> bool) (s : string) : bool :=
  match s with
  | EmptyString => true
  | String c s' => cls c && allC cls s'
  end.

(** [s] splits into one piece per item: the declarative reading of a
    pattern, against which the backtracking search is checked. *)
Fixpoint accepts (its : list item) (anchoredEnd : bool) (s : string) : Prop :=
  match its with
  | [] => if anchoredEnd then s = "" else True
  | Lit l :: its' => exists s', s = l +:+ s' /\ accepts its' anchoredEnd s'
  | Rep _ Plus cls :: its' =>
      exists m s', s = m +:+ s' /\ m <> "" /\ allC cls m = true
                   /\ accepts its' anchoredEnd s'
  | Rep _ Opt cls :: its' =>
      accepts its' anchoredEnd s
      \/ exists c s', s = String c s' /\ cls c = true
                      /\ accepts its' anchoredEnd s'
  end.

(** The part of the location pattern behind its first group. *)
Definition ssaLocationTail : list item :=
  [Lit "@"; Rep true Plus (notChar ":"); Lit ":"; Rep true Plus isDigit;
   Lit ":"; Rep true Plus isDigit].

(** ** Plain stack-trace Symbols *)

(** A text without any of the characters that [FromStackTrace] gives a
    meaning to: brackets, parentheses, the star and the blanks. *)
Definition plainText (s : string) : bool := negb (ContainsAny s traceSpecials).


(** ** Canonical Symbols *)

(** [s] holds none of the bytes [chars]. *)
Definition noneOf (chars s : string) : bool := negb (ContainsAny s chars).

Definition isAscii (c : ascii) : bool := (code c <? 128)%nat.

(** The bytes of a text, one string per byte. *)
Fixpoint chars (s : string) : list string :=
  match s with
  | EmptyString => []
  | String c s' => String c EmptyString :: chars s'
  end.

(** A type argument that [Format] and [parseTypeArgs] agree on: not empty,
    trimmed, ASCII, and free of the characters of the grammar. *)
Definition okArg (a : string) : bool :=
  negb (a =? "")%string && (TrimSpace a =? a)%string && allC isAscii a
  && noneOf "[](),{}@" a.

(** A metadata value: trimmed, without comma or opening brace. *)
Definition okValue (v : string) : bool :=
  (TrimSpace v =? v)%string && noneOf ",{" v.

(** A key of the custom map: trimmed, without comma, brace or colon, and
    none of the three keys that have a field of their own. *)
Definition okKey (k : string) : bool :=
  (TrimSpace k =? k)%string && noneOf ",{:" k
  && negb (k =? "via")%string && negb (k =? "alias")%string
  && negb (k =? "pos")%string.

Definition okReceiver (r : Receiver) : bool :=
  negb (TypeName r =? "")%string && noneOf "{}@()[]*" (TypeName r)
  && negb (Contains (TypeName r) litPart) && forallb okArg (RTypeArgs r).

(** The Symbols that are not anonymous and whose fields keep clear of the
    characters of the grammar. *)
Record Canonical (s : Symbol) : Prop := mkCanonical {
  can_pkg : PackagePath s <> "" /\ noneOf "{}@()[]" (PackagePath s) = true;
  can_name : Name s <> "" /\ noneOf ".{}@()[]" (Name s) = true
             /\ Contains (Name s) litPart = false;
  can_recv : match Recv s with
             | Some r => okReceiver r = true
             | None => True
             end;
  can_init : IsInit s = true
             <-> Recv s = None /\ Name s = "init" /\ TypeArgs s = [];
  can_anon : IsAnonymous s = false /\ AnonParent s = "" /\ AnonIndex s = 0;
  can_tparams : TypeParams s = [];
  can_targs : forallb okArg (TypeArgs s) = true;
  can_ctx : noneOf "@{}[]" (Context s) = true;
  can_meta : okValue (Via (Meta s)) = true /\ okValue (Alias (Meta s)) = true
             /\ okValue (Position (Meta s)) = true
             /\ map_Forall (fun k v => okKey k = true /\ okValue v = true)
                  (Custom (Meta s))
}.

(** The bracketed list of type arguments that [Format] writes behind a name
    or a receiver type. *)
Definition genText (args : list string) : string :=
  if 0 <? Z.of_nat (length args) then "[" +:+ Join args ", " +:+ "]" else "".

(** The text between the parentheses of a receiver. *)
Definition recvInner (r : Receiver) : string :=
  (if IsPointer r then "*" else "") +:+ TypeName r +:+ genText (RTypeArgs r).


(** A type argument that [ToStackTrace] and [FromStackTrace] agree on: one
    that [Format] and [Parse] agree on, without blank, slash or colon. *)
Definition okTraceArg (a : string) : bool := okArg a && noneOf " /:" a.


(** The commas among the runes [rs] that lie outside every bracket group,
    [depth] being the number of groups open before [rs]. *)
Fixpoint commasOutsideBrackets (rs : list string) (depth : Z) : nat :=
  match rs with
  | [] => 0
  | r :: rs' =>
      if (r =? "[")%string then commasOutsideBrackets rs' (depth + 1)
      else if (r =? "]")%string then commasOutsideBrackets rs' (depth - 1)
      else if (r =? ",")%string then
        ((if (depth =? 0)%Z then 1 else 0) + commasOutsideBrackets rs' depth)%nat
      else commasOutsideBrackets rs' depth
  end.

(** * Properties *)

(** ** Evaluation of the parser on the error literals *)

Lemma extractTypeArgs_total sym :
  (exists s, extractTypeArgs sym = (Some s, None))
  \/ (exists e, extractTypeArgs sym = (None, Some e)).
Proof.
  unfold extractTypeArgs.
  repeat match goal with
         | |- context [if ?b then _ else _] => destruct b
         end; eauto.
Qed.

Lemma classify_total p sp c m :
  (exists s, classify p sp c m = (Some s, None))
  \/ (exists e, classify p sp c m = (None, Some e)).
Proof.
  unfold classify.
  destruct (sp =? "init")%string; [eauto|].
  destruct (Contains sp litPart); [apply extractTypeArgs_total|].
  destruct (HasPrefix sp "("); [|apply extractTypeArgs_total].
  destruct (_ || _); [eauto|].
  destruct (_ <? _); [apply extractTypeArgs_total|eauto].
Qed.

(** C3: the five malformed literals are rejected, each for its own reason,
    and [Parse] returns either a Symbol and no error, or an error and no
    Symbol. *)
Theorem C3_parse_errors_return_no_symbol :
  Parse "" = (None, Some "invalid GSRF symbol: empty string")
  /\ Parse "invalidformat"
     = (None, Some "invalid GSRF symbol: no package separator found")
  /\ Parse "pkg.(*Type" = (None, Some "incomplete method receiver")
  /\ Parse "pkg.Function@"
     = (None, Some "invalid GSRF symbol: empty context after @")
  /\ Parse "pkg.Function[T"
     = (None, Some "invalid GSRF symbol: unclosed type parameter bracket")
  /\ forall input,
       (exists s, Parse input = (Some s, None))
       \/ (exists e, Parse input = (None, Some e)).
Proof.
  do 5 (split; [vm_compute; reflexivity|]).
  intros input. unfold Parse.
  destruct (input =? "")%string; [eauto|].
  destruct (extractMetadata input) as [input1 metadata].
  destruct (extractContext input1) as [[input2 context]|]; [|eauto].
  destruct (splitPackage input2) as [[packagePath symbolPart]|msg]; [|eauto].
  destruct (_ || _); [eauto|]. apply classify_total.
Qed.

(** ** Byte strings *)

Lemma sapp_nil_r s : s +:+ "" = s.
Proof. induction s as [|c s IH]; simpl; [done|by f_equal]. Qed.

Lemma sapp_assoc a b c : (a +:+ b) +:+ c = a +:+ b +:+ c.
Proof. induction a as [|x a IH]; simpl; [done|by f_equal]. Qed.

Lemma length_sapp a b :
  String.length (a +:+ b) = (String.length a + String.length b)%nat.
Proof. induction a as [|x a IH]; simpl; [done|by f_equal]. Qed.

Lemma len_sapp a b : len (a +:+ b) = len a + len b.
Proof. unfold len. rewrite length_sapp. lia. Qed.

Lemma len_nonneg s : 0 <= len s.
Proof. unfold len. lia. Qed.

Lemma len_String c s : len (String c s) = 1 + len s.
Proof. unfold len. simpl. lia. Qed.

Lemma len_empty : len "" = 0.
Proof. done. Qed.


Lemma stake_sapp a b : stake (String.length a) (a +:+ b) = a.
Proof. induction a as [|x a IH]; simpl; [by destruct b|by f_equal]. Qed.

Lemma sdrop_sapp a b : sdrop (String.length a) (a +:+ b) = b.
Proof. induction a as [|x a IH]; simpl; done. Qed.

Lemma upto_sapp a b : upto (a +:+ b) (len a) = a.
Proof. unfold upto, len. rewrite Nat2Z.id. apply stake_sapp. Qed.

Lemma from_sapp a b : from (a +:+ b) (len a) = b.
Proof. unfold from, len. rewrite Nat2Z.id. apply sdrop_sapp. Qed.

Lemma sdrop_add n m s : sdrop (n + m) s = sdrop m (sdrop n s).
Proof.
  revert s. induction n as [|n IH]; intros s; simpl; [done|].
  destruct s; [by destruct m|]. apply IH.
Qed.

Lemma from_sapp_add a b n : 0 <= n -> from (a +:+ b) (len a + n) = from b n.
Proof.
  intros Hn. unfold from, len.
  rewrite Z2Nat.inj_add by lia. rewrite Nat2Z.id, sdrop_add, sdrop_sapp. done.
Qed.

Lemma from_0 s : from s 0 = s.
Proof. done. Qed.

Lemma upto_len s : upto s (len s) = s.
Proof. rewrite <-(sapp_nil_r s) at 1. apply upto_sapp. Qed.

Lemma slice_sapp a b c : slice (a +:+ b +:+ c) (len a) (len a + len b) = b.
Proof.
  unfold slice. replace (len a + len b - len a) with (len b) by lia.
  unfold len. rewrite !Nat2Z.id, sdrop_sapp. apply stake_sapp.
Qed.

Lemma eqb_refl_s s : (s =? s)%string = true.
Proof. apply String.eqb_refl. Qed.

Lemma HasPrefix_sapp p s : HasPrefix (p +:+ s) p = true.
Proof.
  induction p as [|c p IH]; simpl; [done|]. by rewrite Ascii.eqb_refl.
Qed.

Lemma HasPrefix_spec s p : HasPrefix s p = true <-> exists r, s = p +:+ r.
Proof.
  revert s. induction p as [|c p IH]; intros s; simpl.
  - split; [eauto|done].
  - destruct s as [|d s]; [split; [done|intros [r Hr]; done]|].
    destruct (Ascii.eqb_spec c d) as [->|Hne].
    + rewrite IH. split; intros [r Hr]; exists r; congruence.
    + split; [done|]. intros [r Hr]. congruence.
Qed.

Lemma mem_byte_sapp c a b : mem_byte c (a +:+ b) = mem_byte c a || mem_byte c b.
Proof. induction a as [|x a IH]; simpl; [done|]. by rewrite IH, orb_assoc. Qed.

Lemma ContainsAny_sapp a b cs :
  ContainsAny (a +:+ b) cs = ContainsAny a cs || ContainsAny b cs.
Proof. induction a as [|x a IH]; simpl; [done|]. by rewrite IH, orb_assoc. Qed.

Lemma Index_unfold c s sub :
  Index (String c s) sub =
  if HasPrefix (String c s) sub then 0
  else if Index s sub <? 0 then -1 else Index s sub + 1.
Proof. reflexivity. Qed.

Lemma Index_empty sub : Index "" sub = if HasPrefix "" sub then 0 else -1.
Proof. reflexivity. Qed.

Lemma LastIndex_unfold c s sub :
  LastIndex (String c s) sub =
  if 0 <=? LastIndex s sub then LastIndex s sub + 1
  else if HasPrefix (String c s) sub then 0 else -1.
Proof. reflexivity. Qed.

Lemma Index_range s sub : -1 <= Index s sub <= len s.
Proof.
  induction s as [|c s IH].
  - rewrite Index_empty, len_empty. destruct (HasPrefix "" sub); lia.
  - rewrite Index_unfold, len_String.
    destruct (HasPrefix (String c s) sub); [pose proof (len_nonneg s); lia|].
    destruct (Z.ltb_spec (Index s sub) 0); lia.
Qed.

Lemma LastIndex_range s sub : -1 <= LastIndex s sub <= len s.
Proof.
  induction s as [|c s IH].
  - simpl. rewrite len_empty. destruct (HasPrefix "" sub); lia.
  - rewrite LastIndex_unfold, len_String.
    destruct (Z.leb_spec 0 (LastIndex s sub)); [lia|].
    destruct (HasPrefix (String c s) sub); pose proof (len_nonneg s); lia.
Qed.

Lemma Contains_byte c s : Contains s (String c "") = mem_byte c s.
Proof.
  unfold Contains. induction s as [|d s IH]; [done|].
  rewrite Index_unfold. simpl. rewrite (Ascii.eqb_sym c d).
  destruct (Ascii.eqb d c); simpl; [done|].
  rewrite <-IH. pose proof (Index_range s (String c "")).
  destruct (Z.ltb_spec (Index s (String c "")) 0).
  - symmetry. apply Z.leb_gt. lia.
  - transitivity true; [apply Z.leb_le; lia|symmetry; apply Z.leb_le; lia].
Qed.

(** ** Evaluation of the parser on nested metadata and on signed indices *)

(** C4: on the documented multi-level promotion (method [Start] of the
    pointer receiver [App] of [myapp], promoted via
    [Component{via:Lifecycle}]) the parser cuts at the last opening brace: the
    name keeps the text [{via:Component] and the via value is [Lifecycle}],
    not the nested value. *)
Theorem C4_nested_via_cut_at_last_brace :
  Parse "myapp.(*App).Start{via:Component{via:Lifecycle}}"
  = (Some (mkSymbol "myapp" "Start{via:Component"
             (Some (mkReceiver "App" true [])) false false "" 0 [] [] ""
             (mkMetadata "Lifecycle}" "" "" ∅)), None).
Proof. vm_compute. reflexivity. Qed.

(** C5: a negative numeral after the [lit] token is accepted: the parser
    returns a Symbol whose anonymous index is [-3] and no error. *)
Theorem C5_negative_index_accepted :
  Parse ("pkg.F" +:+ litPart +:+ "-3")
  = (Some (mkSymbol "pkg" "F" None false true "pkg.F" (-3) [] [] ""
             noMetadata), None).
Proof. vm_compute. reflexivity. Qed.

(** ** The order of the custom entries in [Format] *)

Lemma len_Join_cons x l sep :
  len (Join (x :: l) sep)
  = len x + fold_right (fun y a => len sep + len y + a) 0 l.
Proof.
  revert x. induction l as [|y l IH]; intros x.
  - simpl. lia.
  - change (Join (x :: y :: l) sep) with (x +:+ sep +:+ Join (y :: l) sep).
    rewrite !len_sapp, IH. simpl. lia.
Qed.

Lemma len_Join_perm l1 l2 sep :
  l1 ≡ₚ l2 -> len (Join l1 sep) = len (Join l2 sep).
Proof.
  assert (Hsum : forall a b : list string, a ≡ₚ b ->
            fold_right (fun y a => len sep + len y + a) 0 a
            = fold_right (fun y a => len sep + len y + a) 0 b).
  { induction 1; simpl; lia. }
  assert (Hall : forall l, len (Join l sep) + len sep
            = fold_right (fun y a => len sep + len y + a) 0 l
              + (if l is [] then len sep else 0)).
  { intros [|x l]; [simpl; rewrite len_empty; lia|].
    rewrite len_Join_cons. simpl. lia. }
  intros HP. pose proof (Hall l1) as H1. pose proof (Hall l2) as H2.
  rewrite (Hsum _ _ HP) in H1.
  assert (Hnil : (if l1 is [] then len sep else 0)
                 = (if l2 is [] then len sep else 0)).
  { destruct l1, l2; try reflexivity.
    - apply Permutation_nil_l in HP. discriminate.
    - apply Permutation_nil_r in HP. discriminate. }
  lia.
Qed.

Lemma metaParts_perm m kvs1 kvs2 :
  kvs1 ≡ₚ kvs2 -> metaParts m kvs1 ≡ₚ metaParts m kvs2.
Proof.
  intros HP. unfold metaParts.
  repeat (apply Permutation_app; [reflexivity|]).
  apply Permutation_map, HP.
Qed.

(** C6, as stated: a Symbol with the two custom keys [a] and [b] has two
    different [Format] outputs, so the outputs of two calls need not be
    byte-identical. *)
Lemma C6_two_custom_keys_two_orders :
  ~ (forall s out1 out2, Format s out1 -> Format s out2 -> out1 = out2).
Proof.
  intros H.
  pose (s := mkSymbol "p" "f" None false false "" 0 [] [] ""
               (mkMetadata "" "" "" (<["a" := "1"]> (<["b" := "2"]> ∅)))).
  assert (Hm : map_to_list (Custom (Meta s)) ≡ₚ [("a", "1"); ("b", "2")]).
  { simpl. rewrite map_to_list_insert by (vm_compute; reflexivity).
    rewrite map_to_list_insert by (vm_compute; reflexivity).
    rewrite map_to_list_empty. reflexivity. }
  assert (H1 : Format s (FormatWith [("a", "1"); ("b", "2")] s)).
  { exists [("a", "1"); ("b", "2")]. split; [|reflexivity].
    unfold map_range. symmetry. exact Hm. }
  assert (H2 : Format s (FormatWith [("b", "2"); ("a", "1")] s)).
  { exists [("b", "2"); ("a", "1")]. split; [|reflexivity].
    unfold map_range. rewrite Hm. apply Permutation_swap. }
  specialize (H s _ _ H1 H2).
  assert (Hsz : hasMetadata (Meta s) = true).
  { unfold hasMetadata. simpl.
    rewrite <-length_map_to_list. simpl in Hm.
    rewrite (Permutation_length Hm). reflexivity. }
  unfold FormatWith, formatMetadata in H. rewrite Hsz in H.
  vm_compute in H. discriminate H.
Qed.

(** C6, amended: the outputs of [Format] on one Symbol (two Symbols with the
    same fields and the same custom content are the same value, whatever the
    insertion order) have the same length, and they are byte-identical when
    the custom map holds at most one entry. *)
Theorem C6_format_deterministic_up_to_one_custom_key s out1 out2 :
  Format s out1 -> Format s out2 ->
  len out1 = len out2
  /\ ((size (Custom (Meta s)) <= 1)%nat -> out1 = out2).
Proof.
  intros (kvs1 & HP1 & ->) (kvs2 & HP2 & ->). unfold map_range in *.
  assert (HP : kvs1 ≡ₚ kvs2) by (rewrite HP1, HP2; reflexivity).
  split.
  - unfold FormatWith, formatMetadata. rewrite !len_sapp. f_equal.
    destruct (hasMetadata (Meta s)); [|reflexivity].
    rewrite (Permutation_length (metaParts_perm (Meta s) _ _ HP)).
    destruct (0 <? _); [|reflexivity].
    rewrite !len_sapp.
    rewrite (len_Join_perm _ _ "," (metaParts_perm (Meta s) _ _ HP)).
    reflexivity.
  - intros Hsz. rewrite <-length_map_to_list in Hsz.
    destruct (map_to_list (Custom (Meta s))) as [|kv [|kv' l]].
    + apply Permutation_nil_r in HP1, HP2. by subst.
    + apply Permutation_singleton_r in HP1, HP2. by subst.
    + simpl in Hsz. lia.
Qed.

(** A Symbol with one custom key and its output. *)
Lemma C6_format_deterministic_witness :
  let s := mkSymbol "p" "f" None false false "" 0 [] [] ""
             (mkMetadata "" "" "" {["a" := "1"]}) in
  len (FormatWith [("a", "1")] s) = len (FormatWith [("a", "1")] s)
  /\ ((size (Custom (Meta s)) <= 1)%nat
      -> FormatWith [("a", "1")] s = FormatWith [("a", "1")] s).
Proof.
  intros s.
  apply (C6_format_deterministic_up_to_one_custom_key s);
    (exists [("a", "1")]; split; [|reflexivity];
     unfold map_range; simpl; rewrite map_to_list_singleton; reflexivity).
Defined.

(** ** The numeral that the adapters print for the anonymous index 0 *)




(** ** Braces in the output of [Format] *)

Lemma hasBrace_sapp a b : hasBrace (a +:+ b) = hasBrace a || hasBrace b.
Proof. apply ContainsAny_sapp. Qed.

Lemma hasBrace_Join l sep :
  hasBrace sep = false -> existsb hasBrace l = false ->
  hasBrace (Join l sep) = false.
Proof.
  intros Hsep. induction l as [|x l IH]; [done|].
  intros [Hx Hl]%orb_false_elim. destruct l as [|y l]; [done|].
  change (Join (x :: y :: l) sep) with (x +:+ sep +:+ Join (y :: l) sep).
  by rewrite !hasBrace_sapp, Hx, Hsep, (IH Hl).
Qed.

Lemma hasBrace_digit d : 0 <= d < 10 -> mem_byte (digit d) "{}" = false.
Proof.
  intros Hd.
  assert (d = 0 \/ d = 1 \/ d = 2 \/ d = 3 \/ d = 4 \/ d = 5 \/ d = 6
          \/ d = 7 \/ d = 8 \/ d = 9) as H by lia.
  repeat (destruct H as [->|H]; [reflexivity|]). by subst.
Qed.

Lemma hasBrace_utoa fuel n acc :
  0 <= n -> hasBrace acc = false -> hasBrace (utoa fuel n acc) = false.
Proof.
  revert n acc. induction fuel as [|f IH]; intros n acc Hn Hacc; [done|].
  cbn [utoa].
  assert (Hd : hasBrace (String (digit (n mod 10)) acc) = false).
  { unfold hasBrace. cbn [ContainsAny].
    rewrite hasBrace_digit by (apply Z.mod_pos_bound; lia). exact Hacc. }
  destruct (n <? 10); [exact Hd|].
  apply IH; [apply Z.div_pos; lia|exact Hd].
Qed.

Lemma hasBrace_Itoa n : hasBrace (Itoa n) = false.
Proof.
  unfold Itoa. destruct (Z.ltb_spec n 0).
  - unfold hasBrace. cbn [ContainsAny]. apply hasBrace_utoa; [lia|done].
  - apply hasBrace_utoa; [lia|done].
Qed.

Lemma hasBrace_formatHead s :
  fieldsHaveBrace s = false -> hasBrace (formatHead s) = false.
Proof.
  unfold fieldsHaveBrace.
  intros [[[[[Hp Hn]%orb_false_elim Hr]%orb_false_elim Ha]%orb_false_elim
          Htp]%orb_false_elim Hc]%orb_false_elim.
  unfold formatHead. rewrite !hasBrace_sapp, Hp.
  assert (H1 : hasBrace (formatReceiver (Recv s)) = false).
  { unfold formatReceiver. destruct (Recv s) as [r|]; [|done].
    apply orb_false_elim in Hr as [Ht Hra].
    destruct (IsPointer r), (0 <? _);
      rewrite ?hasBrace_sapp, ?Ht, ?(hasBrace_Join _ ", " eq_refl Hra);
      reflexivity. }
  assert (H2 : hasBrace (formatName s) = false).
  { unfold formatName. destruct (IsAnonymous s); [|done].
    destruct (0 <? _); rewrite ?hasBrace_sapp, ?Hn, ?hasBrace_Itoa;
      reflexivity. }
  assert (H3 : hasBrace (formatGenerics s) = false).
  { unfold formatGenerics. destruct (0 <? _).
    - rewrite !hasBrace_sapp, (hasBrace_Join _ ", " eq_refl Ha). reflexivity.
    - destruct (0 <? _); [|done].
      rewrite !hasBrace_sapp, hasBrace_Join; [reflexivity|reflexivity|].
      clear -Htp. induction (TypeParams s) as [|tp l IH]; [done|].
      simpl in *. apply orb_false_elim in Htp as [Htp Hl].
      apply orb_false_elim in Htp as [Hpn Hcn].
      rewrite (IH Hl), orb_false_r. unfold formatTypeParam.
      rewrite hasBrace_sapp, Hpn.
      destruct (_ && _); [rewrite hasBrace_sapp, Hcn|]; reflexivity. }
  assert (H4 : hasBrace (formatContext s) = false).
  { unfold formatContext. destruct (negb _); [|done].
    rewrite hasBrace_sapp, Hc. reflexivity. }
  rewrite H1, H2, H3, H4. reflexivity.
Qed.

(** C8, as stated: the Symbol that [Parse] returns for [a.b{] has an
    all-empty Metadata and its output holds a brace. *)
Lemma C8_brace_in_name_is_printed :
  let s := mkSymbol "a" "b{" None false false "" 0 [] [] "" noMetadata in
  Parse "a.b{" = (Some s, None)
  /\ hasMetadata (Meta s) = false
  /\ Format s "a.b{" /\ hasBrace "a.b{" = true.
Proof.
  intros s. repeat split.
  exists []. split; [|reflexivity].
  unfold map_range. simpl. by rewrite map_to_list_empty.
Qed.

(** C8, amended: for a Symbol whose Metadata has empty via, alias and
    position and an empty custom map, [Format] writes nothing after the
    context modifier (no metadata block, not even an empty one), and its
    output holds no brace as soon as the other fields hold none. *)
Theorem C8_empty_metadata_omits_block s out :
  Via (Meta s) = "" -> Alias (Meta s) = "" -> Position (Meta s) = "" ->
  Custom (Meta s) = ∅ ->
  Format s out ->
  out = formatHead s /\ (fieldsHaveBrace s = false -> hasBrace out = false).
Proof.
  intros Hv Ha Hp Hc (kvs & _ & ->).
  assert (Hm : hasMetadata (Meta s) = false).
  { unfold hasMetadata. by rewrite Hv, Ha, Hp, Hc. }
  unfold FormatWith, formatMetadata. rewrite Hm, sapp_nil_r.
  split; [done|apply hasBrace_formatHead].
Qed.

(** The generic method of the parser tests. *)
Lemma C8_empty_metadata_witness :
  let s := mkSymbol "pkg" "Add" (Some (mkReceiver "List" true ["T"]))
             false false "" 0 [] [] "linux" noMetadata in
  "pkg.(*List[T]).Add@linux" = formatHead s
  /\ (fieldsHaveBrace s = false -> hasBrace "pkg.(*List[T]).Add@linux" = false).
Proof.
  intros s.
  apply (C8_empty_metadata_omits_block s); try reflexivity.
  exists []. split; [|reflexivity].
  unfold map_range. simpl. by rewrite map_to_list_empty.
Defined.

(** ** What a source location can populate *)





(** ** Searching for a separator whose first byte is absent *)

Lemma HasPrefix_absent c x t :
  mem_byte c t = false -> HasPrefix t (String c x) = false.
Proof.
  destruct t as [|d t]; [done|]. cbn [mem_byte HasPrefix].
  intros [Hd _]%orb_false_elim. by rewrite Hd.
Qed.

Lemma Index_absent c x t : mem_byte c t = false -> Index t (String c x) = -1.
Proof.
  induction t as [|d t IH]; [done|]. intros H.
  rewrite Index_unfold, (HasPrefix_absent _ _ _ H).
  cbn [mem_byte] in H. apply orb_false_elim in H as [_ H].
  by rewrite (IH H).
Qed.

Lemma LastIndex_absent c x t :
  mem_byte c t = false -> LastIndex t (String c x) = -1.
Proof.
  induction t as [|d t IH]; [done|]. intros H.
  rewrite LastIndex_unfold, (HasPrefix_absent _ _ _ H).
  cbn [mem_byte] in H. apply orb_false_elim in H as [_ H].
  by rewrite (IH H).
Qed.

(** The first occurrence of a separator after a text without its first
    byte. *)
Lemma Index_sep c x t r :
  mem_byte c t = false -> Index (t +:+ String c x +:+ r) (String c x) = len t.
Proof.
  induction t as [|d t IH]; intros H.
  - change ("" +:+ String c x +:+ r) with (String c x +:+ r).
    destruct (String c x +:+ r) as [|e u] eqn:E; [done|].
    rewrite Index_unfold, <-E, HasPrefix_sapp. done.
  - change (String d t +:+ String c x +:+ r)
      with (String d (t +:+ String c x +:+ r)).
    rewrite Index_unfold, len_String.
    cbn [mem_byte] in H. apply orb_false_elim in H as [Hd H].
    cbn [HasPrefix]. rewrite Hd, (IH H).
    pose proof (len_nonneg t).
    destruct (Z.ltb_spec (len t) 0); lia.
Qed.






(** ** [TrimSpace] *)

Lemma trimLeft_unfold c1 s1 :
  trimLeft (String c1 s1) =
  if isAsciiSpace c1 then trimLeft s1
  else match s1 with
       | EmptyString => String c1 s1
       | String c2 s2 =>
           if isSpace2 c1 c2 then trimLeft s2
           else match s2 with
                | EmptyString => String c1 s1
                | String c3 s3 =>
                    if isSpace3 c1 c2 c3 then trimLeft s3 else String c1 s1
                end
       end.
Proof. reflexivity. Qed.

Lemma trimRight_unfold c s :
  trimRight (String c s) =
  match trimLeft (String c s) with
  | EmptyString => EmptyString
  | _ => String c (trimRight s)
  end.
Proof. reflexivity. Qed.

(** [trimLeft] returns its argument or the result on a shorter suffix. *)
Lemma trimLeft_cases s :
  trimLeft s = s
  \/ exists u, (String.length u < String.length s)%nat /\ trimLeft s = trimLeft u.
Proof.
  destruct s as [|c1 s1]; [by left|]. rewrite trimLeft_unfold.
  destruct (isAsciiSpace c1); [right; exists s1; simpl; split; [lia|done]|].
  destruct s1 as [|c2 s2]; [by left|].
  destruct (isSpace2 c1 c2); [right; exists s2; simpl; split; [lia|done]|].
  destruct s2 as [|c3 s3]; [by left|].
  destruct (isSpace3 c1 c2 c3); [right; exists s3; simpl; split; [lia|done]|].
  by left.
Qed.

Lemma trimLeft_length s : (String.length (trimLeft s) <= String.length s)%nat.
Proof.
  remember (String.length s) as n eqn:Hn. revert s Hn.
  induction n as [n IH] using lt_wf_ind. intros s ->.
  destruct (trimLeft_cases s) as [->|(u & Hu & ->)]; [done|].
  specialize (IH _ Hu u eq_refl). lia.
Qed.

Lemma trimLeft_idem s : trimLeft (trimLeft s) = trimLeft s.
Proof.
  remember (String.length s) as n eqn:Hn. revert s Hn.
  induction n as [n IH] using lt_wf_ind. intros s ->.
  destruct (trimLeft_cases s) as [H|(u & Hu & H)]; rewrite H; [done|].
  by apply (IH _ Hu).
Qed.

(** A text made of blanks followed by anything is trimmed like the rest. *)
Lemma trimLeft_blank_app a b : trimLeft a = "" -> trimLeft (a +:+ b) = trimLeft b.
Proof.
  remember (String.length a) as n eqn:Hn. revert a Hn.
  induction n as [n IH] using lt_wf_ind. intros a -> Ha.
  destruct a as [|c1 s1]; [done|].
  change (String c1 s1 +:+ b) with (String c1 (s1 +:+ b)).
  rewrite trimLeft_unfold in Ha. rewrite trimLeft_unfold.
  destruct (isAsciiSpace c1).
  { apply (IH (String.length s1)); simpl; [lia|done|done]. }
  destruct s1 as [|c2 s2]; [done|].
  change (String c2 s2 +:+ b) with (String c2 (s2 +:+ b)). cbv beta iota.
  destruct (isSpace2 c1 c2).
  { apply (IH (String.length s2)); simpl; [lia|done|done]. }
  destruct s2 as [|c3 s3]; [done|].
  change (String c3 s3 +:+ b) with (String c3 (s3 +:+ b)). cbv beta iota.
  destruct (isSpace3 c1 c2 c3); [|done].
  apply (IH (String.length s3)); simpl; [lia|done|done].
Qed.

(** [trimRight] removes a suffix made of blanks. *)
Lemma trimRight_split s :
  exists w, s = trimRight s +:+ w /\ trimLeft w = "".
Proof.
  induction s as [|c s (w & Hs & Hw)]; [by exists ""|].
  rewrite trimRight_unfold.
  destruct (trimLeft (String c s)) eqn:E.
  - by exists (String c s).
  - exists w. split; [|done].
    change (String c (trimRight s) +:+ w) with (String c (trimRight s +:+ w)).
    by rewrite <-Hs.
Qed.

Lemma trimRight_idem s : trimRight (trimRight s) = trimRight s.
Proof.
  induction s as [|c s IH]; [done|]. rewrite trimRight_unfold.
  destruct (trimLeft (String c s)) eqn:E; [done|].
  rewrite trimRight_unfold, IH.
  destruct (trimLeft (String c (trimRight s))) eqn:E'; [|done].
  destruct (trimRight_split s) as (w & Hs & Hw).
  assert (H : trimLeft (String c s) = "").
  { rewrite Hs at 1.
    change (String c (trimRight s +:+ w)) with (String c (trimRight s) +:+ w).
    rewrite (trimLeft_blank_app _ _ E'). exact Hw. }
  congruence.
Qed.

Lemma trimLeft_trimRight y :
  trimLeft y = y -> trimLeft (trimRight y) = trimRight y.
Proof.
  intros H. destruct y as [|c1 s1]; [done|].
  rewrite trimRight_unfold, H.
  assert (Hlen : forall u, (String.length u < String.length (String c1 s1))%nat ->
                 trimLeft u <> String c1 s1).
  { intros u Hu Heq. pose proof (trimLeft_length u) as Hl.
    rewrite Heq in Hl. lia. }
  rewrite trimLeft_unfold in H. rewrite trimLeft_unfold.
  destruct (isAsciiSpace c1).
  { destruct (Hlen s1); [simpl; lia|done]. }
  destruct s1 as [|c2 s2]; [done|]. rewrite trimRight_unfold.
  destruct (trimLeft (String c2 s2)); [done|].
  destruct (isSpace2 c1 c2).
  { destruct (Hlen s2); [simpl; lia|done]. }
  destruct s2 as [|c3 s3]; [done|]. rewrite trimRight_unfold.
  destruct (trimLeft (String c3 s3)); [done|].
  destruct (isSpace3 c1 c2 c3); [|done].
  destruct (Hlen s3); [simpl; lia|done].
Qed.

Lemma TrimSpace_idem s : TrimSpace (TrimSpace s) = TrimSpace s.
Proof.
  unfold TrimSpace.
  rewrite (trimLeft_trimRight (trimLeft s)) by apply trimLeft_idem.
  apply trimRight_idem.
Qed.

(** ** The elements of [parseTypeArgs] *)

Lemma pushTrimmed_length args current :
  (length (pushTrimmed args current) <= length args + 1)%nat.
Proof.
  unfold pushTrimmed. destruct (_ =? _)%string; [lia|].
  rewrite length_app. simpl. lia.
Qed.

Lemma pushTrimmed_trimmed args current :
  Forall (fun e => TrimSpace e = e /\ e <> "") args ->
  Forall (fun e => TrimSpace e = e /\ e <> "") (pushTrimmed args current).
Proof.
  intros H. unfold pushTrimmed.
  destruct (String.eqb_spec (TrimSpace current) ""); [done|].
  apply Forall_app. split; [done|].
  apply Forall_singleton. split; [apply TrimSpace_idem|done].
Qed.

Lemma targsStep_trimmed st r :
  Forall (fun e => TrimSpace e = e /\ e <> "") (ta_args st) ->
  Forall (fun e => TrimSpace e = e /\ e <> "") (ta_args (targsStep st r)).
Proof.
  destruct st as [args current depth parenDepth]. unfold targsStep.
  intros H. repeat case_match; simpl; auto using pushTrimmed_trimmed.
Qed.

Lemma targsFold_trimmed rs st :
  Forall (fun e => TrimSpace e = e /\ e <> "") (ta_args st) ->
  Forall (fun e => TrimSpace e = e /\ e <> "")
    (ta_args (fold_left targsStep rs st)).
Proof.
  revert st. induction rs as [|r rs IH]; intros st H; [done|].
  simpl. apply IH, targsStep_trimmed, H.
Qed.

Lemma targsFold_length rs st :
  (length (ta_args (fold_left targsStep rs st))
   <= length (ta_args st) + topLevelCommas rs (ta_depth st) (ta_parenDepth st))%nat.
Proof.
  revert st. induction rs as [|r rs IH]; intros st; [simpl; lia|].
  cbn [fold_left topLevelCommas]. etrans; [apply IH|].
  destruct st as [args current depth parenDepth]. unfold targsStep.
  cbn [ta_args ta_depth ta_parenDepth].
  repeat case_match; simpl;
    try pose proof (pushTrimmed_length args current); lia.
Qed.

(** C7: the nested generic of the parser tests has two type arguments; every
    element that [parseTypeArgs] returns is trimmed and not empty; and the
    list is split at most once per comma lying outside every bracket and
    parenthesis group, so that a text whose commas are all nested yields at
    most one element. *)
Theorem C7_nested_commas_never_split :
  Parse "pkg.Transform[Map[K, V], List[T]]"
  = (Some (mkSymbol "pkg" "Transform" None false false "" 0 []
             ["Map[K, V]"; "List[T]"] "" noMetadata), None)
  /\ (forall s e, In e (parseTypeArgs s) -> TrimSpace e = e /\ e <> "")
  /\ (forall s, (length (parseTypeArgs s)
                 <= 1 + topLevelCommas (runes s) 0 0)%nat).
Proof.
  split; [vm_compute; reflexivity|]. split.
  - intros s e. unfold parseTypeArgs.
    destruct (s =? "")%string; [done|].
    pose proof (targsFold_trimmed (runes s) (mkTargs [] "" 0 0)
                  (Forall_nil_2 _)) as H.
    destruct (0 <? _);
      [apply (pushTrimmed_trimmed _
                (ta_current (fold_left targsStep (runes s) (mkTargs [] "" 0 0))))
         in H|];
      rewrite List.Forall_forall in H; intros Hin; exact (H e Hin).
  - intros s. unfold parseTypeArgs.
    destruct (s =? "")%string; [simpl; lia|].
    pose proof (targsFold_length (runes s) (mkTargs [] "" 0 0)) as H.
    simpl in H.
    destruct (0 <? _); [|lia].
    etrans; [apply pushTrimmed_length|]. lia.
Qed.

(** The first type argument of the nested generic. *)
Lemma C7_nested_commas_witness :
  TrimSpace "Map[K, V]" = "Map[K, V]" /\ "Map[K, V]" <> "".
Proof.
  apply (proj1 (proj2 C7_nested_commas_never_split) "Map[K, V], List[T]").
  vm_compute. left. reflexivity.
Defined.

(** ** The backtracking search *)

Lemma allC_sapp cls a b : allC cls (a +:+ b) = allC cls a && allC cls b.
Proof. induction a as [|c a IH]; simpl; [done|]. by rewrite IH, andb_assoc. Qed.

(** What [c+] took: a non-empty run of the class, as long as possible. *)
Lemma plusLoop_inv {R} cls (k : string -> option R) s m r :
  plusLoop cls k s = Some (m, r) ->
  exists T, s = m +:+ T /\ m <> "" /\ allC cls m = true
            /\ plusLoop cls k T = None /\ k T = Some r.
Proof.
  revert m r. induction s as [|c s IH]; intros m r; [done|].
  cbn [plusLoop]. destruct (cls c) eqn:Hc; [|done].
  destruct (plusLoop cls k s) as [[m' r']|] eqn:E.
  - intros [= <- <-]. destruct (IH _ _ eq_refl) as (T & -> & Hm & Ha & Hn & Hk).
    exists T. simpl. rewrite Hc, Ha. done.
  - destruct (k s) as [r'|] eqn:Ek; [|done]. intros [= <- <-].
    exists s. simpl. rewrite Hc. done.
Qed.


(** When [c+] fails, no run of the class is followed by a match. *)
Lemma plusLoop_none_inv {R} cls (k : string -> option R) m T :
  m <> "" -> allC cls m = true -> plusLoop cls k (m +:+ T) = None ->
  plusLoop cls k T = None /\ k T = None.
Proof.
  intros Hm Ha. induction m as [|c m IH]; [done|].
  cbn [allC] in Ha. apply andb_prop in Ha as [Hc Ha].
  change (String c m +:+ T) with (String c (m +:+ T)).
  cbn [plusLoop]. rewrite Hc.
  destruct (plusLoop cls k (m +:+ T)) as [[m' r']|] eqn:E; [done|].
  destruct (k (m +:+ T)) eqn:Ek; [done|]. intros _.
  destruct m as [|d m]; [done|]. by apply IH.
Qed.

Lemma plusLoop_none_intro {R} cls (k : string -> option R) s :
  (forall m T, s = m +:+ T -> m <> "" -> allC cls m = true -> k T = None) ->
  plusLoop cls k s = None.
Proof.
  induction s as [|c s IH]; intros H; [done|].
  cbn [plusLoop]. destruct (cls c) eqn:Hc; [|done].
  rewrite IH.
  - rewrite (H (String c "") s); [done|done|done|]. simpl. by rewrite Hc.
  - intros m T -> Hm Ha. apply (H (String c m) T); [done|done|].
    simpl. by rewrite Hc.
Qed.

(** The search succeeds exactly on the texts that the pattern accepts. *)
Lemma matchItems_accepts its anch s :
  matchItems its anch s <> None <-> accepts its anch s.
Proof.
  revert s. induction its as [|it its IH]; intros s.
  - simpl. destruct anch; [|done].
    destruct (String.eqb_spec s ""); split; congruence.
  - destruct it as [l|cap [|] cls].
    + cbn [matchItems accepts]. destruct (HasPrefix s l) eqn:Hp.
      * apply HasPrefix_spec in Hp as [r ->]. rewrite sdrop_sapp, IH.
        split; [eauto|]. intros (s' & Hs & Ha).
        assert (s' = r) as -> ; [|done].
        clear -Hs. induction l as [|c l IHl]; [done|].
        injection Hs as Hs. auto.
      * split; [done|]. intros (s' & -> & _).
        by rewrite HasPrefix_sapp in Hp.
    + cbn [matchItems accepts].
      destruct (plusLoop cls (matchItems its anch) s) as [[m r]|] eqn:E.
      * split; [intros _|done].
        apply plusLoop_inv in E as (T & -> & Hm & Ha & _ & Hk).
        exists m, T. repeat split; try done. apply IH. congruence.
      * split; [done|]. intros (m & T & -> & Hm & Ha & Hacc).
        apply (plusLoop_none_inv _ _ _ _ Hm Ha) in E as [_ E].
        apply IH in Hacc. done.
    + cbn [matchItems accepts]. rewrite <-IH.
      destruct s as [|c s'].
      * destruct (matchItems its anch ""); simpl; split; try done.
        -- intros _. by left.
        -- intros [H|(c & s' & H & _)]; done.
      * destruct (cls c) eqn:Hc.
        -- destruct (matchItems its anch s') eqn:E1.
           ++ split; [intros _|done]. right. exists c, s'.
              repeat split; try done. apply IH. congruence.
           ++ destruct (matchItems its anch (String c s')); simpl;
                split; try done.
              ** intros _. by left.
              ** intros [H|(c' & s'' & [= <- <-] & _ & H)]; [done|].
                 apply IH in H. done.
        -- destruct (matchItems its anch (String c s')); simpl;
             split; try done.
           ++ intros _. by left.
           ++ intros [H|(c' & s'' & [= <- <-] & Hc' & _)]; [done|congruence].
Qed.

(** An anchored pattern consumes the whole text. *)
Lemma matchItems_anchored its s g rest :
  matchItems its true s = Some (g, rest) -> rest = "".
Proof.
  revert s g rest. induction its as [|it its IH]; intros s g rest.
  - simpl. destruct (s =? "")%string; [|done]. by intros [= <- <-].
  - destruct it as [l|cap [|] cls]; cbn [matchItems].
    + destruct (HasPrefix s l); [apply IH|done].
    + destruct (plusLoop cls (matchItems its true) s) as [[m [g' r']]|] eqn:E;
        [|done].
      apply plusLoop_inv in E as (T & _ & _ & _ & _ & Hk).
      intros [= <- <-]. simpl. eapply IH, Hk.
    + assert (Hskip : forall x,
                option_map (capture cap "") (matchItems its true x)
                = Some (g, rest) -> rest = "").
      { intros x. destruct (matchItems its true x) as [[g' r']|] eqn:E; [|done].
        intros [= <- <-]. eapply IH, E. }
      destruct s as [|c s']; [apply Hskip|].
      destruct (cls c); [|apply Hskip].
      destruct (matchItems its true s') as [[g' r']|] eqn:E; [|apply Hskip].
      intros [= <- <-]. eapply IH, E.
Qed.

Lemma FindStringSubmatch_whole its s l :
  FindStringSubmatch (mkRegex its true) s = Some l ->
  exists g, l = s :: g /\ matchItems its true s = Some (g, "").
Proof.
  unfold FindStringSubmatch. simpl.
  destruct (matchItems its true s) as [[g rest]|] eqn:E; [|done].
  pose proof (matchItems_anchored _ _ _ _ E) as ->.
  intros [= <-]. exists g. split; [|done].
  f_equal. rewrite len_empty, Z.sub_0_r. apply upto_len.
Qed.

(** ** Splitting a text at a byte *)

Lemma sapp_split a b m T :
  a +:+ b = m +:+ T ->
  (exists t, T = t +:+ b /\ a = m +:+ t)
  \/ (exists b', b = b' +:+ T /\ m = a +:+ b').
Proof.
  revert m. induction a as [|c a IH]; intros m H.
  - right. exists m. done.
  - destruct m as [|d m].
    + left. exists (String c a). done.
    + injection H as -> H. destruct (IH _ H) as [(t & -> & ->)|(b' & -> & ->)].
      * left. by exists t.
      * right. by exists b'.
Qed.

Lemma sapp_inj_l a b b' : a +:+ b = a +:+ b' -> b = b'.
Proof. induction a as [|c a IH]; [done|]. intros [= H]. auto. Qed.

(** The text after the last occurrence of a byte is determined. *)
Lemma last_byte_unique c a b a' b' :
  a +:+ String c b = a' +:+ String c b' ->
  mem_byte c b = false -> mem_byte c b' = false -> a = a' /\ b = b'.
Proof.
  revert a'. induction a as [|d a IH]; intros a' H Hb Hb'.
  - destruct a' as [|d' a']; [by injection H|].
    injection H as <- ->. rewrite mem_byte_sapp in Hb. simpl in Hb.
    rewrite Ascii.eqb_refl, orb_true_r in Hb. done.
  - destruct a' as [|d' a'].
    + injection H as -> <-. rewrite mem_byte_sapp in Hb'. simpl in Hb'.
      rewrite Ascii.eqb_refl, orb_true_r in Hb'. done.
    + injection H as -> H. destruct (IH _ H Hb Hb') as [-> ->]. done.
Qed.

Lemma LastIndex_sep c a b :
  mem_byte c b = false -> LastIndex (a +:+ String c b) (String c "") = len a.
Proof.
  intros Hb. induction a as [|d a IH].
  - change ("" +:+ String c b) with (String c b).
    rewrite LastIndex_unfold, (LastIndex_absent _ _ _ Hb).
    simpl. by rewrite Ascii.eqb_refl.
  - change (String d a +:+ String c b) with (String d (a +:+ String c b)).
    rewrite LastIndex_unfold, IH, len_String.
    pose proof (len_nonneg a). destruct (Z.leb_spec 0 (len a)); lia.
Qed.

Lemma LastIndex_byte_inv c s i :
  LastIndex s (String c "") = i -> 0 <= i ->
  s = upto s i +:+ String c (from s (i + 1))
  /\ mem_byte c (from s (i + 1)) = false.
Proof.
  revert i. induction s as [|d s IH]; intros i; [simpl; lia|].
  rewrite LastIndex_unfold.
  destruct (Z.leb_spec 0 (LastIndex s (String c ""))) as [Hl|Hl].
  - intros <- _. destruct (IH _ eq_refl Hl) as [Hs Hm].
    set (j := LastIndex s (String c "")) in *.
    unfold upto, from in *.
    replace (Z.to_nat (j + 1)) with (S (Z.to_nat j)) by lia.
    replace (Z.to_nat (j + 1 + 1)) with (S (Z.to_nat (j + 1))) by lia.
    cbn [stake sdrop]. split; [|done].
    change (String d ?x +:+ ?y) with (String d (x +:+ y)). by rewrite <-Hs.
  - cbn [HasPrefix]. destruct (Ascii.eqb_spec c d) as [->|]; [|lia].
    intros <- _. change (from (String d s) (0 + 1)) with s.
    change (upto (String d s) 0) with "". split; [done|].
    pose proof (LastIndex_range s (String d "")) as Hr.
    assert (Hi : Index s (String d "") < 0 \/ 0 <= Index s (String d "")) by lia.
    rewrite <-Contains_byte. unfold Contains.
    destruct (Z.leb_spec 0 (Index s (String d ""))) as [Hi'|]; [|done].
    exfalso. clear -Hi' Hl.
    induction s as [|e s IHs]; [simpl in *; lia|].
    rewrite Index_unfold in Hi'. rewrite LastIndex_unfold in Hl.
    destruct (Z.leb_spec 0 (LastIndex s (String d ""))) as [|Hl']; [lia|].
    destruct (HasPrefix (String e s) (String d "")); [lia|].
    destruct (Z.ltb_spec (Index s (String d "")) 0); [lia|]. auto.
Qed.

Lemma split_byte_cons c d s :
  Split (String d s) (String c "")
  = if Ascii.eqb c d then "" :: Split s (String c "")
    else match Split s (String c "") with
         | h :: t => String d h :: t
         | [] => [String d ""]
         end.
Proof.
  unfold Split. cbn [split_from HasPrefix].
  destruct (Ascii.eqb c d); reflexivity.
Qed.

Lemma Split_absent c s : mem_byte c s = false -> Split s (String c "") = [s].
Proof.
  induction s as [|d s IH]; [done|]. cbn [mem_byte].
  intros [Hd Hs]%orb_false_elim. by rewrite split_byte_cons, Hd, (IH Hs).
Qed.

Lemma Split_sep c a b :
  mem_byte c a = false ->
  Split (a +:+ String c b) (String c "") = a :: Split b (String c "").
Proof.
  induction a as [|d a IH]; intros H.
  - change ("" +:+ String c b) with (String c b).
    by rewrite split_byte_cons, Ascii.eqb_refl.
  - cbn [mem_byte] in H. apply orb_false_elim in H as [Hd Ha].
    change (String d a +:+ String c b) with (String d (a +:+ String c b)).
    by rewrite split_byte_cons, Hd, (IH Ha).
Qed.

(** [strings.Split] at a byte is inverted by [strings.Join]; no part holds
    the byte. *)
Lemma Split_byte_spec c s :
  s = Join (Split s (String c "")) (String c "")
  /\ Forall (fun p => mem_byte c p = false) (Split s (String c ""))
  /\ Split s (String c "") <> [].
Proof.
  induction s as [|d s (IH1 & IH2 & IH3)]; [by repeat constructor|].
  rewrite split_byte_cons. destruct (Ascii.eqb_spec c d) as [->|Hcd].
  - destruct (Split s (String d "")) as [|h t] eqn:E; [done|].
    split; [|split; [|done]].
    + change (Join ("" :: h :: t) (String d ""))
        with (String d (Join (h :: t) (String d ""))). by rewrite <-IH1.
    + by constructor.
  - destruct (Split s (String c "")) as [|h t] eqn:E; [done|].
    split; [|split; [|done]].
    + rewrite IH1 at 1. by destruct t.
    + inversion IH2 as [|? ? Hh Ht]; subst. constructor; [|done].
      simpl. rewrite Hh, orb_false_r. by apply Ascii.eqb_neq.
Qed.

(** ** [strconv.Atoi] and [strconv.Itoa] *)








(** On a non-empty run of digits [Atoi] has no sign to read. *)
Lemma Atoi_digits s :
  s <> "" -> allC isDigit s = true ->
  Atoi s = match digitsVal s 0 with
           | Some un => if maxInt <? un then (maxInt, false) else (un, true)
           | None => (0, false)
           end.
Proof.
  intros Hs Ha. destruct s as [|c s]; [done|]. unfold Atoi.
  cbn [allC] in Ha. apply andb_prop in Ha as [Hc _].
  destruct (Ascii.eqb_spec c "-") as [->|_]; [done|].
  destruct (Ascii.eqb_spec c "+") as [->|_]; [done|].
  destruct (digitsVal (String c s) 0); [|done]. simpl.
  by destruct (maxInt <? z).
Qed.

Lemma digitsVal_some s acc :
  allC isDigit s = true -> 0 <= acc ->
  exists v, digitsVal s acc = Some v /\ acc <= v.
Proof.
  revert acc. induction s as [|c s IH]; intros acc Ha Hacc; [by exists acc|].
  cbn [allC] in Ha. apply andb_prop in Ha as [Hc Ha].
  cbn [digitsVal]. rewrite Hc.
  assert (Hcode : 0 <= Z.of_nat (code c) - 48).
  { unfold isDigit, in_range in Hc. apply andb_prop in Hc as [Hc _].
    apply Nat.leb_le in Hc. lia. }
  destruct (IH (10 * acc + (Z.of_nat (code c) - 48)) Ha) as (v & Hv & Hle);
    [lia|].
  exists v. split; [done|lia].
Qed.

(** The index that [FromSSA] reads behind the dollar sign. *)
Lemma Atoi_digits_range s :
  s <> "" -> allC isDigit s = true -> 0 <= fst (Atoi s) <= maxInt.
Proof.
  intros Hs Ha. rewrite (Atoi_digits _ Hs Ha).
  destruct (digitsVal_some s 0 Ha) as (v & -> & Hv); [done|].
  destruct (Z.ltb_spec maxInt v); simpl; unfold maxInt in *; lia.
Qed.


(** ** The patterns of the SSA adapter *)

Ltac inv_lit H :=
  match type of H with
  | context [HasPrefix ?s ?l] =>
      let Hp := fresh "Hp" in
      destruct (HasPrefix s l) eqn:Hp;
      [apply HasPrefix_spec in Hp as [? ->]; rewrite sdrop_sapp in H
      |discriminate H]
  end.

Ltac inv_plus H :=
  match type of H with
  | context [plusLoop ?cls ?k ?s] =>
      let E := fresh "E" in
      let K := fresh "K" in
      destruct (plusLoop cls k s) as [[? [? ?]]|] eqn:E; [|discriminate H];
      apply plusLoop_inv in E as (? & -> & ? & ? & _ & K);
      cbv beta in K
  end.

Ltac inv_end H :=
  match type of H with
  | context [(?s =? "")%string] =>
      destruct (String.eqb_spec s ""); [subst|discriminate H]
  end.

(** A pattern that starts with a captured [c+]. *)
Lemma head_plus_inv cls tl s l :
  FindStringSubmatch (mkRegex (Rep true Plus cls :: tl) true) s = Some l ->
  exists m T g, l = s :: m :: g /\ s = m +:+ T /\ m <> ""
    /\ allC cls m = true
    /\ plusLoop cls (matchItems tl true) T = None
    /\ matchItems tl true T = Some (g, "").
Proof.
  intros H. apply FindStringSubmatch_whole in H as (g & -> & H).
  cbn [matchItems] in H.
  destruct (plusLoop cls (matchItems tl true) s) as [[m [g' r']]|] eqn:E;
    [|done].
  injection H as <- ->.
  apply plusLoop_inv in E as (T & -> & Hm & Ha & Hn & Hk).
  exists m, T, g'. done.
Qed.




Lemma ssaInit_inv s l :
  FindStringSubmatch ssaInitPattern s = Some l ->
  exists m1 D, l = [s; m1; D] /\ s = m1 +:+ ".init#" +:+ D
    /\ m1 <> "" /\ allC anyChar m1 = true
    /\ D <> "" /\ allC isDigit D = true.
Proof.
  intros H. apply head_plus_inv in H as (m1 & T & g & -> & -> & Hm & Ha & _ & H).
  cbn [matchItems] in H. inv_lit H. inv_plus H.
  injection H as <-. inv_end K. injection K as <-.
  eexists _, _. rewrite sapp_nil_r. done.
Qed.

Lemma opt_inv cap cls its anch s g rest :
  matchItems (Rep cap Opt cls :: its) anch s = Some (g, rest) ->
  exists m T r, s = m +:+ T
    /\ (m = "" \/ exists c, m = String c "" /\ cls c = true)
    /\ matchItems its anch T = Some r /\ (g, rest) = capture cap m r.
Proof.
  cbn [matchItems].
  assert (Hskip : option_map (capture cap "") (matchItems its anch s)
                  = Some (g, rest) ->
                  exists m T r, s = m +:+ T
                    /\ (m = "" \/ exists c, m = String c "" /\ cls c = true)
                    /\ matchItems its anch T = Some r
                    /\ (g, rest) = capture cap m r).
  { destruct (matchItems its anch s) as [r|] eqn:E; [|done].
    intros [= <- <-]. exists "", s, r.
    split; [done|]. split; [by left|]. split; [done|reflexivity]. }
  destruct s as [|c s']; [exact Hskip|].
  destruct (cls c) eqn:Hc; [|exact Hskip].
  destruct (matchItems its anch s') as [r|] eqn:E; [|exact Hskip].
  intros [= <- <-]. exists (String c ""), s', r.
  split; [done|]. split; [right; by exists c|]. split; [done|reflexivity].
Qed.




Lemma ssaLocationTail_inv T g :
  matchItems ssaLocationTail true T = Some (g, "") ->
  exists f l c, g = [f; l; c] /\ T = "@" +:+ f +:+ ":" +:+ l +:+ ":" +:+ c
    /\ allC isDigit c = true.
Proof.
  intros H. unfold ssaLocationTail in H. cbn [matchItems] in H.
  inv_lit H. inv_plus H. injection H as <-.
  inv_lit K. inv_plus K. injection K as <- <-.
  inv_lit K0. inv_plus K0. injection K0 as <- <-.
  inv_end K. injection K as <-.
  eexists _, _, _. rewrite sapp_nil_r. done.
Qed.


Lemma lit_inv l its anch s r :
  matchItems (Lit l :: its) anch s = Some r ->
  exists T, s = l +:+ T /\ matchItems its anch T = Some r.
Proof.
  cbn [matchItems]. destruct (HasPrefix s l) eqn:Hp; [|done].
  apply HasPrefix_spec in Hp as [T ->]. rewrite sdrop_sapp. eauto.
Qed.

Lemma plus_inv cap cls its anch s g rest :
  matchItems (Rep cap Plus cls :: its) anch s = Some (g, rest) ->
  exists m T r, s = m +:+ T /\ m <> "" /\ allC cls m = true
    /\ matchItems its anch T = Some r /\ (g, rest) = capture cap m r.
Proof.
  cbn [matchItems].
  destruct (plusLoop cls (matchItems its anch) s) as [[m r]|] eqn:E; [|done].
  apply plusLoop_inv in E as (T & -> & Hm & Ha & _ & Hk).
  intros [= <- <-]. exists m, T, r. done.
Qed.

Lemma end_inv s r : matchItems [] true s = Some r -> s = "" /\ r = ([], "").
Proof.
  simpl. destruct (String.eqb_spec s ""); [|done]. by intros [= <-].
Qed.

Lemma allC_notChar c s : allC (notChar c) s = negb (mem_byte c s).
Proof.
  induction s as [|d s IH]; [done|]. simpl. rewrite IH, negb_orb.
  unfold notChar. by rewrite (Ascii.eqb_sym c d).
Qed.

Lemma ssaFunc_inv s l :
  FindStringSubmatch ssaFuncPattern s = Some l ->
  exists m1 m2, l = [s; m1; m2] /\ s = m1 +:+ "." +:+ m2.
Proof.
  intros H. apply head_plus_inv in H as (m1 & T & g & -> & -> & _ & _ & _ & H).
  apply lit_inv in H as (T1 & -> & H).
  destruct g as [|g0 g]; apply plus_inv in H as (m2 & T2 & r & -> & _ & _ & H & E);
    apply end_inv in H as [-> ->]; [done|].
  injection E as -> ->. exists m1, m2. by rewrite sapp_nil_r.
Qed.

Lemma ssaMethod_inv s l :
  FindStringSubmatch ssaMethodPattern s = Some l ->
  exists m1 m2 m3 m4, l = [s; m1; m2; m3; m4]
    /\ s = m1 +:+ ".(" +:+ m2 +:+ m3 +:+ ")." +:+ m4
    /\ (m2 = "" \/ m2 = "*").
Proof.
  intros H. apply head_plus_inv in H as (m1 & T & g & -> & -> & _ & _ & _ & H).
  apply lit_inv in H as (T1 & -> & H).
  destruct g as [|g0 g]; apply opt_inv in H as (m2 & T2 & r2 & -> & Hm2 & H & E);
    [done|]. injection E as -> ->.
  destruct r2 as [g2 rest2]. simpl.
  destruct g2 as [|g3 g2];
    apply plus_inv in H as (m3 & T3 & r3 & -> & _ & _ & H & E); [done|].
  injection E as -> -> ->.
  apply lit_inv in H as (T4 & -> & H). destruct r3 as [g3 rest3]. simpl.
  destruct g3 as [|g4 g3];
    apply plus_inv in H as (m4 & T5 & r5 & -> & _ & _ & H & E);
    apply end_inv in H as [-> ->]; [done|].
  injection E as -> -> ->.
  exists m1, m2, m3, m4. rewrite sapp_nil_r. split; [done|]. split; [done|].
  destruct Hm2 as [->|(c & -> & Hc)]; [by left|right].
  unfold isChar in Hc. apply Ascii.eqb_eq in Hc as ->. done.
Qed.




Lemma ssaAnon_inv s l :
  FindStringSubmatch ssaAnonPattern s = Some l ->
  exists g m1 m2 D, l = s :: g /\ s = m1 +:+ "." +:+ m2 +:+ "$" +:+ D
    /\ m1 <> "" /\ allC anyChar m1 = true
    /\ m2 <> "" /\ mem_byte "." m2 = false
    /\ D <> "" /\ allC isDigit D = true.
Proof.
  intros H. apply FindStringSubmatch_whole in H as (g & -> & H).
  assert (Hacc : accepts (re_items ssaAnonPattern) true s).
  { apply matchItems_accepts. cbn [re_items ssaAnonPattern]. by rewrite H. }
  cbn [re_items ssaAnonPattern accepts] in Hacc.
  destruct Hacc as (m1 & T1 & -> & Hm1 & Hc1 & T2 & -> & m2 & T3 & -> & Hm2
                    & Hc2 & T4 & -> & D & T5 & -> & HD & HcD & ->).
  rewrite allC_notChar in Hc2. apply negb_true_iff in Hc2.
  exists g, m1, m2, D. rewrite sapp_nil_r. done.
Qed.


Lemma Position_locationMetadata loc : Position (locationMetadata loc) = loc.
Proof.
  unfold locationMetadata. by destruct (String.eqb_spec loc "") as [->|].
Qed.

Lemma digits_no_byte c D :
  isDigit c = false -> allC isDigit D = true -> mem_byte c D = false.
Proof.
  intros Hc. induction D as [|d D IH]; [done|]. cbn [allC mem_byte].
  intros [Hd HD]%andb_prop. rewrite (IH HD), orb_false_r.
  apply Ascii.eqb_neq. congruence.
Qed.



Lemma ssaAnonBranch_inv base meta sym :
  ssaAnonBranch base meta = Some sym ->
  exists m1 m2 D, base = m1 +:+ "." +:+ m2 +:+ "$" +:+ D
    /\ m1 <> "" /\ allC anyChar m1 = true
    /\ m2 <> "" /\ mem_byte "." m2 = false /\ mem_byte "$" m2 = false
    /\ mem_byte "$" m1 = false
    /\ D <> "" /\ allC isDigit D = true
    /\ sym = mkSymbol m1 m2 None false true (m1 +:+ "." +:+ m2)
               (fst (Atoi D)) [] [] "" meta.
Proof.
  unfold ssaAnonBranch.
  destruct (FindStringSubmatch ssaAnonPattern base) as [l|] eqn:Ea; [|done].
  apply ssaAnon_inv in Ea
    as (g & m1 & m2 & D & -> & Hb & Hm1 & Hc1 & Hm2 & Hd2 & HD & HcD).
  destruct (Split_byte_spec "$" base) as (Hj & Hf & _).
  destruct (Split base "$") as [|p0 [|p1 [|? ?]]] eqn:Es; try done.
  destruct (Z.leb_spec 0 (LastIndex p0 ".")) as [Hl|]; [|done].
  intros [= <-].
  apply Forall_cons in Hf as [Hp0 Hf]. apply Forall_cons in Hf as [Hp1 _].
  change (Join [p0; p1] "$") with (p0 +:+ String "$" p1) in Hj.
  rewrite Hj in Hb.
  replace (m1 +:+ "." +:+ m2 +:+ "$" +:+ D)
    with ((m1 +:+ "." +:+ m2) +:+ String "$" D) in Hb by (by rewrite !sapp_assoc).
  apply (last_byte_unique "$") in Hb as [Hp0' Hp1'];
    [|done|by apply digits_no_byte].
  subst p0 p1. clear Hl.
  rewrite !mem_byte_sapp in Hp0.
  apply orb_false_elim in Hp0 as [Hs1 Hs2]. cbn [mem_byte] in Hs2.
  apply orb_false_elim in Hs2 as [_ Hs2].
  exists m1, m2, D. rewrite Hj, !sapp_assoc. repeat split; try done.
  replace (m1 +:+ "." +:+ m2) with (m1 +:+ String "." m2) by done.
  rewrite (LastIndex_sep "." m1 m2 Hd2), upto_sapp, from_sapp_add
    by apply len_nonneg || lia.
  done.
Qed.



(** ** Searching for a text *)

Lemma HasPrefix_mem c t sub :
  HasPrefix t sub = true -> mem_byte c sub = true -> mem_byte c t = true.
Proof.
  intros [r ->]%HasPrefix_spec H. by rewrite mem_byte_sapp, H.
Qed.

(** A text that holds a byte absent from [t] does not occur in [t]. *)
Lemma Index_absent_any c t sub :
  mem_byte c sub = true -> mem_byte c t = false -> Index t sub = -1.
Proof.
  intros Hsub. induction t as [|d t IH]; intros Ht.
  - rewrite Index_empty.
    destruct (HasPrefix "" sub) eqn:E; [|done].
    by rewrite (HasPrefix_mem c _ _ E Hsub) in Ht.
  - rewrite Index_unfold.
    destruct (HasPrefix (String d t) sub) eqn:E.
    { by rewrite (HasPrefix_mem c _ _ E Hsub) in Ht. }
    cbn [mem_byte] in Ht. apply orb_false_elim in Ht as [_ Ht].
    by rewrite (IH Ht).
Qed.

Lemma Contains_absent_any c t sub :
  mem_byte c sub = true -> mem_byte c t = false -> Contains t sub = false.
Proof. intros H1 H2. unfold Contains. by rewrite (Index_absent_any c). Qed.

(** A text occurs in every text built around it. *)
Lemma Contains_mid a b c : Contains (a +:+ b +:+ c) b = true.
Proof.
  unfold Contains. apply Z.leb_le. induction a as [|d a IH].
  - change ("" +:+ b +:+ c) with (b +:+ c).
    destruct (b +:+ c) as [|e u] eqn:E.
    + destruct b; [done|discriminate E].
    + rewrite Index_unfold, <-E, HasPrefix_sapp. done.
  - change (String d a +:+ b +:+ c) with (String d (a +:+ b +:+ c)).
    rewrite Index_unfold. destruct (HasPrefix _ b); [done|].
    destruct (Z.ltb_spec (Index (a +:+ b +:+ c) b) 0); lia.
Qed.

(** The first occurrence of a text whose second byte is new. *)
Lemma Index_sep2 c1 c2 x a r :
  c1 <> c2 -> mem_byte c2 a = false ->
  Index (a +:+ String c1 (String c2 x) +:+ r) (String c1 (String c2 x)) = len a.
Proof.
  intros Hne. induction a as [|d a IH]; intros Ha.
  - change ("" +:+ ?u) with u.
    change (String c1 (String c2 x) +:+ r)
      with (String c1 (String c2 x +:+ r)).
    rewrite Index_unfold.
    change (String c1 (String c2 x +:+ r))
      with (String c1 (String c2 x) +:+ r).
    by rewrite HasPrefix_sapp.
  - change (String d a +:+ ?u) with (String d (a +:+ u)).
    rewrite Index_unfold, len_String.
    cbn [mem_byte] in Ha. apply orb_false_elim in Ha as [Hd Ha].
    rewrite (IH Ha).
    assert (Hp : HasPrefix (String d (a +:+ String c1 (String c2 x) +:+ r))
                   (String c1 (String c2 x)) = false).
    { cbn [HasPrefix]. destruct (Ascii.eqb c1 d); [|done].
      destruct a as [|e a].
      - change ("" +:+ ?u) with u. cbn [String.append HasPrefix].
        destruct (Ascii.eqb_spec c2 c1); [congruence|done].
      - cbn [String.append HasPrefix]. cbn [mem_byte] in Ha.
        apply orb_false_elim in Ha as [He _]. by rewrite He. }
    rewrite Hp. pose proof (len_nonneg a).
    destruct (Z.ltb_spec (len a) 0); lia.
Qed.


Lemma Split_byte_app c a b :
  Split (a +:+ String c b) (String c "")
  = (Split a (String c "") ++ Split b (String c ""))%list.
Proof.
  induction a as [|d a IH].
  - change ("" +:+ ?u) with u. by rewrite split_byte_cons, Ascii.eqb_refl.
  - change (String d a +:+ ?u) with (String d (a +:+ u)).
    rewrite !split_byte_cons, IH.
    destruct (Ascii.eqb c d); [done|].
    destruct (Split_byte_spec c a) as (_ & _ & Hne).
    by destruct (Split a (String c "")).
Qed.

(** ** Plain texts *)


Lemma plainText_no c s :
  mem_byte c traceSpecials = true -> plainText s = true -> mem_byte c s = false.
Proof.
  intros Hc. unfold plainText. induction s as [|d s IH]; [done|].
  cbn [ContainsAny mem_byte]. rewrite negb_orb.
  intros [Hd Hs]%andb_prop. rewrite (IH Hs), orb_false_r.
  destruct (Ascii.eqb_spec c d) as [->|]; [|done].
  by rewrite Hc in Hd.
Qed.


(** Without [.func] in the text, neither the init pattern nor the pattern of
    anonymous functions matches. *)
Lemma trace_patterns_none t :
  Contains t ".func" = false -> traceInit t = None /\ traceAnon t = None.
Proof.
  intros Hc. split.
  - unfold traceInit, MatchString.
    destruct (matchItems _ _ t) as [r|] eqn:E; [|done].
    assert (Hacc : accepts (re_items stackInitPattern) true t)
      by (apply matchItems_accepts; cbn [re_anchoredEnd stackInitPattern] in E;
          by rewrite E).
    cbn [re_items stackInitPattern accepts] in Hacc.
    destruct Hacc as (m & T & -> & _ & _ & T' & -> & _).
    replace (m +:+ ".init.func" +:+ T')
      with ((m +:+ ".init") +:+ ".func" +:+ T') in Hc by (by rewrite !sapp_assoc).
    by rewrite Contains_mid in Hc.
  - unfold traceAnon, FindStringSubmatch.
    destruct (matchItems _ _ t) as [[g r]|] eqn:E; [|done].
    assert (Hacc : accepts (re_items stackAnonPattern) false t)
      by (apply matchItems_accepts; cbn [re_anchoredEnd stackAnonPattern] in E;
          by rewrite E).
    cbn [re_items stackAnonPattern accepts] in Hacc.
    destruct Hacc as (m & T & -> & _ & _ & T' & -> & _).
    by rewrite Contains_mid in Hc.
Qed.


(** ** The stack-trace adapter on plain Symbols *)

Lemma len_pos s : s <> "" -> 0 < len s.
Proof. destruct s; [done|]. rewrite len_String. pose proof (len_nonneg s). lia. Qed.

Lemma ltb_len_pos s : s <> "" -> (0 <? len s) = true.
Proof. intros H. apply Z.ltb_lt. by apply len_pos. Qed.






(** ** Round trips through the adapters *)




(** ** More on searching and slicing *)

Lemma srev_app_sapp s acc : srev_app s acc = srev s +:+ acc.
Proof.
  revert acc. unfold srev. induction s as [|c s IH]; intros acc; [done|].
  cbn [srev_app]. rewrite IH, (IH (String c "")), sapp_assoc. done.
Qed.

Lemma srev_sapp a b : srev (a +:+ b) = srev b +:+ srev a.
Proof.
  induction a as [|c a IH].
  - change ("" +:+ b) with b. by rewrite sapp_nil_r.
  - change (String c a +:+ b) with (String c (a +:+ b)).
    unfold srev in *. cbn [srev_app].
    rewrite (srev_app_sapp (a +:+ b)), (srev_app_sapp a).
    unfold srev. by rewrite IH, sapp_assoc.
Qed.

Lemma HasSuffix_sapp a b : HasSuffix (a +:+ b) b = true.
Proof. unfold HasSuffix. rewrite srev_sapp. apply HasPrefix_sapp. Qed.

(** A match at the start of [a ++ d :: b] that avoids [d] lies in [a]. *)
Lemma HasPrefix_guard a d b sub :
  mem_byte d sub = false ->
  HasPrefix (a +:+ String d b) sub = HasPrefix a sub.
Proof.
  revert a. induction sub as [|c sub IH]; intros a Hd; [done|].
  cbn [mem_byte] in Hd. apply orb_false_elim in Hd as [Hdc Hd].
  destruct a as [|e a].
  - change ("" +:+ ?u) with u. cbn [HasPrefix].
    rewrite Ascii.eqb_sym in Hdc. by rewrite Hdc.
  - change (String e a +:+ ?u) with (String e (a +:+ u)). cbn [HasPrefix].
    destruct (Ascii.eqb c e); [by apply IH|done].
Qed.

Lemma Index_neg_iff s sub : Index s sub < 0 <-> Contains s sub = false.
Proof. unfold Contains. destruct (Z.leb_spec 0 (Index s sub)); split; lia || done. Qed.

(** A text with a byte foreign to [sub] in the middle holds [sub] only if
    one of its two sides does. *)
Lemma Contains_guard a d b sub :
  sub <> "" -> mem_byte d sub = false ->
  Contains a sub = false -> Contains b sub = false ->
  Contains (a +:+ String d b) sub = false.
Proof.
  intros Hne Hd Ha Hb. apply Index_neg_iff. apply Index_neg_iff in Hb.
  induction a as [|e a IH].
  - change ("" +:+ ?u) with u. rewrite Index_unfold.
    destruct sub as [|c sub]; [done|]. cbn [HasPrefix].
    cbn [mem_byte] in Hd. apply orb_false_elim in Hd as [Hdc _].
    rewrite Ascii.eqb_sym in Hdc. rewrite Hdc.
    destruct (Z.ltb_spec (Index b (String c sub)) 0); lia.
  - change (String e a +:+ ?u) with (String e (a +:+ u)).
    apply Index_neg_iff in Ha. rewrite Index_unfold in Ha.
    rewrite Index_unfold.
    change (String e (a +:+ String d b)) with (String e a +:+ String d b).
    rewrite (HasPrefix_guard _ _ _ _ Hd).
    destruct (HasPrefix (String e a) sub); [lia|].
    destruct (Z.ltb_spec (Index a sub) 0) as [Hlt|]; [|lia].
    apply Index_neg_iff in Hlt. specialize (IH Hlt).
    destruct (Z.ltb_spec (Index (a +:+ String d b) sub) 0); lia.
Qed.

(** Leading bytes other than the first byte of [sub] can be skipped. *)
Lemma Contains_skip c x a b :
  mem_byte c a = false ->
  Contains (a +:+ b) (String c x) = Contains b (String c x).
Proof.
  intros Ha. unfold Contains. induction a as [|e a IH]; [done|].
  change (String e a +:+ b) with (String e (a +:+ b)).
  cbn [mem_byte] in Ha. apply orb_false_elim in Ha as [He Ha].
  rewrite Index_unfold. cbn [HasPrefix]. rewrite He.
  specialize (IH Ha).
  destruct (Z.ltb_spec (Index (a +:+ b) (String c x)) 0) as [Hlt|Hge].
  - destruct (Z.leb_spec 0 (Index (a +:+ b) (String c x))); [lia|].
    rewrite <-IH. done.
  - rewrite <-IH.
    destruct (Z.leb_spec 0 (Index (a +:+ b) (String c x))); [|lia].
    apply Z.leb_le. lia.
Qed.

(** The last occurrence of a text whose first byte does not come back. *)
Lemma LastIndex_sep_str c x a b :
  mem_byte c x = false -> mem_byte c b = false ->
  LastIndex (a +:+ String c x +:+ b) (String c x) = len a.
Proof.
  intros Hx Hb. induction a as [|d a IH].
  - change ("" +:+ ?u) with u.
    change (String c x +:+ b) with (String c (x +:+ b)).
    rewrite LastIndex_unfold.
    rewrite (LastIndex_absent c x) by (by rewrite mem_byte_sapp, Hx, Hb).
    change (String c (x +:+ b)) with (String c x +:+ b).
    by rewrite HasPrefix_sapp.
  - change (String d a +:+ ?u) with (String d (a +:+ u)).
    rewrite LastIndex_unfold, IH, len_String.
    pose proof (len_nonneg a). destruct (Z.leb_spec 0 (len a)); lia.
Qed.

(** The last occurrence of a two-byte text whose second byte does not come
    back. *)
Lemma LastIndex_sep2 c1 c2 a b :
  c1 <> c2 -> mem_byte c2 b = false ->
  LastIndex (a +:+ String c1 (String c2 b)) (String c1 (String c2 ""))
  = len a.
Proof.
  intros Hne Hb.
  assert (Hnone : forall u, mem_byte c2 u = false ->
            LastIndex u (String c1 (String c2 "")) = -1).
  { induction u as [|e u IHu]; [done|]. cbn [mem_byte].
    intros [He Hu]%orb_false_elim. rewrite LastIndex_unfold, (IHu Hu).
    cbn [HasPrefix]. destruct (Ascii.eqb c1 e); [|done].
    destruct u as [|f u]; [done|]. cbn [mem_byte] in Hu.
    apply orb_false_elim in Hu as [Hf _]. by rewrite Hf. }
  induction a as [|d a IH].
  - change ("" +:+ ?u) with u. rewrite LastIndex_unfold.
    assert (H1 : LastIndex (String c2 b) (String c1 (String c2 "")) = -1).
    { rewrite LastIndex_unfold, (Hnone _ Hb). cbn [HasPrefix].
      destruct (Ascii.eqb_spec c1 c2); [done|done]. }
    rewrite H1. cbn [HasPrefix]. by rewrite !Ascii.eqb_refl.
  - change (String d a +:+ ?u) with (String d (a +:+ u)).
    rewrite LastIndex_unfold, IH, len_String.
    pose proof (len_nonneg a). destruct (Z.leb_spec 0 (len a)); lia.
Qed.

Lemma bracketCount_sapp a b :
  bracketCount (a +:+ b) = bracketCount a + bracketCount b.
Proof. induction a as [|c a IH]; [done|]. simpl. rewrite IH. lia. Qed.

Lemma bracketCount_none s :
  mem_byte "[" s = false -> mem_byte "]" s = false -> bracketCount s = 0.
Proof.
  induction s as [|c s IH]; [done|]. cbn [mem_byte bracketCount].
  intros [H1 Hs1]%orb_false_elim [H2 Hs2]%orb_false_elim.
  rewrite (IH Hs1 Hs2). rewrite Ascii.eqb_sym in H1. rewrite Ascii.eqb_sym in H2.
  by rewrite H1, H2.
Qed.

Lemma mem_byte_Join c l sep :
  mem_byte c sep = false -> Forall (fun p => mem_byte c p = false) l ->
  mem_byte c (Join l sep) = false.
Proof.
  intros Hsep. induction l as [|x l IH]; [done|].
  intros [Hx Hl]%Forall_cons. destruct l as [|y l]; [done|].
  change (Join (x :: y :: l) sep) with (x +:+ sep +:+ Join (y :: l) sep).
  by rewrite !mem_byte_sapp, Hx, Hsep, (IH Hl).
Qed.

(** [strings.Split] undoes [strings.Join] when no part holds the
    separator. *)
Lemma Split_Join_byte c l :
  l <> [] -> Forall (fun p => mem_byte c p = false) l ->
  Split (Join l (String c "")) (String c "") = l.
Proof.
  induction l as [|x l IH]; [done|]. intros _ [Hx Hl]%Forall_cons.
  destruct l as [|y l]; [by apply Split_absent|].
  change (Join (x :: y :: l) (String c ""))
    with (x +:+ String c (Join (y :: l) (String c ""))).
  rewrite Split_sep by done. by rewrite IH.
Qed.

Lemma SplitN2_sep c k v :
  mem_byte c k = false ->
  SplitN2 (k +:+ String c v) (String c "") = [k; v].
Proof.
  intros Hk. unfold SplitN2.
  replace (k +:+ String c v) with (k +:+ String c "" +:+ v) by done.
  rewrite (Index_sep c "" k v Hk).
  pose proof (len_nonneg k). destruct (Z.ltb_spec (len k) 0); [lia|].
  rewrite upto_sapp, from_sapp_add by done. done.
Qed.

(** ** [parseTypeArgs] on the text that [Format] writes *)

Lemma noneOf_cons chars c s :
  noneOf chars (String c s) = negb (mem_byte c chars) && noneOf chars s.
Proof. unfold noneOf. cbn [ContainsAny]. by rewrite negb_orb. Qed.

Lemma noneOf_sapp chars a b :
  noneOf chars (a +:+ b) = noneOf chars a && noneOf chars b.
Proof. unfold noneOf. by rewrite ContainsAny_sapp, negb_orb. Qed.

Lemma noneOf_no c chars s :
  mem_byte c chars = true -> noneOf chars s = true -> mem_byte c s = false.
Proof.
  intros Hc. induction s as [|d s IH]; [done|].
  rewrite noneOf_cons. cbn [mem_byte].
  intros [Hd Hs]%andb_prop. rewrite (IH Hs), orb_false_r.
  destruct (Ascii.eqb_spec c d) as [->|]; [|done].
  by rewrite Hc in Hd.
Qed.

Lemma runes_ascii s : allC isAscii s = true -> runes s = chars s.
Proof.
  induction s as [|c s IH]; [done|]. cbn [allC].
  intros [Hc Hs]%andb_prop. cbn [runes chars].
  unfold isAscii in Hc. by rewrite Hc, (IH Hs).
Qed.

Lemma chars_sapp a b : chars (a +:+ b) = (chars a ++ chars b)%list.
Proof. induction a as [|c a IH]; [done|]. simpl. by rewrite IH. Qed.

Lemma allC_Join cls l sep :
  allC cls sep = true -> forallb (allC cls) l = true ->
  allC cls (Join l sep) = true.
Proof.
  intros Hsep. induction l as [|x l IH]; [done|]. cbn [forallb].
  intros [Hx Hl]%andb_prop. destruct l as [|y l]; [done|].
  change (Join (x :: y :: l) sep) with (x +:+ sep +:+ Join (y :: l) sep).
  by rewrite !allC_sapp, Hx, Hsep, (IH Hl).
Qed.

(** The bytes of a type argument are appended to the current element. *)
Lemma targsFold_plain a acc cur :
  noneOf "[](),{}@" a = true ->
  fold_left targsStep (chars a) (mkTargs acc cur 0 0)
  = mkTargs acc (cur +:+ a) 0 0.
Proof.
  revert cur. induction a as [|c a IH]; intros cur Ha.
  - by rewrite sapp_nil_r.
  - rewrite noneOf_cons in Ha. apply andb_prop in Ha as [Hc Ha].
    cbn [chars fold_left].
    assert (Hstep : targsStep (mkTargs acc cur 0 0) (String c "")
                    = mkTargs acc (cur +:+ String c "") 0 0).
    { unfold targsStep. cbn [mem_byte] in Hc.
      rewrite !negb_orb in Hc.
      repeat match goal with
             | H : _ && _ = true |- _ => apply andb_prop in H as [? ?]
             end.
      repeat match goal with
             | H : negb (Ascii.eqb c ?x) = true |- _ =>
                 apply negb_true_iff, Ascii.eqb_neq in H
             end.
      destruct (String.eqb_spec (String c "") "[") as [[= ->]|_]; [done|].
      destruct (String.eqb_spec (String c "") "]") as [[= ->]|_]; [done|].
      destruct (String.eqb_spec (String c "") "(") as [[= ->]|_]; [done|].
      destruct (String.eqb_spec (String c "") ")") as [[= ->]|_]; [done|].
      destruct (String.eqb_spec (String c "") ",") as [[= ->]|_]; [done|].
      done. }
    rewrite Hstep, (IH _ Ha), sapp_assoc. done.
Qed.

Lemma TrimSpace_blank a : TrimSpace (" " +:+ a) = TrimSpace a.
Proof. reflexivity. Qed.

Lemma okArg_inv a :
  okArg a = true ->
  a <> "" /\ TrimSpace a = a /\ allC isAscii a = true
  /\ noneOf "[](),{}@" a = true.
Proof.
  unfold okArg. intros [[[H1 H2]%andb_prop H3]%andb_prop H4]%andb_prop.
  apply negb_true_iff, String.eqb_neq in H1. apply String.eqb_eq in H2. done.
Qed.

Lemma targsFold_Join l acc cur0 :
  l <> [] -> forallb okArg l = true -> cur0 = "" \/ cur0 = " " ->
  (if 0 <? len (ta_current
                  (fold_left targsStep (chars (Join l ", "))
                     (mkTargs acc cur0 0 0)))
   then pushTrimmed
          (ta_args (fold_left targsStep (chars (Join l ", "))
                      (mkTargs acc cur0 0 0)))
          (ta_current (fold_left targsStep (chars (Join l ", "))
                         (mkTargs acc cur0 0 0)))
   else ta_args (fold_left targsStep (chars (Join l ", "))
                   (mkTargs acc cur0 0 0)))
  = (acc ++ l)%list.
Proof.
  revert acc cur0. induction l as [|a l IH]; [done|].
  intros acc cur0 _ Hl Hcur. cbn [forallb] in Hl.
  apply andb_prop in Hl as [Ha Hl].
  destruct (okArg_inv _ Ha) as (Hne & Htrim & _ & Hnone).
  assert (Hpush : pushTrimmed acc (cur0 +:+ a) = (acc ++ [a])%list).
  { unfold pushTrimmed.
    assert (TrimSpace (cur0 +:+ a) = a) as ->
      by (destruct Hcur as [-> | ->]; [done|by rewrite TrimSpace_blank]).
    by destruct (String.eqb_spec a ""). }
  destruct l as [|b l].
  - cbn [Join]. rewrite targsFold_plain by done.
    cbn [ta_current ta_args].
    assert (0 < len (cur0 +:+ a)).
    { rewrite len_sapp. pose proof (len_nonneg cur0). pose proof (len_pos a Hne). lia. }
    destruct (Z.ltb_spec 0 (len (cur0 +:+ a))); [done|lia].
  - change (Join (a :: b :: l) ", ") with (a +:+ ", " +:+ Join (b :: l) ", ").
    rewrite !chars_sapp, !fold_left_app, targsFold_plain by done.
    change (fold_left targsStep (chars ", ") (mkTargs acc (cur0 +:+ a) 0 0))
      with (mkTargs (pushTrimmed acc (cur0 +:+ a)) " " 0 0).
    rewrite Hpush.
    rewrite (IH (acc ++ [a])%list " ") by (done || by right).
    by rewrite <-app_assoc.
Qed.

(** [parseTypeArgs] splits the text that [Format] joins. *)
Lemma parseTypeArgs_Join l :
  l <> [] -> forallb okArg l = true -> parseTypeArgs (Join l ", ") = l.
Proof.
  intros Hne Hl. unfold parseTypeArgs.
  assert (Hascii : allC isAscii (Join l ", ") = true).
  { apply allC_Join; [done|]. clear Hne.
    induction l as [|a l IH]; [done|]. cbn [forallb] in *.
    apply andb_prop in Hl as [Ha Hl].
    destruct (okArg_inv _ Ha) as (_ & _ & -> & _). by rewrite IH. }
  assert (Hnonempty : Join l ", " <> "").
  { destruct l as [|a l]; [done|]. cbn [forallb] in Hl.
    apply andb_prop in Hl as [Ha _].
    destruct (okArg_inv _ Ha) as (Hne' & _). destruct l; [done|].
    cbn [Join]. by destruct a. }
  destruct (String.eqb_spec (Join l ", ") ""); [done|].
  rewrite (runes_ascii _ Hascii).
  exact (targsFold_Join l [] "" Hne Hl (or_introl eq_refl)).
Qed.

(** ** The metadata block *)

Lemma okValue_inv v :
  okValue v = true ->
  TrimSpace v = v /\ mem_byte "," v = false /\ mem_byte "{" v = false.
Proof.
  unfold okValue. intros [H1 H2]%andb_prop. apply String.eqb_eq in H1.
  split; [done|]. split; by apply (noneOf_no _ ",{").
Qed.

Lemma okKey_inv k :
  okKey k = true ->
  TrimSpace k = k /\ mem_byte "," k = false /\ mem_byte "{" k = false
  /\ mem_byte ":" k = false /\ k <> "via" /\ k <> "alias" /\ k <> "pos".
Proof.
  unfold okKey.
  intros [[[[H1 H2]%andb_prop H3]%andb_prop H4]%andb_prop H5]%andb_prop.
  apply String.eqb_eq in H1.
  apply negb_true_iff, String.eqb_neq in H3, H4, H5.
  repeat split; try done; by apply (noneOf_no _ ",{:").
Qed.

Lemma parseMetaPart_via m v :
  TrimSpace v = v ->
  parseMetaPart m ("via:" +:+ v) = mkMetadata v (Alias m) (Position m) (Custom m).
Proof.
  intros Hv. unfold parseMetaPart.
  change ("via:" +:+ v) with ("via" +:+ String ":" v).
  rewrite SplitN2_sep by done. by rewrite Hv.
Qed.

Lemma parseMetaPart_alias m v :
  TrimSpace v = v ->
  parseMetaPart m ("alias:" +:+ v) = mkMetadata (Via m) v (Position m) (Custom m).
Proof.
  intros Hv. unfold parseMetaPart.
  change ("alias:" +:+ v) with ("alias" +:+ String ":" v).
  rewrite SplitN2_sep by done. by rewrite Hv.
Qed.

Lemma parseMetaPart_pos m v :
  TrimSpace v = v ->
  parseMetaPart m ("pos:" +:+ v) = mkMetadata (Via m) (Alias m) v (Custom m).
Proof.
  intros Hv. unfold parseMetaPart.
  change ("pos:" +:+ v) with ("pos" +:+ String ":" v).
  rewrite SplitN2_sep by done. by rewrite Hv.
Qed.

Lemma parseMetaPart_custom m k v :
  okKey k = true -> TrimSpace v = v ->
  parseMetaPart m (k +:+ ":" +:+ v)
  = mkMetadata (Via m) (Alias m) (Position m) (<[k := v]> (Custom m)).
Proof.
  intros (Hk & _ & _ & Hc & H1 & H2 & H3)%okKey_inv Hv. unfold parseMetaPart.
  change (k +:+ ":" +:+ v) with (k +:+ String ":" v).
  rewrite SplitN2_sep by done. rewrite Hk, Hv.
  destruct (String.eqb_spec k "via"); [done|].
  destruct (String.eqb_spec k "alias"); [done|].
  by destruct (String.eqb_spec k "pos").
Qed.

(** Inserting the entries of a map, in any order, builds the map. *)
Lemma fold_insert_perm (kvs : list (string * string)) (m : gmap string string) :
  kvs ≡ₚ map_to_list m ->
  fold_left (fun M kv => <[kv.1 := kv.2]> M) kvs ∅ = m.
Proof.
  intros HP. rewrite <-fold_left_rev_right.
  change (fold_right (fun (y : string * string) (x : gmap string string) =>
                        <[y.1 := y.2]> x) ∅ (rev kvs))
    with (list_to_map (rev kvs) : gmap string string).
  assert (HP' : rev kvs ≡ₚ map_to_list m)
    by (by rewrite <-Permutation_rev).
  rewrite <-(list_to_map_to_list m). apply list_to_map_proper; [|done].
  rewrite HP'. apply NoDup_fst_map_to_list.
Qed.

Lemma fold_custom kvs a b c M0 :
  Forall (fun kv => okKey kv.1 = true /\ okValue kv.2 = true) kvs ->
  fold_left parseMetaPart (map (fun kv => kv.1 +:+ ":" +:+ kv.2) kvs)
    (mkMetadata a b c M0)
  = mkMetadata a b c (fold_left (fun M kv => <[kv.1 := kv.2]> M) kvs M0).
Proof.
  revert M0. induction kvs as [|[k v] kvs IH]; intros M0; [done|].
  intros [[Hk Hv] Hkvs]%Forall_cons. cbn [map fold_left fst snd].
  apply okValue_inv in Hv as (Hv & _).
  rewrite parseMetaPart_custom by done. cbn [Via Alias Position Custom].
  by apply IH.
Qed.

Lemma fold_metaParts m kvs :
  okValue (Via m) = true -> okValue (Alias m) = true ->
  okValue (Position m) = true ->
  Forall (fun kv => okKey kv.1 = true /\ okValue kv.2 = true) kvs ->
  kvs ≡ₚ map_to_list (Custom m) ->
  fold_left parseMetaPart (metaParts m kvs) noMetadata = m.
Proof.
  intros (Hv & _)%okValue_inv (Ha & _)%okValue_inv (Hp & _)%okValue_inv
         Hkvs HP.
  unfold metaParts. rewrite !fold_left_app.
  assert (H1 : fold_left parseMetaPart
                 (if negb (Via m =? "")%string then ["via:" +:+ Via m] else [])
                 noMetadata = mkMetadata (Via m) "" "" ∅).
  { destruct (String.eqb_spec (Via m) "") as [->|]; [done|].
    cbn [negb fold_left]. by rewrite parseMetaPart_via. }
  rewrite H1.
  assert (H2 : fold_left parseMetaPart
                 (if negb (Alias m =? "")%string then ["alias:" +:+ Alias m]
                  else [])
                 (mkMetadata (Via m) "" "" ∅)
               = mkMetadata (Via m) (Alias m) "" ∅).
  { destruct (String.eqb_spec (Alias m) "") as [->|]; [done|].
    cbn [negb fold_left]. by rewrite parseMetaPart_alias. }
  rewrite H2.
  assert (H3 : fold_left parseMetaPart
                 (if negb (Position m =? "")%string
                  then ["pos:" +:+ Position m] else [])
                 (mkMetadata (Via m) (Alias m) "" ∅)
               = mkMetadata (Via m) (Alias m) (Position m) ∅).
  { destruct (String.eqb_spec (Position m) "") as [->|]; [done|].
    cbn [negb fold_left]. by rewrite parseMetaPart_pos. }
  rewrite H3, fold_custom, (fold_insert_perm _ _ HP) by done.
  by destruct m.
Qed.

Lemma metaParts_free c m kvs :
  c = ","%char \/ c = "{"%char ->
  okValue (Via m) = true -> okValue (Alias m) = true ->
  okValue (Position m) = true ->
  Forall (fun kv => okKey kv.1 = true /\ okValue kv.2 = true) kvs ->
  Forall (fun p => mem_byte c p = false) (metaParts m kvs).
Proof.
  intros Hc Hv Ha Hp Hkvs.
  assert (Hval : forall v, okValue v = true -> mem_byte c v = false).
  { intros v (_ & H1 & H2)%okValue_inv. by destruct Hc as [-> | ->]. }
  assert (Hkey : forall k, okKey k = true -> mem_byte c k = false).
  { intros k (_ & H1 & H2 & _)%okKey_inv. by destruct Hc as [-> | ->]. }
  assert (Hlit : mem_byte c "via:alias:pos:" = false)
    by (by destruct Hc as [-> | ->]).
  unfold metaParts. repeat apply Forall_app_2.
  - destruct (negb _); [|done]. apply Forall_singleton.
    rewrite mem_byte_sapp, (Hval _ Hv). by destruct Hc as [-> | ->].
  - destruct (negb _); [|done]. apply Forall_singleton.
    rewrite mem_byte_sapp, (Hval _ Ha). by destruct Hc as [-> | ->].
  - destruct (negb _); [|done]. apply Forall_singleton.
    rewrite mem_byte_sapp, (Hval _ Hp). by destruct Hc as [-> | ->].
  - apply Forall_map. eapply Forall_impl; [exact Hkvs|].
    intros [k v] [Hk Hv']. cbn beta iota delta [fst snd] in *.
    rewrite !mem_byte_sapp, (Hkey _ Hk), (Hval _ Hv').
    by destruct Hc as [-> | ->].
Qed.

Lemma metaParts_nonempty m kvs :
  hasMetadata m = true -> length kvs = size (Custom m) ->
  metaParts m kvs <> [].
Proof.
  unfold hasMetadata, metaParts. intros H Hlen.
  destruct (negb (Via m =? "")%string); [done|].
  destruct (negb (Alias m =? "")%string); [done|].
  destruct (negb (Position m =? "")%string); [done|].
  cbn [orb] in H. apply Z.ltb_lt in H.
  destruct kvs; [simpl in Hlen; lia|done].
Qed.

Lemma hasMetadata_false m : hasMetadata m = false -> m = noMetadata.
Proof.
  unfold hasMetadata.
  intros [[[H1 H2]%orb_false_elim H3]%orb_false_elim H4]%orb_false_elim.
  apply negb_false_iff, String.eqb_eq in H1, H2, H3.
  apply Z.ltb_ge in H4.
  assert (Custom m = ∅) by (apply map_size_empty_inv; lia).
  destruct m; simpl in *; by subst.
Qed.

(** Phase 1 of [Parse] removes the block that [Format] wrote and reads the
    metadata back. *)
Lemma extractMetadata_format head m kvs :
  head <> "" -> mem_byte "{" head = false -> bracketCount head = 0 ->
  okValue (Via m) = true -> okValue (Alias m) = true ->
  okValue (Position m) = true ->
  map_Forall (fun k v => okKey k = true /\ okValue v = true) (Custom m) ->
  kvs ≡ₚ map_to_list (Custom m) ->
  extractMetadata (head +:+ formatMetadata m kvs) = (head, m).
Proof.
  intros Hne Hb Hbc Hv Ha Hp Hc HP.
  assert (Hkvs : Forall (fun kv => okKey kv.1 = true /\ okValue kv.2 = true) kvs).
  { rewrite HP. apply map_Forall_to_list in Hc.
    eapply Forall_impl; [exact Hc|]. by intros [k v]. }
  unfold formatMetadata. destruct (hasMetadata m) eqn:Hm.
  - pose proof (metaParts_nonempty m kvs Hm) as Hparts.
    rewrite (Permutation_length HP), length_map_to_list in Hparts.
    specialize (Hparts eq_refl).
    set (parts := metaParts m kvs) in *.
    assert (Hlen : (0 <? Z.of_nat (length parts)) = true)
      by (apply Z.ltb_lt; destruct parts; [done|simpl; lia]).
    rewrite Hlen. unfold extractMetadata.
    assert (HJ : mem_byte "{" (Join parts ",") = false)
      by (apply mem_byte_Join; [done|by apply metaParts_free; auto]).
    replace (head +:+ "{" +:+ Join parts "," +:+ "}")
      with (head +:+ String "{" (Join parts "," +:+ "}")) by done.
    rewrite LastIndex_sep by (by rewrite mem_byte_sapp, HJ).
    rewrite (ltb_len_pos _ Hne).
    replace (head +:+ String "{" (Join parts "," +:+ "}"))
      with ((head +:+ "{" +:+ Join parts ",") +:+ "}")
      by (by rewrite !sapp_assoc).
    rewrite HasSuffix_sapp. cbn [andb].
    replace ((head +:+ "{" +:+ Join parts ",") +:+ "}")
      with ((head +:+ "{") +:+ Join parts "," +:+ "}")
      by (by rewrite !sapp_assoc).
    replace (len head + 1) with (len (head +:+ "{"))
      by (rewrite len_sapp; done).
    replace (len ((head +:+ "{") +:+ Join parts "," +:+ "}") - 1)
      with (len (head +:+ "{") + len (Join parts ","))
      by (rewrite !len_sapp; change (len "}") with 1; lia).
    rewrite slice_sapp.
    replace ((head +:+ "{") +:+ Join parts "," +:+ "}")
      with (head +:+ "{" +:+ Join parts "," +:+ "}")
      by (by rewrite !sapp_assoc).
    rewrite upto_sapp, Hbc. cbn [Z.eqb].
    rewrite Split_Join_byte by (done || by apply metaParts_free; auto).
    subst parts. by rewrite fold_metaParts.
  - rewrite sapp_nil_r. unfold extractMetadata.
    rewrite (LastIndex_absent "{" "" head Hb). cbn.
    by rewrite (hasMetadata_false _ Hm).
Qed.

(** Phase 2 of [Parse] removes the context that [Format] wrote. *)
Lemma extractContext_format h0 ctx :
  h0 <> "" -> mem_byte "@" h0 = false -> bracketCount h0 = 0 ->
  mem_byte "@" ctx = false ->
  extractContext (h0 +:+ (if negb (ctx =? "")%string then "@" +:+ ctx else ""))
  = Some (h0, ctx).
Proof.
  intros Hne Hat Hbc Hctx. unfold extractContext.
  destruct (String.eqb_spec ctx "") as [->|Hc]; cbn [negb].
  - rewrite sapp_nil_r, (LastIndex_absent "@" "" h0 Hat). done.
  - replace (h0 +:+ "@" +:+ ctx) with (h0 +:+ String "@" ctx) by done.
    rewrite LastIndex_sep, (ltb_len_pos _ Hne) by done.
    rewrite upto_sapp, Hbc, from_sapp_add by lia. cbn [Z.eqb].
    change (from (String "@" ctx) 1) with ctx.
    by destruct (String.eqb_spec ctx "").
Qed.

(** ** Names followed by type arguments *)

Lemma genText_nil : genText [] = "".
Proof. reflexivity. Qed.

Lemma genText_cons a l : genText (a :: l) = "[" +:+ Join (a :: l) ", " +:+ "]".
Proof.
  unfold genText.
  destruct (Z.ltb_spec 0 (Z.of_nat (length (a :: l)))) as [|H]; [done|].
  simpl in H. lia.
Qed.

Lemma okArgs_no c l :
  mem_byte c "[](),{}@" = true -> forallb okArg l = true ->
  Forall (fun p => mem_byte c p = false) l.
Proof.
  intros Hc. induction l as [|a l IH]; [done|]. cbn [forallb].
  intros [Ha Hl]%andb_prop. constructor; [|by apply IH].
  destruct (okArg_inv _ Ha) as (_ & _ & _ & Hn). by apply (noneOf_no _ _ _ Hc).
Qed.

Lemma okArgs_ascii l : forallb okArg l = true -> forallb (allC isAscii) l = true.
Proof.
  induction l as [|a l IH]; [done|]. cbn [forallb].
  intros [Ha Hl]%andb_prop. destruct (okArg_inv _ Ha) as (_ & _ & -> & _).
  by rewrite IH.
Qed.

(** A byte of the grammar other than the brackets and the comma does not
    occur in the list. *)
Lemma genText_no c l :
  mem_byte c "(){}@" = true -> forallb okArg l = true ->
  mem_byte c (genText l) = false.
Proof.
  intros Hc Hl. destruct l as [|a l]; [done|]. rewrite genText_cons.
  assert (Hc' : mem_byte c "[](),{}@" = true).
  { cbn [mem_byte] in *. repeat (apply orb_prop in Hc as [Hc|Hc]);
      try rewrite Hc; rewrite ?orb_true_r; done. }
  assert (Hsep : mem_byte c ", " = false /\ mem_byte c "[" = false
                 /\ mem_byte c "]" = false).
  { cbn [mem_byte] in Hc. cbn [mem_byte].
    repeat (apply orb_prop in Hc as [Hc|Hc]); try done;
      apply Ascii.eqb_eq in Hc as ->; done. }
  destruct Hsep as (H1 & H2 & H3).
  rewrite !mem_byte_sapp, H2, H3, mem_byte_Join; [done|done|].
  by apply okArgs_no.
Qed.

Lemma isAscii_no_high c s :
  isAscii c = false -> allC isAscii s = true -> mem_byte c s = false.
Proof.
  intros Hc. induction s as [|d s IH]; [done|]. cbn [allC mem_byte].
  intros [Hd Hs]%andb_prop. rewrite (IH Hs), orb_false_r.
  apply Ascii.eqb_neq. congruence.
Qed.

Lemma genText_ascii l : forallb okArg l = true -> allC isAscii (genText l) = true.
Proof.
  intros Hl. destruct l as [|a l]; [done|]. rewrite genText_cons.
  rewrite !allC_sapp, allC_Join; [done|done|by apply okArgs_ascii].
Qed.

Lemma bracketCount_genText l : forallb okArg l = true -> bracketCount (genText l) = 0.
Proof.
  intros Hl. destruct l as [|a l]; [done|]. rewrite genText_cons.
  rewrite !bracketCount_sapp, (bracketCount_none (Join _ _)).
  - done.
  - apply mem_byte_Join; [done|by apply okArgs_no].
  - apply mem_byte_Join; [done|by apply okArgs_no].
Qed.

(** Where the brackets of [base[args]] are. *)
Lemma generic_brackets base a l :
  mem_byte "[" base = false -> forallb okArg (a :: l) = true ->
  Index (base +:+ genText (a :: l)) "[" = len base
  /\ LastIndex (base +:+ genText (a :: l)) "]"
     = len base + 1 + len (Join (a :: l) ", ")
  /\ upto (base +:+ genText (a :: l)) (len base) = base
  /\ slice (base +:+ genText (a :: l)) (len base + 1)
       (len base + 1 + len (Join (a :: l) ", "))
     = Join (a :: l) ", "
  /\ Contains (base +:+ genText (a :: l)) "[" = true.
Proof.
  intros Hb Hl. rewrite genText_cons. set (J := Join (a :: l) ", ").
  split; [|split; [|split; [|split]]].
  - replace (base +:+ "[" +:+ J +:+ "]") with (base +:+ "[" +:+ (J +:+ "]")) by done.
    by apply Index_sep.
  - replace (base +:+ "[" +:+ J +:+ "]")
      with ((base +:+ "[" +:+ J) +:+ String "]" "")
      by (by rewrite !sapp_assoc).
    rewrite LastIndex_sep by done. rewrite !len_sapp.
    change (len "[") with 1. lia.
  - apply upto_sapp.
  - replace (base +:+ "[" +:+ J +:+ "]") with ((base +:+ "[") +:+ J +:+ "]")
      by (by rewrite !sapp_assoc).
    replace (len base + 1) with (len (base +:+ "["))
      by (by rewrite len_sapp).
    apply slice_sapp.
  - replace (base +:+ "[" +:+ J +:+ "]") with (base +:+ "[" +:+ (J +:+ "]")) by done.
    apply Contains_mid.
Qed.

(** Phase 5 of [Parse] reads back the type arguments behind a name. *)
Lemma extractTypeArgs_format pkg name r args ctx meta :
  name <> "" -> mem_byte "[" name = false -> forallb okArg args = true ->
  extractTypeArgs
    (mkSymbol pkg (name +:+ genText args) r false false "" 0 [] [] ctx meta)
  = (Some (mkSymbol pkg name r false false "" 0 [] args ctx meta), None).
Proof.
  intros Hn Hb Hl. unfold extractTypeArgs. cbn [Name].
  destruct args as [|a l].
  - rewrite genText_nil, sapp_nil_r.
    by rewrite (Contains_absent_any "[" name "[").
  - destruct (generic_brackets name a l Hb Hl) as (H1 & H2 & H3 & H4 & H5).
    rewrite H5, H1, H2, H3, (ltb_len_pos _ Hn).
    pose proof (len_nonneg (Join (a :: l) ", ")).
    destruct (Z.ltb_spec (len name) (len name + 1 + len (Join (a :: l) ", ")));
      [|lia].
    rewrite H4, parseTypeArgs_Join by done. done.
Qed.

(** ** Functions: package, name and type arguments *)

Lemma Contains_ascii_skip p t :
  allC isAscii p = true ->
  Contains (p +:+ t) litPart = Contains t litPart.
Proof.
  intros Hp. unfold litPart. apply Contains_skip.
  by apply isAscii_no_high.
Qed.

Lemma lit_free_ascii p : allC isAscii p = true -> Contains p litPart = false.
Proof.
  intros Hp. apply (Contains_absent_any (byte 194)); [done|].
  by apply isAscii_no_high.
Qed.

Lemma lit_free_name name args :
  Contains name litPart = false -> forallb okArg args = true ->
  Contains (name +:+ genText args) litPart = false.
Proof.
  intros Hn Hl. destruct args as [|a l]; [by rewrite genText_nil, sapp_nil_r|].
  pose proof (genText_ascii _ Hl) as Hascii. rewrite genText_cons in *.
  change ("[" +:+ Join (a :: l) ", " +:+ "]")
    with (String "[" (Join (a :: l) ", " +:+ "]")) in *.
  apply Contains_guard; [done|done|done|].
  apply lit_free_ascii. cbn [allC] in Hascii.
  by apply andb_prop in Hascii as [_ ?].
Qed.

Lemma splitPackage_func pkg name args :
  pkg <> "" -> noneOf "{}@()[]" pkg = true ->
  name <> "" -> noneOf ".{}@()[]" name = true ->
  forallb okArg args = true ->
  splitPackage (pkg +:+ "." +:+ name +:+ genText args)
  = inl (pkg, name +:+ genText args).
Proof.
  intros Hp Hpp Hn Hpn Hl. unfold splitPackage.
  set (input := pkg +:+ "." +:+ name +:+ genText args).
  assert (Hop : mem_byte "(" input = false).
  { unfold input.
    by rewrite !mem_byte_sapp, (noneOf_no "(" "{}@()[]" pkg),
      (noneOf_no "(" ".{}@()[]" name), (genText_no "("). }
  assert (Hcl : mem_byte ")" input = false).
  { unfold input.
    by rewrite !mem_byte_sapp, (noneOf_no ")" "{}@()[]" pkg),
      (noneOf_no ")" ".{}@()[]" name), (genText_no ")"). }
  rewrite (Contains_absent_any "(" input ".("), (Contains_absent_any ")" input ").")
    by done.
  cbn [andb negb].
  assert (Hdot : mem_byte "." name = false) by (by apply (noneOf_no _ ".{}@()[]")).
  assert (Hlast : LastIndex (pkg +:+ "." +:+ name) "." = len pkg)
    by (by apply (LastIndex_sep "." pkg name)).
  destruct args as [|a l].
  - unfold input. rewrite genText_nil, sapp_nil_r.
    rewrite (Index_absent "[" "") by
      (by rewrite !mem_byte_sapp, (noneOf_no "[" "{}@()[]" pkg), (noneOf_no "[" ".{}@()[]" name)).
    change (0 <? -1) with false. cbv iota. rewrite Hlast.
    pose proof (len_pos _ Hp). pose proof (len_pos _ Hn).
    destruct (Z.eqb_spec (len pkg) (-1)); [lia|].
    destruct (Z.eqb_spec (len pkg) 0); [lia|].
    destruct (Z.eqb_spec (len pkg) (len (pkg +:+ "." +:+ name) - 1)) as [E|_].
    { rewrite !len_sapp in E. change (len ".") with 1 in E. lia. }
    cbn [orb]. rewrite upto_sapp.
    change (pkg +:+ "." +:+ name) with (pkg +:+ String "." name).
    rewrite from_sapp_add by lia. done.
  - assert (Hbase : mem_byte "[" (pkg +:+ "." +:+ name) = false)
      by (by rewrite !mem_byte_sapp, (noneOf_no "[" "{}@()[]" pkg), (noneOf_no "[" ".{}@()[]" name)).
    assert (Hin : input = (pkg +:+ "." +:+ name) +:+ genText (a :: l))
      by (unfold input; by rewrite !sapp_assoc).
    destruct (generic_brackets _ a l Hbase Hl) as (H1 & _ & H3 & _).
    rewrite Hin, H1, H3, Hlast.
    assert (Hb : pkg +:+ "." +:+ name <> "") by (by destruct pkg).
    rewrite (ltb_len_pos _ Hb).
    pose proof (len_nonneg pkg).
    destruct (Z.eqb_spec (len pkg) (-1)); [lia|].
    rewrite <-Hin. unfold input. rewrite upto_sapp.
    change (pkg +:+ "." +:+ name +:+ genText (a :: l))
      with (pkg +:+ String "." (name +:+ genText (a :: l))).
    rewrite from_sapp_add by lia. done.
Qed.

Lemma classify_func pkg name args ctx meta :
  name <> "" -> noneOf ".{}@()[]" name = true ->
  Contains name litPart = false -> forallb okArg args = true ->
  ~ (name = "init" /\ args = []) ->
  classify pkg (name +:+ genText args) ctx meta
  = (Some (mkSymbol pkg name None false false "" 0 [] args ctx meta), None).
Proof.
  intros Hn Hpn Hlit Hl Hinit. unfold classify.
  destruct (String.eqb_spec (name +:+ genText args) "init") as [E|_].
  { destruct args as [|a l].
    - rewrite genText_nil, sapp_nil_r in E. by destruct Hinit.
    - exfalso. assert (H : mem_byte "[" (name +:+ genText (a :: l)) = true).
      { rewrite genText_cons, !mem_byte_sapp. simpl. by rewrite orb_true_r. }
      by rewrite E in H. }
  rewrite lit_free_name by done.
  assert (Hparen : HasPrefix (name +:+ genText args) "(" = false).
  { destruct name as [|c name]; [done|].
    rewrite noneOf_cons in Hpn. apply andb_prop in Hpn as [Hc _].
    cbn [mem_byte] in Hc. rewrite !negb_orb in Hc.
    change (String c name +:+ genText args)
      with (String c (name +:+ genText args)).
    cbn [HasPrefix].
    destruct (Ascii.eqb_spec "(" c) as [<-|]; [done|done]. }
  rewrite Hparen.
  apply extractTypeArgs_format; [done| |done].
  by apply (noneOf_no _ ".{}@()[]").
Qed.

(** ** Methods: receiver, name and type arguments *)

Lemma okReceiver_inv r :
  okReceiver r = true ->
  TypeName r <> "" /\ noneOf "{}@()[]*" (TypeName r) = true
  /\ Contains (TypeName r) litPart = false
  /\ forallb okArg (RTypeArgs r) = true.
Proof.
  unfold okReceiver. intros [[[H1 H2]%andb_prop H3]%andb_prop H4]%andb_prop.
  apply negb_true_iff, String.eqb_neq in H1. apply negb_true_iff in H3. done.
Qed.

Lemma formatReceiver_inner r :
  formatReceiver (Some r) = "(" +:+ recvInner r +:+ ").".
Proof. unfold formatReceiver, recvInner, genText. by rewrite !sapp_assoc. Qed.

Lemma recvInner_no c r :
  mem_byte c "(){}@" = true -> okReceiver r = true ->
  mem_byte c (recvInner r) = false.
Proof.
  intros Hc (_ & HT & _ & Hargs)%okReceiver_inv. unfold recvInner.
  assert (Hc' : mem_byte c "{}@()[]*" = true).
  { cbn [mem_byte] in *. repeat (apply orb_prop in Hc as [Hc|Hc]);
      try rewrite Hc; rewrite ?orb_true_r; done. }
  rewrite !mem_byte_sapp, (noneOf_no c _ _ Hc' HT), (genText_no c) by done.
  destruct (IsPointer r); [|done].
  cbn [mem_byte] in Hc. cbn [mem_byte].
  repeat (apply orb_prop in Hc as [Hc|Hc]); try done;
    apply Ascii.eqb_eq in Hc as ->; done.
Qed.

Lemma receiverOf_format r : okReceiver r = true -> receiverOf (recvInner r) = r.
Proof.
  intros (Hne & HT & _ & Hargs)%okReceiver_inv.
  destruct r as [T ptr args]. cbn [TypeName IsPointer RTypeArgs] in *.
  unfold receiverOf, recvInner. cbn [TypeName IsPointer RTypeArgs].
  assert (Hstar : HasPrefix (T +:+ genText args) "*" = false).
  { destruct T as [|c T]; [done|].
    rewrite noneOf_cons in HT. apply andb_prop in HT as [Hc _].
    cbn [mem_byte] in Hc. rewrite !negb_orb in Hc.
    change (String c T +:+ genText args) with (String c (T +:+ genText args)).
    cbn [HasPrefix]. destruct (Ascii.eqb_spec "*" c) as [<-|]; [|done].
    by rewrite !andb_false_r in Hc. }
  assert (Hbr : mem_byte "[" T = false) by (by apply (noneOf_no _ "{}@()[]*")).
  assert (Hrest :
    (let recvStr := T +:+ genText args in
     let idx := Index recvStr "[" in
     if 0 <? idx
     then mkReceiver (upto recvStr idx) ptr
            (if idx <? LastIndex recvStr "]"
             then parseTypeArgs (slice recvStr (idx + 1) (LastIndex recvStr "]"))
             else [])
     else mkReceiver recvStr ptr []) = mkReceiver T ptr args).
  { cbv zeta. destruct args as [|a l].
    - rewrite genText_nil, sapp_nil_r, (Index_absent "[" "" T Hbr). done.
    - destruct (generic_brackets T a l Hbr Hargs) as (H1 & H2 & H3 & H4 & _).
      rewrite H1, H2, H3, (ltb_len_pos _ Hne).
      pose proof (len_nonneg (Join (a :: l) ", ")).
      destruct (Z.ltb_spec (len T) (len T + 1 + len (Join (a :: l) ", ")));
        [|lia].
      by rewrite H4, parseTypeArgs_Join. }
  destruct ptr.
  - change ("*" +:+ T +:+ genText args) with (String "*" (T +:+ genText args)).
    cbn [HasPrefix]. change (from (String "*" ?u) 1) with u.
    rewrite Ascii.eqb_refl. exact Hrest.
  - change ("" +:+ T +:+ genText args) with (T +:+ genText args).
    rewrite Hstar. exact Hrest.
Qed.

Lemma splitPackage_method pkg r name args :
  pkg <> "" -> noneOf "{}@()[]" pkg = true -> okReceiver r = true ->
  noneOf ".{}@()[]" name = true -> forallb okArg args = true ->
  splitPackage (pkg +:+ "." +:+ formatReceiver (Some r) +:+ name +:+ genText args)
  = inl (pkg, formatReceiver (Some r) +:+ name +:+ genText args).
Proof.
  intros Hp Hpp Hr Hpn Hl. rewrite formatReceiver_inner.
  set (X := recvInner r). set (NG := name +:+ genText args).
  assert (HX : mem_byte "(" X = false) by (by apply recvInner_no).
  assert (HNG : mem_byte ")" NG = false).
  { unfold NG. by rewrite mem_byte_sapp, (noneOf_no ")" ".{}@()[]" name),
      (genText_no ")"). }
  replace (pkg +:+ "." +:+ ("(" +:+ X +:+ ").") +:+ NG)
    with (pkg +:+ ".(" +:+ X +:+ ")." +:+ NG) by (by rewrite !sapp_assoc).
  unfold splitPackage.
  rewrite (Contains_mid pkg ".(" (X +:+ ")." +:+ NG)).
  replace (pkg +:+ ".(" +:+ X +:+ ")." +:+ NG)
    with ((pkg +:+ ".(" +:+ X) +:+ ")." +:+ NG) by (by rewrite !sapp_assoc).
  rewrite (Contains_mid (pkg +:+ ".(" +:+ X) ")." NG). cbn [andb negb].
  rewrite (LastIndex_sep_str ")" "." (pkg +:+ ".(" +:+ X) NG) by done.
  pose proof (len_nonneg (pkg +:+ ".(" +:+ X)).
  destruct (Z.eqb_spec (len (pkg +:+ ".(" +:+ X)) (-1)); [lia|].
  rewrite upto_sapp.
  change (pkg +:+ ".(" +:+ X) with (pkg +:+ String "." (String "(" X)).
  rewrite (LastIndex_sep2 "." "(" pkg X) by done.
  pose proof (len_nonneg pkg).
  destruct (Z.eqb_spec (len pkg) (-1)); [lia|].
  replace ((pkg +:+ String "." (String "(" X)) +:+ ")." +:+ NG)
    with (pkg +:+ String "." (("(" +:+ X +:+ ").") +:+ NG))
    by (by rewrite !sapp_assoc).
  rewrite upto_sapp, from_sapp_add by lia.
  change (from (String "." ?u) 1) with u. unfold NG.
  destruct (Z.eqb_spec (len pkg) (-1)); [lia|]. by rewrite ?sapp_assoc.
Qed.

Lemma Contains_tail g r sub :
  Contains (String g r) sub = false -> Contains r sub = false.
Proof.
  intros H. apply Index_neg_iff in H. apply Index_neg_iff.
  rewrite Index_unfold in H. destruct (HasPrefix _ sub); [lia|].
  destruct (Z.ltb_spec (Index r sub) 0); lia.
Qed.

Lemma classify_method pkg r name args ctx meta :
  okReceiver r = true ->
  name <> "" -> noneOf ".{}@()[]" name = true ->
  Contains name litPart = false -> forallb okArg args = true ->
  classify pkg (formatReceiver (Some r) +:+ name +:+ genText args) ctx meta
  = (Some (mkSymbol pkg name (Some r) false false "" 0 [] args ctx meta), None).
Proof.
  intros Hr Hn Hpn Hlit Hl. rewrite formatReceiver_inner.
  destruct (okReceiver_inv _ Hr) as (HTne & HT & HTlit & Hrargs).
  set (X := recvInner r). set (NG := name +:+ genText args).
  assert (HXc : mem_byte ")" X = false) by (by apply recvInner_no).
  assert (HNGlit : Contains NG litPart = false) by (by apply lit_free_name).
  replace (("(" +:+ X +:+ ").") +:+ NG)
    with (String "(" (X +:+ ")." +:+ NG)) by (by rewrite !sapp_assoc).
  unfold classify.
  destruct (String.eqb_spec (String "(" (X +:+ ")." +:+ NG)) "init");
    [done|].
  assert (Hnolit : Contains (String "(" (X +:+ ")." +:+ NG)) litPart = false).
  { change (String "(" (X +:+ ")." +:+ NG)) with ("(" +:+ X +:+ ")." +:+ NG).
    rewrite Contains_ascii_skip by done. unfold X, recvInner.
    rewrite sapp_assoc, Contains_ascii_skip by (by destruct (IsPointer r)).
    assert (Hrest : Contains (genText (RTypeArgs r) +:+ ")." +:+ NG) litPart
                    = false).
    { rewrite Contains_ascii_skip by (by apply genText_ascii).
      by rewrite (Contains_ascii_skip ")."). }
    rewrite sapp_assoc.
    destruct (genText (RTypeArgs r) +:+ ")." +:+ NG) as [|g rest] eqn:E.
    { destruct (RTypeArgs r); discriminate E. }
    apply Contains_guard; [done| |done|by apply (Contains_tail g)].
    destruct (RTypeArgs r) as [|a l].
    - rewrite genText_nil in E. by injection E as <- _.
    - rewrite genText_cons in E. by injection E as <- _. }
  rewrite Hnolit. cbn [HasPrefix]. rewrite Ascii.eqb_refl.
  change (String "(" (X +:+ ")." +:+ NG))
    with (("(" +:+ X) +:+ String ")" "" +:+ ("." +:+ NG)).
  rewrite (Index_sep ")" "" ("(" +:+ X) ("." +:+ NG)) by done.
  pose proof (len_nonneg ("(" +:+ X)).
  destruct (Z.eqb_spec (len ("(" +:+ X)) (-1)); [lia|].
  replace (("(" +:+ X) +:+ String ")" "" +:+ ("." +:+ NG))
    with (("(" +:+ X) +:+ ")." +:+ NG) by (by rewrite !sapp_assoc).
  rewrite (Contains_mid ("(" +:+ X) ")." NG). cbn [negb orb].
  assert (HNGne : NG <> "") by (unfold NG; by destruct name).
  assert (Hlen : len (("(" +:+ X) +:+ ")." +:+ NG) = len ("(" +:+ X) + 2 + len NG)
    by (rewrite !len_sapp; change (len ").") with 2; lia).
  pose proof (len_pos _ HNGne).
  destruct (Z.ltb_spec (len ("(" +:+ X) + 2) (len (("(" +:+ X) +:+ ")." +:+ NG)));
    [|lia].
  assert (Hslice : slice (("(" +:+ X) +:+ ")." +:+ NG) 1 (len ("(" +:+ X)) = X).
  { replace (("(" +:+ X) +:+ ")." +:+ NG) with ("(" +:+ X +:+ (")." +:+ NG))
      by (by rewrite !sapp_assoc).
    replace (len ("(" +:+ X)) with (len "(" + len X) by (by rewrite len_sapp).
    apply (slice_sapp "(" X). }
  assert (Hfrom : from (("(" +:+ X) +:+ ")." +:+ NG) (len ("(" +:+ X) + 2) = NG).
  { replace (("(" +:+ X) +:+ ")." +:+ NG) with (("(" +:+ X) +:+ (")." +:+ NG))
      by done.
    rewrite from_sapp_add by lia. done. }
  rewrite Hslice, Hfrom. unfold X. rewrite receiverOf_format by done.
  unfold NG. apply extractTypeArgs_format; [done| |done].
  by apply (noneOf_no _ ".{}@()[]").
Qed.

(** ** [Parse] after [Format] on canonical Symbols *)

Lemma formatReceiver_no c recv :
  mem_byte c "{@" = true ->
  match recv with Some r => okReceiver r = true | None => True end ->
  mem_byte c (formatReceiver recv) = false.
Proof.
  intros Hc Hr. destruct recv as [r|]; [|done].
  rewrite formatReceiver_inner, !mem_byte_sapp, recvInner_no; [|
    cbn [mem_byte] in *; repeat (apply orb_prop in Hc as [Hc|Hc]);
    try rewrite Hc; rewrite ?orb_true_r; done|done].
  cbn [mem_byte] in Hc. cbn [mem_byte].
  repeat (apply orb_prop in Hc as [Hc|Hc]); try done;
    apply Ascii.eqb_eq in Hc as ->; done.
Qed.

Lemma bracketCount_formatReceiver recv :
  match recv with Some r => okReceiver r = true | None => True end ->
  bracketCount (formatReceiver recv) = 0.
Proof.
  intros Hr. destruct recv as [r|]; [|done].
  destruct (okReceiver_inv _ Hr) as (_ & HT & _ & Hargs).
  rewrite formatReceiver_inner. unfold recvInner.
  rewrite !bracketCount_sapp, bracketCount_genText by done.
  rewrite (bracketCount_none (TypeName r))
    by (by apply (noneOf_no _ "{}@()[]*")).
  by destruct (IsPointer r).
Qed.

(** The formatter and the parser are inverse on canonical Symbols: what
    [Format] writes, whatever the order of the custom entries, [Parse] reads
    back as the same Symbol. *)
Lemma Parse_Format_canonical s out :
  Canonical s -> Format s out -> Parse out = (Some s, None).
Proof.
  intros [[Hp Hpp] (Hn & Hpn & Hlit) Hrecv Hinit (Hanon & Hparent & Hidx)
            Htps Htargs Hctx (Hvia & Halias & Hpos & Hcustom)]
         (kvs & HP & ->).
  destruct s as [pkg name recv init anon parent idx tps targs ctx meta].
  cbn [PackagePath Name Recv IsInit IsAnonymous AnonParent AnonIndex TypeParams
       TypeArgs Context Meta] in *.
  subst anon parent idx tps. unfold map_range in HP.
  set (SP := formatReceiver recv +:+ name +:+ genText targs).
  set (H0 := pkg +:+ "." +:+ SP).
  assert (Hhead : FormatWith kvs
                    (mkSymbol pkg name recv init false "" 0 [] targs ctx meta)
                  = (H0 +:+ (if negb (ctx =? "")%string then "@" +:+ ctx else ""))
                    +:+ formatMetadata meta kvs).
  { unfold FormatWith, formatHead, formatName, formatGenerics, formatContext,
      H0, SP, genText.
    cbn [PackagePath Name Recv IsAnonymous TypeArgs TypeParams Context Meta].
    destruct (0 <? Z.of_nat (length targs)); by rewrite !sapp_assoc. }
  rewrite Hhead. clear Hhead.
  assert (HSPno : forall c, mem_byte c "{@" = true -> mem_byte c H0 = false).
  { intros c Hc. unfold H0, SP.
    assert (Hc1 : mem_byte c "{}@()[]" = true /\ mem_byte c ".{}@()[]" = true
                  /\ mem_byte c "(){}@" = true /\ mem_byte c "." = false).
    { cbn [mem_byte] in *. repeat (apply orb_prop in Hc as [Hc|Hc]); try done;
        apply Ascii.eqb_eq in Hc as ->; done. }
    destruct Hc1 as (Hc1 & Hc2 & Hc3 & Hc4).
    by rewrite !mem_byte_sapp, (noneOf_no c _ pkg Hc1), Hc4,
      (formatReceiver_no c recv Hc Hrecv), (noneOf_no c _ name Hc2),
      (genText_no c _ Hc3 Htargs). }
  assert (HH0bc : bracketCount H0 = 0).
  { unfold H0, SP.
    rewrite !bracketCount_sapp, bracketCount_formatReceiver,
      bracketCount_genText by done.
    rewrite (bracketCount_none pkg), (bracketCount_none name);
      [done|by apply (noneOf_no _ ".{}@()[]")..
      |by apply (noneOf_no _ "{}@()[]")|by apply (noneOf_no _ "{}@()[]")]. }
  assert (HH0ne : H0 <> "") by (unfold H0; by destruct pkg).
  set (C := if negb (ctx =? "")%string then "@" +:+ ctx else "").
  assert (HCno : mem_byte "{" C = false /\ bracketCount C = 0).
  { unfold C. destruct (negb _); [|done]. split.
    - by rewrite mem_byte_sapp, (noneOf_no "{" "@{}[]" ctx).
    - rewrite bracketCount_sapp, (bracketCount_none ctx);
        [done|by apply (noneOf_no _ "@{}[]")..]. }
  destruct HCno as [HC1 HC2].
  unfold Parse.
  destruct (String.eqb_spec ((H0 +:+ C) +:+ formatMetadata meta kvs) "") as [E|_].
  { exfalso. unfold H0 in E. by destruct pkg. }
  rewrite (extractMetadata_format (H0 +:+ C) meta kvs); try done.
  2:{ by destruct H0. }
  2:{ by rewrite mem_byte_sapp, HSPno, HC1. }
  2:{ rewrite bracketCount_sapp. lia. }
  unfold C.
  rewrite (extractContext_format H0 ctx HH0ne); [|by apply HSPno|done
    |by apply (noneOf_no _ "@{}[]")].
  assert (HSPne : SP <> "").
  { unfold SP. destruct recv as [r|].
    - by rewrite formatReceiver_inner.
    - cbn [formatReceiver]. by destruct name. }
  assert (Hsplit : splitPackage H0 = inl (pkg, SP)).
  { unfold H0, SP. destruct recv as [r|].
    - by apply splitPackage_method.
    - cbn [formatReceiver].
      change ("" +:+ name +:+ genText targs) with (name +:+ genText targs).
      by apply splitPackage_func. }
  rewrite Hsplit.
  destruct (String.eqb_spec pkg ""); [done|].
  destruct (String.eqb_spec SP ""); [done|]. cbn [orb].
  unfold SP. destruct recv as [r|].
  - rewrite classify_method by done.
    destruct init; [|done]. by destruct (proj1 Hinit eq_refl).
  - cbn [formatReceiver].
    change ("" +:+ name +:+ genText targs) with (name +:+ genText targs).
    destruct init.
    + destruct (proj1 Hinit eq_refl) as (_ & -> & ->). done.
    + rewrite classify_func; [done|done|done|done|done|].
      intros [-> ->]. by destruct (proj2 Hinit).
Qed.




(** * Further properties of the codec *)

(** ** What [Parse] returns *)

Lemma extractTypeArgs_inv sym s :
  extractTypeArgs sym = (Some s, None) ->
  PackagePath s = PackagePath sym /\ Recv s = Recv sym
  /\ IsInit s = IsInit sym /\ IsAnonymous s = IsAnonymous sym
  /\ AnonParent s = AnonParent sym /\ AnonIndex s = AnonIndex sym
  /\ TypeParams s = TypeParams sym /\ Context s = Context sym
  /\ Meta s = Meta sym
  /\ ((Name s = Name sym /\ TypeArgs s = TypeArgs sym)
      \/ exists idx, 0 < idx /\ Name s = upto (Name sym) idx
                     /\ exists t, TypeArgs s = parseTypeArgs t).
Proof.
  unfold extractTypeArgs.
  destruct (Contains (Name sym) "["); [|intros [= <-]; by repeat split; try left].
  destruct (Z.ltb_spec 0 (Index (Name sym) "["));
    [|intros [= <-]; by repeat split; try left].
  destruct (_ <? _); [|done]. intros [= <-].
  cbn. repeat split; try done. right. eauto.
Qed.

Lemma upto_nonempty s idx : s <> "" -> 0 < idx -> upto s idx <> "".
Proof.
  intros Hs Hi. destruct s as [|c s]; [done|]. unfold upto.
  destruct (Z.to_nat idx) eqn:E; [lia|done].
Qed.

(** X1: a Symbol that [Parse] returns has a package path, never has type
    parameters, has a name unless it is anonymous, and is of one kind only:
    an init function is named [init] and has no receiver and no type
    arguments; only an anonymous function has a parent or an index; its
    type arguments are trimmed and not empty. *)
Theorem X1_parse_result_invariants x s :
  Parse x = (Some s, None) ->
  PackagePath s <> "" /\ TypeParams s = []
  /\ (IsAnonymous s = false -> Name s <> "")
  /\ (IsInit s = true ->
      Name s = "init" /\ Recv s = None /\ IsAnonymous s = false
      /\ TypeArgs s = [])
  /\ (IsAnonymous s = true -> Recv s = None /\ IsInit s = false)
  /\ (IsAnonymous s = false -> AnonParent s = "" /\ AnonIndex s = 0)
  /\ (forall a, In a (TypeArgs s) -> TrimSpace a = a /\ a <> "").
Proof.
  unfold Parse. destruct (x =? "")%string; [done|].
  destruct (extractMetadata x) as [input1 metadata].
  destruct (extractContext input1) as [[input2 context]|]; [|done].
  destruct (splitPackage input2) as [[pkg sp]|msg]; [|done].
  destruct (String.eqb_spec pkg "") as [|Hpkg]; [done|].
  destruct (String.eqb_spec sp "") as [|Hsp]; [done|]. cbn [orb].
  assert (Hargs : forall sym s', extractTypeArgs sym = (Some s', None) ->
            TypeArgs sym = [] ->
            forall a, In a (TypeArgs s') -> TrimSpace a = a /\ a <> "").
  { intros sym s' H Hnil a Ha.
    apply extractTypeArgs_inv in H
      as (_ & _ & _ & _ & _ & _ & _ & _ & _ & [[_ E]|(idx & _ & _ & t & E)]).
    - rewrite E, Hnil in Ha. done.
    - rewrite E in Ha. unfold parseTypeArgs in Ha.
      destruct (t =? "")%string; [done|].
      pose proof (targsFold_trimmed (runes t) (mkTargs [] "" 0 0)
                    (Forall_nil_2 _)) as HF.
      destruct (0 <? _);
        [apply (pushTrimmed_trimmed _
                  (ta_current (fold_left targsStep (runes t)
                                 (mkTargs [] "" 0 0)))) in HF|];
        rewrite List.Forall_forall in HF; exact (HF a Ha). }
  unfold classify.
  destruct (sp =? "init")%string.
  { intros [= <-]. cbn. repeat split; try done; try (intros; by apply Ha). }
  destruct (Contains sp litPart).
  { intros H. pose proof (Hargs _ _ H eq_refl) as Ha.
    apply extractTypeArgs_inv in H
      as (-> & -> & -> & -> & -> & -> & -> & _ & _ & _).
    cbn. repeat split; try done; try (intros; by apply Ha). }
  destruct (HasPrefix sp "(").
  { destruct (_ || _); [done|].
    destruct (Z.ltb_spec (Index sp ")" + 2) (len sp)) as [Hlt|]; [|done].
    intros H. pose proof (Hargs _ _ H eq_refl) as Ha.
    assert (Hname : from sp (Index sp ")" + 2) <> "").
    { unfold from. intros E. apply (f_equal String.length) in E.
      assert (Hl : forall n u, String.length (sdrop n u)
                               = (String.length u - n)%nat).
      { induction n as [|n IHn]; intros [|c u]; simpl; auto with lia. }
      rewrite Hl in E. unfold len in *. simpl in E.
      pose proof (Index_range sp ")"). lia. }
    apply extractTypeArgs_inv in H
      as (-> & -> & -> & -> & -> & -> & -> & _ & _
          & [[-> _]|(idx & Hidx & -> & _)]).
    - cbn. repeat split; try done; try (intros; by apply Ha).
    - cbn. repeat split; try done; try (intros; by apply Ha).
      intros _. by apply upto_nonempty. }
  intros H. pose proof (Hargs _ _ H eq_refl) as Ha.
  apply extractTypeArgs_inv in H
    as (-> & -> & -> & -> & -> & -> & -> & _ & _
        & [[-> _]|(idx & Hidx & -> & _)]).
  - cbn. repeat split; try done; try (intros; by apply Ha).
  - cbn. repeat split; try done; try (intros; by apply Ha).
    intros _. by apply upto_nonempty.
Qed.

(** The generic method of the parser tests. *)
Lemma X1_parse_result_witness :
  let s := mkSymbol "pkg" "Add" (Some (mkReceiver "List" true ["T"]))
             false false "" 0 [] [] "" noMetadata in
  PackagePath s <> "" /\ TypeParams s = []
  /\ (IsAnonymous s = false -> Name s <> "")
  /\ (IsInit s = true ->
      Name s = "init" /\ Recv s = None /\ IsAnonymous s = false
      /\ TypeArgs s = [])
  /\ (IsAnonymous s = true -> Recv s = None /\ IsInit s = false)
  /\ (IsAnonymous s = false -> AnonParent s = "" /\ AnonIndex s = 0)
  /\ (forall a, In a (TypeArgs s) -> TrimSpace a = a /\ a <> "").
Proof.
  intros s. apply (X1_parse_result_invariants "pkg.(*List[T]).Add" s).
  vm_compute. reflexivity.
Defined.

(** ** Texts without a dot *)

Lemma mem_byte_stake c n s : mem_byte c s = false -> mem_byte c (stake n s) = false.
Proof.
  revert s. induction n as [|n IH]; intros [|d s]; try done. cbn [mem_byte stake].
  intros [Hd Hs]%orb_false_elim. by rewrite Hd, (IH _ Hs).
Qed.

Lemma mem_byte_upto c s i : mem_byte c s = false -> mem_byte c (upto s i) = false.
Proof. apply mem_byte_stake. Qed.

Lemma splitPackage_no_dot input :
  mem_byte "." input = false ->
  splitPackage input = inr "invalid GSRF symbol: no package separator found".
Proof.
  intros H. unfold splitPackage.
  rewrite (Contains_absent_any "." input ".("),
    (Contains_absent_any "." input ").") by done.
  cbn [andb]. destruct (0 <? Index input "[").
  - by rewrite (LastIndex_absent "." "") by (by apply mem_byte_upto).
  - by rewrite (LastIndex_absent "." "" input H).
Qed.

(** X2: [Parse] rejects every text without a dot: the text is empty, or its
    context is empty, or no package separator is found. *)
Theorem X2_parse_rejects_text_without_dot x :
  mem_byte "." x = false ->
  Parse x = (None, Some "invalid GSRF symbol: empty string")
  \/ Parse x = (None, Some "invalid GSRF symbol: empty context after @")
  \/ Parse x = (None, Some "invalid GSRF symbol: no package separator found").
Proof.
  intros H. unfold Parse. destruct (x =? "")%string; [by left|]. right.
  assert (H1 : mem_byte "." (fst (extractMetadata x)) = false).
  { unfold extractMetadata. destruct (_ && _); [|done].
    destruct (_ =? _); [|done]. by apply mem_byte_upto. }
  destruct (extractMetadata x) as [input1 metadata]. cbn [fst] in H1.
  assert (H2 : forall input2 context,
            extractContext input1 = Some (input2, context) ->
            mem_byte "." input2 = false).
  { unfold extractContext. intros input2 context.
    destruct (0 <? _); [|by intros [= <- _]].
    destruct (_ =? _); [|by intros [= <- _]].
    destruct (_ =? _)%string; [done|]. intros [= <- _]. by apply mem_byte_upto. }
  destruct (extractContext input1) as [[input2 context]|]; [|by left]. right.
  by rewrite (splitPackage_no_dot _ (H2 _ _ eq_refl)).
Qed.

(** The literal of the parser tests. *)
Lemma X2_parse_rejects_witness :
  Parse "invalidformat" = (None, Some "invalid GSRF symbol: empty string")
  \/ Parse "invalidformat"
     = (None, Some "invalid GSRF symbol: empty context after @")
  \/ Parse "invalidformat"
     = (None, Some "invalid GSRF symbol: no package separator found").
Proof. apply (X2_parse_rejects_text_without_dot "invalidformat"). reflexivity. Defined.

(** The file information is cut off at the end: the result is a prefix. *)
Lemma stripFileInfo_prefix t :
  stripFileInfo t = t \/ exists i, stripFileInfo t = upto t i.
Proof.
  unfold stripFileInfo. destruct (0 <? Index t " /"); [eauto|].
  destruct (0 <? LastIndex t " "); [|by left].
  destruct (_ || _); [eauto|by left].
Qed.



(** X4: [FromStackTrace] rejects every text without a dot, with the message
    [invalid stack trace format:] followed by the text, its file information
    removed. *)
Theorem X4_fromStackTrace_rejects_text_without_dot x :
  mem_byte "." x = false ->
  FromStackTrace x
  = (None, Some ("invalid stack trace format: " +:+ stripFileInfo x)).
Proof.
  intros H. unfold FromStackTrace.
  assert (Ht : mem_byte "." (stripFileInfo x) = false).
  { destruct (stripFileInfo_prefix x) as [->|[i ->]]; [done|].
    by apply mem_byte_upto. }
  set (t := stripFileInfo x) in *. unfold fromStackTraceStripped.
  assert (Hf : Contains t ".func" = false)
    by (by apply (Contains_absent_any ".")).
  destruct (trace_patterns_none t Hf) as [-> ->].
  unfold traceMethod. rewrite (Contains_absent_any "." t ".(*") by done.
  unfold traceGeneric.
  rewrite (LastIndex_absent "." "" (upto t (Index t "[")))
    by (by apply mem_byte_upto).
  change (0 <? -1) with false.
  destruct (0 <? Index t "["); [destruct (Index t "[" <? LastIndex t "]")|];
    unfold traceFunc; by rewrite (LastIndex_absent "." "" t Ht).
Qed.

(** A trace line without a dot, followed by a path. *)
Lemma X4_fromStackTrace_rejects_witness :
  FromStackTrace "main /src/main"
  = (None, Some ("invalid stack trace format: "
                 +:+ stripFileInfo "main /src/main")).
Proof.
  apply (X4_fromStackTrace_rejects_text_without_dot "main /src/main").
  reflexivity.
Defined.

(** ** What [FromSSA] returns *)

Lemma ssaFunc_inv_full s l :
  FindStringSubmatch ssaFuncPattern s = Some l ->
  exists m1 m2, l = [s; m1; m2] /\ s = m1 +:+ "." +:+ m2
    /\ m1 <> "" /\ m2 <> "" /\ mem_byte "." m2 = false.
Proof.
  intros H. apply head_plus_inv in H as (m1 & T & g & -> & -> & Hm1 & _ & _ & H).
  apply lit_inv in H as (T1 & -> & H).
  destruct g as [|g0 g];
    apply plus_inv in H as (m2 & T2 & r & -> & Hm2 & Hc2 & H & E);
    apply end_inv in H as [-> ->]; [done|].
  injection E as -> ->. exists m1, m2. rewrite sapp_nil_r.
  rewrite allC_notChar in Hc2. by apply negb_true_iff in Hc2.
Qed.

Lemma ssaMethod_inv_full s l :
  FindStringSubmatch ssaMethodPattern s = Some l ->
  exists m1 m2 m3 m4, l = [s; m1; m2; m3; m4]
    /\ s = m1 +:+ ".(" +:+ m2 +:+ m3 +:+ ")." +:+ m4
    /\ (m2 = "" \/ m2 = "*")
    /\ m1 <> "" /\ m3 <> "" /\ mem_byte ")" m3 = false
    /\ m4 <> "" /\ mem_byte "." m4 = false.
Proof.
  intros H. apply head_plus_inv in H as (m1 & T & g & -> & -> & Hm1 & _ & _ & H).
  apply lit_inv in H as (T1 & -> & H).
  destruct g as [|g0 g]; apply opt_inv in H as (m2 & T2 & r2 & -> & Hm2 & H & E);
    [done|]. injection E as -> ->.
  destruct r2 as [g2 rest2]. simpl.
  destruct g2 as [|g3 g2];
    apply plus_inv in H as (m3 & T3 & r3 & -> & Hm3 & Hc3 & H & E); [done|].
  injection E as -> -> ->.
  apply lit_inv in H as (T4 & -> & H). destruct r3 as [g3 rest3]. simpl.
  destruct g3 as [|g4 g3];
    apply plus_inv in H as (m4 & T5 & r5 & -> & Hm4 & Hc4 & H & E);
    apply end_inv in H as [-> ->]; [done|].
  injection E as -> -> ->.
  rewrite allC_notChar in Hc3, Hc4. apply negb_true_iff in Hc3, Hc4.
  exists m1, m2, m3, m4. rewrite sapp_nil_r. repeat split; try done.
  destruct Hm2 as [->|(c & -> & Hc)]; [by left|right].
  unfold isChar in Hc. apply Ascii.eqb_eq in Hc as ->. done.
Qed.

(** X5: the Symbols that [FromSSA] returns.  The package path and the name
    are not empty and the name holds no dot; there is no context, no type
    parameter, no type argument; a receiver has a name without closing
    parenthesis and no type arguments; an init Symbol is named [init]; an
    anonymous Symbol has the parent [package.name] and an index between 0
    and the largest [int]; no other Symbol has a parent or an index. *)
Theorem X5_fromSSA_result_invariants x s :
  FromSSA x = (Some s, None) ->
  PackagePath s <> "" /\ Name s <> "" /\ mem_byte "." (Name s) = false
  /\ Context s = "" /\ TypeParams s = [] /\ TypeArgs s = []
  /\ (forall r, Recv s = Some r ->
        TypeName r <> "" /\ mem_byte ")" (TypeName r) = false
        /\ RTypeArgs r = [])
  /\ (IsInit s = true ->
      Name s = "init" /\ Recv s = None /\ IsAnonymous s = false)
  /\ (IsAnonymous s = true ->
      Recv s = None /\ AnonParent s = PackagePath s +:+ "." +:+ Name s
      /\ 0 <= AnonIndex s <= maxInt)
  /\ (IsAnonymous s = false -> AnonParent s = "" /\ AnonIndex s = 0).
Proof.
  assert (Hloc : forall base loc,
            fromSSALocated base loc = (Some s, None) ->
            PackagePath s <> "" /\ Name s <> "" /\ mem_byte "." (Name s) = false
            /\ Context s = "" /\ TypeParams s = [] /\ TypeArgs s = []
            /\ (forall r, Recv s = Some r ->
                  TypeName r <> "" /\ mem_byte ")" (TypeName r) = false
                  /\ RTypeArgs r = [])
            /\ (IsInit s = true ->
                Name s = "init" /\ Recv s = None /\ IsAnonymous s = false)
            /\ (IsAnonymous s = true ->
                Recv s = None /\ AnonParent s = PackagePath s +:+ "." +:+ Name s
                /\ 0 <= AnonIndex s <= maxInt)
            /\ (IsAnonymous s = false -> AnonParent s = "" /\ AnonIndex s = 0)).
  { intros base loc H. unfold fromSSALocated in H.
    destruct (FindStringSubmatch ssaInitPattern base) as [l|] eqn:Ei.
    { apply ssaInit_inv in Ei as (m1 & D & -> & _ & Hm1 & _).
      injection H as <-. cbn. repeat split; try done. }
    destruct (FindStringSubmatch ssaMethodPattern base) as [l|] eqn:Em.
    { apply ssaMethod_inv_full in Em
        as (m1 & m2 & m3 & m4 & -> & _ & _ & Hm1 & Hm3 & Hc3 & Hm4 & Hc4).
      injection H as <-. cbn.
      repeat split; try done; intros; simplify_eq/=; done. }
    destruct (ssaAnonBranch base (locationMetadata loc)) as [sym|] eqn:Ea.
    { injection H as <-.
      apply ssaAnonBranch_inv in Ea
        as (m1 & m2 & D & _ & Hm1 & _ & Hm2 & Hd2 & _ & _ & HD & HcD & ->).
      pose proof (Atoi_digits_range D HD HcD).
      cbn. repeat split; try done; lia. }
    unfold ssaFuncBranch in H.
    destruct (FindStringSubmatch ssaFuncPattern base) as [l|] eqn:Ef; [|done].
    apply ssaFunc_inv_full in Ef as (m1 & m2 & -> & _ & Hm1 & Hm2 & Hd2).
    injection H as <-. cbn. repeat split; try done. }
  unfold FromSSA.
  destruct (FindStringSubmatch ssaLocationPattern x) as [l|] eqn:El.
  - apply (head_plus_inv anyChar ssaLocationTail) in El
      as (base & T & g & -> & -> & _ & _ & _ & Hk).
    apply ssaLocationTail_inv in Hk as (f & l' & c & -> & _ & _).
    apply Hloc.
  - apply Hloc.
Qed.

(** The method of the SSA tests. *)
Lemma X5_fromSSA_result_witness :
  let s := mkSymbol "main" "Start" (Some (mkReceiver "Server" true []))
             false false "" 0 [] [] "" noMetadata in
  PackagePath s <> "" /\ Name s <> "" /\ mem_byte "." (Name s) = false
  /\ Context s = "" /\ TypeParams s = [] /\ TypeArgs s = []
  /\ (forall r, Recv s = Some r ->
        TypeName r <> "" /\ mem_byte ")" (TypeName r) = false
        /\ RTypeArgs r = [])
  /\ (IsInit s = true ->
      Name s = "init" /\ Recv s = None /\ IsAnonymous s = false)
  /\ (IsAnonymous s = true ->
      Recv s = None /\ AnonParent s = PackagePath s +:+ "." +:+ Name s
      /\ 0 <= AnonIndex s <= maxInt)
  /\ (IsAnonymous s = false -> AnonParent s = "" /\ AnonIndex s = 0).
Proof.
  intros s. apply (X5_fromSSA_result_invariants "main.(*Server).Start" s).
  vm_compute. reflexivity.
Defined.

Lemma fromSSALocated_text base loc s :
  fromSSALocated base loc = (Some s, None) ->
  (IsInit s = false -> IsAnonymous s = false ->
   ToSSA s = base +:+ (if negb (loc =? "")%string then "@" +:+ loc else ""))
  /\ (IsInit s = true ->
      exists D, D <> "" /\ allC isDigit D = true
        /\ base = PackagePath s +:+ ".init#" +:+ D
        /\ ToSSA s = PackagePath s +:+ ".init#1"
                     +:+ (if negb (loc =? "")%string then "@" +:+ loc else "")).
Proof.
  intros H. unfold fromSSALocated in H.
  destruct (FindStringSubmatch ssaInitPattern base) as [l|] eqn:Ei.
  { apply ssaInit_inv in Ei as (m1 & D & -> & -> & Hm1 & Hc1 & HD & HcD).
    injection H as <-. split; [done|]. intros _. exists D.
    repeat split; try done.
    unfold ToSSA. cbn [IsInit PackagePath Meta].
    rewrite Position_locationMetadata. by rewrite ?sapp_assoc. }
  destruct (FindStringSubmatch ssaMethodPattern base) as [l|] eqn:Em.
  { apply ssaMethod_inv in Em as (m1 & m2 & m3 & m4 & -> & Hb & Hm2).
    injection H as <-. split; [|done]. intros _ _.
    unfold ToSSA. cbn [IsInit PackagePath Meta Recv IsPointer TypeName Name].
    rewrite Position_locationMetadata, Hb.
    destruct Hm2 as [-> | ->]; by rewrite ?sapp_assoc. }
  destruct (ssaAnonBranch base (locationMetadata loc)) as [sym|] eqn:Ea.
  { injection H as <-.
    apply ssaAnonBranch_inv in Ea as (m1 & m2 & D & _ & _ & _ & _ & _ & _ & _
                                      & _ & _ & ->).
    split; done. }
  unfold ssaFuncBranch in H.
  destruct (FindStringSubmatch ssaFuncPattern base) as [l|] eqn:Ef; [|done].
  apply ssaFunc_inv in Ef as (m1 & m2 & -> & Hb).
  injection H as <-. split; [|done]. intros _ _.
  unfold ToSSA. cbn [IsInit PackagePath Meta Recv IsAnonymous Name].
  rewrite Position_locationMetadata, Hb. by rewrite ?sapp_assoc.
Qed.

(** X6: [ToSSA] writes back the very text that [FromSSA] read, location
    included, for every Symbol that is neither init nor anonymous; for an
    init Symbol, read from [package.init#digits], it writes [package.init#1]:
    the number behind [#] is forgotten. *)
Theorem X6_toSSA_restores_text x s :
  FromSSA x = (Some s, None) ->
  (IsInit s = false -> IsAnonymous s = false -> ToSSA s = x)
  /\ (IsInit s = true ->
      exists D tail, D <> "" /\ allC isDigit D = true
        /\ x = PackagePath s +:+ ".init#" +:+ D +:+ tail
        /\ ToSSA s = PackagePath s +:+ ".init#1" +:+ tail).
Proof.
  unfold FromSSA.
  destruct (FindStringSubmatch ssaLocationPattern x) as [l|] eqn:El.
  - apply (head_plus_inv anyChar ssaLocationTail) in El
      as (base & T & g & -> & -> & _ & _ & _ & Hk).
    apply ssaLocationTail_inv in Hk as (f & l' & c & -> & -> & _).
    intros H. apply fromSSALocated_text in H as [H1 H2].
    assert (Hloc : negb (f +:+ ":" +:+ l' +:+ ":" +:+ c =? "")%string = true)
      by (by destruct f).
    rewrite Hloc in H1, H2. split; [exact H1|].
    intros Hi. destruct (H2 Hi) as (D & HD & HcD & -> & Hto).
    exists D, ("@" +:+ f +:+ ":" +:+ l' +:+ ":" +:+ c).
    by rewrite ?sapp_assoc.
  - intros H. apply fromSSALocated_text in H as [H1 H2].
    change (negb ("" =? "")%string) with false in H1, H2. cbv iota in H1, H2.
    rewrite sapp_nil_r in H1. split; [exact H1|].
    intros Hi. destruct (H2 Hi) as (D & HD & HcD & -> & Hto).
    exists D, "". by rewrite !sapp_nil_r.
Qed.

(** The located method of the SSA tests. *)
Lemma X6_toSSA_restores_witness :
  let s := mkSymbol "main" "Start" (Some (mkReceiver "Server" true []))
             false false "" 0 [] [] "" (mkMetadata "" "" "main.go:10:5" ∅) in
  (IsInit s = false -> IsAnonymous s = false
   -> ToSSA s = "main.(*Server).Start@main.go:10:5")
  /\ (IsInit s = true ->
      exists D tail, D <> "" /\ allC isDigit D = true
        /\ "main.(*Server).Start@main.go:10:5"
           = PackagePath s +:+ ".init#" +:+ D +:+ tail
        /\ ToSSA s = PackagePath s +:+ ".init#1" +:+ tail).
Proof.
  intros s.
  apply (X6_toSSA_restores_text "main.(*Server).Start@main.go:10:5" s).
  vm_compute. reflexivity.
Defined.

(** ** What [FromStackTrace] returns *)

Lemma traceInit_inv t s :
  traceInit t = Some s ->
  exists m D, t = m +:+ ".init.func" +:+ D /\ m <> "" /\ D <> ""
    /\ allC isDigit D = true
    /\ s = mkSymbol m "init" None true false "" 0 [] [] "" noMetadata.
Proof.
  unfold traceInit, MatchString.
  destruct (matchItems _ _ t) as [r|] eqn:E; [|done].
  assert (Hacc : accepts (re_items stackInitPattern) true t)
    by (apply matchItems_accepts; cbn [re_anchoredEnd stackInitPattern] in E;
        by rewrite E).
  cbn [re_items stackInitPattern accepts] in Hacc.
  destruct Hacc as (m & T & -> & Hm & _ & T' & -> & D & T'' & -> & HD & HcD & ->).
  rewrite sapp_nil_r.
  replace (m +:+ ".init.func" +:+ D)
    with (m +:+ String "." ("init" +:+ String "." ("func" +:+ D))) by done.
  rewrite !Split_byte_app.
  rewrite (Split_absent "." ("func" +:+ D))
    by (rewrite mem_byte_sapp; by rewrite (digits_no_byte "." D)).
  change (Split "init" ".") with ["init"].
  destruct (Split_byte_spec "." m) as (Hj & _ & _).
  rewrite !length_app. cbn [length].
  destruct (Z.leb_spec 2 (Z.of_nat (length (Split m ".") + (1 + 1)))); [|lia].
  replace (length (Split m ".") + (1 + 1) - 2)%nat
    with (length (Split m ".")) by lia.
  rewrite take_app_length, <-Hj. intros [= <-]. by exists m, D.
Qed.

Lemma traceAnon_inv t s :
  traceAnon t = Some s ->
  exists pkg name T, t = (pkg +:+ "." +:+ name) +:+ ".func" +:+ T
    /\ pkg <> "" /\ mem_byte "." name = false
    /\ s = mkSymbol pkg name None false true (pkg +:+ "." +:+ name) 0
             [] [] "" noMetadata.
Proof.
  unfold traceAnon, FindStringSubmatch.
  cbn [re_items re_anchoredEnd stackAnonPattern matchItems].
  destruct (plusLoop anyChar _ t) as [[m r]|] eqn:E; [|done].
  apply plusLoop_inv in E as (T & -> & Hm & _ & _ & Hk).
  destruct (HasPrefix T ".func") eqn:Hp; [|done].
  apply HasPrefix_spec in Hp as [T' ->]. clear Hk.
  cbn [capture fst snd].
  destruct (Z.ltb_spec 0 (LastIndex m ".")) as [Hlt|]; [|done].
  destruct (LastIndex_byte_inv "." m _ eq_refl) as [Hs Hd]; [lia|].
  intros [= <-].
  exists (upto m (LastIndex m ".")), (from m (LastIndex m "." + 1)), T'.
  change (?a +:+ "." +:+ ?b) with (a +:+ String "." b).
  rewrite <-Hs. repeat split; try done.
  by apply upto_nonempty.
Qed.

Lemma fromStackTraceStripped_invariants t s :
  fromStackTraceStripped t = (Some s, None) ->
  PackagePath s <> "" /\ Context s = "" /\ Meta s = noMetadata
  /\ TypeParams s = [] /\ AnonIndex s = 0
  /\ (forall r, Recv s = Some r -> IsPointer r = true)
  /\ (Recv s = None -> mem_byte "." (Name s) = false)
  /\ (IsInit s = true ->
      Name s = "init" /\ Recv s = None /\ IsAnonymous s = false
      /\ TypeArgs s = [])
  /\ (IsAnonymous s = true ->
      Recv s = None /\ TypeArgs s = []
      /\ AnonParent s = PackagePath s +:+ "." +:+ Name s)
  /\ (IsAnonymous s = false -> AnonParent s = "").
Proof.
  unfold fromStackTraceStripped.
  destruct (traceInit t) as [sym|] eqn:Ei.
  { intros [= <-].
    apply traceInit_inv in Ei as (m & D & _ & Hm & _ & _ & ->).
    cbn. repeat split; try done. }
  destruct (traceAnon t) as [sym|] eqn:Ea.
  { intros [= <-].
    apply traceAnon_inv in Ea as (pkg & name & T & _ & Hp & Hd & ->).
    cbn. repeat split; try done. }
  destruct (traceMethod t) as [sym|] eqn:Em.
  { intros [= <-]. unfold traceMethod in Em.
    destruct (Contains t ".(*"); [|done].
    destruct (Z.ltb_spec 0 (Index t ".(*")) as [Hlt|]; [|done].
    destruct (0 <? findCloseParen _ 0 1 false); [|done].
    destruct (if 0 <? Index _ "[" then _ else _) as [receiver typeArgs].
    destruct (HasPrefix _ "."); [|done].
    injection Em as <-. cbn.
    assert (Ht : t <> "")
      by (intros ->; vm_compute in Hlt; done).
    repeat split; try done; try (intros; simplify_eq/=; done).
    by apply upto_nonempty. }
  destruct (traceGeneric t) as [sym|] eqn:Eg.
  { intros [= <-]. unfold traceGeneric in Eg.
    destruct (Z.ltb_spec 0 (Index t "[")) as [Hlt|]; [|done].
    destruct (Index t "[" <? LastIndex t "]"); [|done].
    destruct (Z.ltb_spec 0 (LastIndex (upto t (Index t "[")) "."))
      as [Hd|]; [|done].
    injection Eg as <-. cbn.
    assert (Ht : t <> "")
      by (intros ->; vm_compute in Hlt; done).
    destruct (LastIndex_byte_inv "." (upto t (Index t "[")) _ eq_refl)
      as [_ Hn]; [lia|].
    repeat split; try done.
    by apply upto_nonempty. }
  destruct (traceFunc t) as [sym|] eqn:Ef; [|done].
  intros [= <-]. unfold traceFunc in Ef.
  destruct (Z.ltb_spec 0 (LastIndex t ".")) as [Hlt|]; [|done].
  destruct (negb _ && negb _); [|done].
  injection Ef as <-. cbn.
  assert (Ht : t <> "")
    by (intros ->; vm_compute in Hlt; done).
  destruct (LastIndex_byte_inv "." t _ eq_refl) as [_ Hn]; [lia|].
  repeat split; try done.
  by apply upto_nonempty.
Qed.

(** X7: the Symbols that [FromStackTrace] returns.  The package path is
    not empty; there is no context, no metadata, no type parameter, and the
    anonymous index is 0 whatever number the trace carries; a receiver is
    always a pointer; without a receiver the name holds no dot; an init
    Symbol is named [init]; an anonymous Symbol has the parent
    [package.name]; no other Symbol has a parent. *)
Theorem X7_fromStackTrace_result_invariants t s :
  FromStackTrace t = (Some s, None) ->
  PackagePath s <> "" /\ Context s = "" /\ Meta s = noMetadata
  /\ TypeParams s = [] /\ AnonIndex s = 0
  /\ (forall r, Recv s = Some r -> IsPointer r = true)
  /\ (Recv s = None -> mem_byte "." (Name s) = false)
  /\ (IsInit s = true ->
      Name s = "init" /\ Recv s = None /\ IsAnonymous s = false
      /\ TypeArgs s = [])
  /\ (IsAnonymous s = true ->
      Recv s = None /\ TypeArgs s = []
      /\ AnonParent s = PackagePath s +:+ "." +:+ Name s)
  /\ (IsAnonymous s = false -> AnonParent s = "").
Proof. unfold FromStackTrace. apply fromStackTraceStripped_invariants. Qed.

(** The anonymous function of the stack-trace tests, with another number. *)
Lemma X7_fromStackTrace_result_witness :
  let s := mkSymbol "main" "main" None false true "main.main" 0 [] [] ""
             noMetadata in
  PackagePath s <> "" /\ Context s = "" /\ Meta s = noMetadata
  /\ TypeParams s = [] /\ AnonIndex s = 0
  /\ (forall r, Recv s = Some r -> IsPointer r = true)
  /\ (Recv s = None -> mem_byte "." (Name s) = false)
  /\ (IsInit s = true ->
      Name s = "init" /\ Recv s = None /\ IsAnonymous s = false
      /\ TypeArgs s = [])
  /\ (IsAnonymous s = true ->
      Recv s = None /\ TypeArgs s = []
      /\ AnonParent s = PackagePath s +:+ "." +:+ Name s)
  /\ (IsAnonymous s = false -> AnonParent s = "").
Proof.
  intros s.
  apply (X7_fromStackTrace_result_invariants "main.main.func7 /src/main.go:12" s).
  vm_compute. reflexivity.
Defined.

(** ** From SSA notation to GSRF notation *)

Lemma formatMetadata_location loc :
  formatMetadata (locationMetadata loc) []
  = if negb (loc =? "")%string then "{pos:" +:+ loc +:+ "}" else "".
Proof.
  unfold locationMetadata.
  destruct (String.eqb_spec loc "") as [->|Hne]; [done|].
  cbn [negb]. unfold formatMetadata, hasMetadata, metaParts.
  cbn [Via Alias Position Custom].
  destruct (String.eqb_spec loc ""); [done|]. cbn.
  by rewrite ?sapp_nil_r.
Qed.

Lemma Custom_locationMetadata loc : Custom (locationMetadata loc) = ∅.
Proof. unfold locationMetadata. by destruct (negb _). Qed.

Lemma fromSSALocated_format base loc s :
  fromSSALocated base loc = (Some s, None) ->
  Meta s = locationMetadata loc
  /\ (IsInit s = false -> IsAnonymous s = false ->
      FormatWith [] s = base +:+ formatMetadata (locationMetadata loc) [])
  /\ (IsInit s = true ->
      FormatWith [] s
      = PackagePath s +:+ ".init" +:+ formatMetadata (locationMetadata loc) []).
Proof.
  intros H. unfold fromSSALocated in H.
  destruct (FindStringSubmatch ssaInitPattern base) as [l|] eqn:Ei.
  { apply ssaInit_inv in Ei as (m1 & D & -> & -> & _).
    injection H as <-. split; [done|]. split; [done|]. intros _.
    unfold FormatWith, formatHead. cbn.
    by rewrite ?sapp_nil_r, ?sapp_assoc. }
  destruct (FindStringSubmatch ssaMethodPattern base) as [l|] eqn:Em.
  { apply ssaMethod_inv in Em as (m1 & m2 & m3 & m4 & -> & Hb & Hm2).
    injection H as <-. split; [done|]. split; [|done]. intros _ _.
    unfold FormatWith, formatHead. cbn. rewrite Hb.
    destruct Hm2 as [-> | ->]; cbn; by rewrite ?sapp_nil_r, ?sapp_assoc. }
  destruct (ssaAnonBranch base (locationMetadata loc)) as [sym|] eqn:Ea.
  { injection H as <-.
    apply ssaAnonBranch_inv in Ea as (m1 & m2 & D & _ & _ & _ & _ & _ & _ & _
                                      & _ & _ & ->).
    split; done. }
  unfold ssaFuncBranch in H.
  destruct (FindStringSubmatch ssaFuncPattern base) as [l|] eqn:Ef; [|done].
  apply ssaFunc_inv in Ef as (m1 & m2 & -> & Hb).
  injection H as <-. split; [done|]. split; [|done]. intros _ _.
  unfold FormatWith, formatHead. cbn. rewrite Hb.
  by rewrite ?sapp_nil_r, ?sapp_assoc.
Qed.

Lemma Format_no_custom s out :
  Custom (Meta s) = ∅ -> Format s out <-> out = FormatWith [] s.
Proof.
  intros Hc. unfold Format, map_range. rewrite Hc, map_to_list_empty. split.
  - intros (kvs & ->%Permutation_nil_r & ->). done.
  - intros ->. by exists [].
Qed.

(** X8: [Format] after [FromSSA].  For a function or a method, the GSRF
    text is the SSA text itself, with a trailing location [@file:line:col]
    turned into the block [{pos:file:line:col}]; for an init function it is
    [package.init], followed by the same block: the number behind [#] is
    not written. *)
Theorem X8_format_after_fromSSA x s :
  FromSSA x = (Some s, None) ->
  exists base,
    x = base +:+ (if negb (Position (Meta s) =? "")%string
                  then "@" +:+ Position (Meta s) else "")
    /\ (IsInit s = false -> IsAnonymous s = false ->
        forall out, Format s out <->
          out = base +:+ (if negb (Position (Meta s) =? "")%string
                          then "{pos:" +:+ Position (Meta s) +:+ "}" else ""))
    /\ (IsInit s = true ->
        forall out, Format s out <->
          out = PackagePath s +:+ ".init"
                +:+ (if negb (Position (Meta s) =? "")%string
                     then "{pos:" +:+ Position (Meta s) +:+ "}" else "")).
Proof.
  assert (Hloc : forall base loc,
            fromSSALocated base loc = (Some s, None) ->
            Position (Meta s) = loc
            /\ (IsInit s = false -> IsAnonymous s = false ->
                forall out, Format s out <->
                  out = base +:+ (if negb (loc =? "")%string
                                  then "{pos:" +:+ loc +:+ "}" else ""))
            /\ (IsInit s = true ->
                forall out, Format s out <->
                  out = PackagePath s +:+ ".init"
                        +:+ (if negb (loc =? "")%string
                             then "{pos:" +:+ loc +:+ "}" else ""))).
  { intros base loc H.
    apply fromSSALocated_format in H as (Hm & Hf & Hi).
    rewrite formatMetadata_location in Hf, Hi.
    assert (Hc : Custom (Meta s) = ∅)
      by (rewrite Hm; apply Custom_locationMetadata).
    split; [by rewrite Hm, Position_locationMetadata|]. split.
    - intros H1 H2 out. by rewrite (Format_no_custom s out Hc), Hf.
    - intros H1 out. by rewrite (Format_no_custom s out Hc), Hi. }
  unfold FromSSA.
  destruct (FindStringSubmatch ssaLocationPattern x) as [l|] eqn:El.
  - apply (head_plus_inv anyChar ssaLocationTail) in El
      as (base & T & g & -> & -> & _ & _ & _ & Hk).
    apply ssaLocationTail_inv in Hk as (f & l' & c & -> & -> & _).
    intros H. apply Hloc in H as (Hp & Hf & Hi). clear Hloc. exists base.
    rewrite Hp.
    assert (Hne : negb (f +:+ ":" +:+ l' +:+ ":" +:+ c =? "")%string = true)
      by (by destruct f).
    rewrite Hne in *. split; [by rewrite ?sapp_assoc|]. by split.
  - intros H. apply Hloc in H as (Hp & Hf & Hi). clear Hloc. exists x.
    rewrite Hp. change (negb ("" =? "")%string) with false in *.
    cbv iota in *. split; [by rewrite sapp_nil_r|]. by split.
Qed.

(** The located method of the SSA tests. *)
Lemma X8_format_after_fromSSA_witness :
  let s := mkSymbol "main" "Start" (Some (mkReceiver "Server" true []))
             false false "" 0 [] [] "" (mkMetadata "" "" "main.go:10:5" ∅) in
  exists base,
    "main.(*Server).Start@main.go:10:5"
    = base +:+ (if negb (Position (Meta s) =? "")%string
                then "@" +:+ Position (Meta s) else "")
    /\ (IsInit s = false -> IsAnonymous s = false ->
        forall out, Format s out <->
          out = base +:+ (if negb (Position (Meta s) =? "")%string
                          then "{pos:" +:+ Position (Meta s) +:+ "}" else ""))
    /\ (IsInit s = true ->
        forall out, Format s out <->
          out = PackagePath s +:+ ".init"
                +:+ (if negb (Position (Meta s) =? "")%string
                     then "{pos:" +:+ Position (Meta s) +:+ "}" else "")).
Proof.
  intros s.
  apply (X8_format_after_fromSSA "main.(*Server).Start@main.go:10:5" s).
  vm_compute. reflexivity.
Defined.

(** ** Two edge cases of [Parse] *)

Lemma extractMetadata_no_brace x :
  mem_byte "{" x = false -> extractMetadata x = (x, noMetadata).
Proof.
  intros H. unfold extractMetadata. by rewrite (LastIndex_absent "{" "" x H).
Qed.

(** X9: a text that ends with [@], the brackets before it balanced, is
    rejected with the error of the empty context, whatever stands before
    the [@]. *)
Theorem X9_parse_rejects_empty_context x :
  x <> "" -> bracketCount x = 0 ->
  Parse (x +:+ "@")
  = (None, Some "invalid GSRF symbol: empty context after @").
Proof.
  intros Hx Hb. unfold Parse.
  destruct (String.eqb_spec (x +:+ "@") "") as [E|_]; [by destruct x|].
  assert (Hm : extractMetadata (x +:+ "@") = (x +:+ "@", noMetadata)).
  { unfold extractMetadata, HasSuffix. rewrite srev_sapp.
    change (HasPrefix (srev "@" +:+ srev x) (srev "}")) with false.
    by rewrite andb_false_r. }
  rewrite Hm. unfold extractContext.
  change (x +:+ "@") with (x +:+ String "@" "").
  rewrite (LastIndex_sep "@" x "") by done.
  rewrite (ltb_len_pos _ Hx), upto_sapp, Hb, from_sapp_add by lia.
  done.
Qed.

(** A receiver type followed by [@]. *)
Lemma X9_parse_rejects_empty_context_witness :
  Parse ("pkg.(*T).Method" +:+ "@")
  = (None, Some "invalid GSRF symbol: empty context after @").
Proof.
  apply (X9_parse_rejects_empty_context "pkg.(*T).Method"); [done|reflexivity].
Defined.

Lemma Split_byte_mem c d s :
  mem_byte d s = false ->
  Forall (fun p => mem_byte d p = false) (Split s (String c "")).
Proof.
  induction s as [|e s IH]; [by repeat constructor|].
  cbn [mem_byte]. intros [He Hs]%orb_false_elim. specialize (IH Hs).
  rewrite split_byte_cons. destruct (Ascii.eqb c e).
  - by constructor.
  - destruct (Split s (String c "")) as [|h t].
    + repeat constructor. cbn [mem_byte]. by rewrite He.
    + apply Forall_cons in IH as [Hh Ht]. constructor; [|done].
      cbn [mem_byte]. by rewrite He, Hh.
Qed.

Lemma parseMetaPart_no_colon m p :
  mem_byte ":" p = false -> parseMetaPart m p = m.
Proof.
  intros H. unfold parseMetaPart, SplitN2.
  by rewrite (Index_absent ":" "" p H).
Qed.

Lemma fold_parseMetaPart_no_colon parts m :
  Forall (fun p => mem_byte ":" p = false) parts ->
  fold_left parseMetaPart parts m = m.
Proof.
  induction parts as [|p parts IH]; [done|].
  intros [Hp Hps]%Forall_cons. cbn [fold_left].
  by rewrite parseMetaPart_no_colon, IH.
Qed.

(** X10: a trailing block [{...}] without any colon carries no metadata and
    is dropped without an error: the text is parsed as if the block were
    absent. *)
Theorem X10_parse_drops_block_without_colon x block :
  x <> "" -> mem_byte "{" x = false -> bracketCount x = 0 ->
  mem_byte "{" block = false -> mem_byte ":" block = false ->
  Parse (x +:+ "{" +:+ block +:+ "}") = Parse x.
Proof.
  intros Hx Hxb Hbc Hbb Hcol. unfold Parse.
  destruct (String.eqb_spec (x +:+ "{" +:+ block +:+ "}") "") as [E|_];
    [by destruct x|].
  destruct (String.eqb_spec x "") as [E|_]; [done|].
  rewrite (extractMetadata_no_brace x Hxb).
  assert (Hm : extractMetadata (x +:+ "{" +:+ block +:+ "}") = (x, noMetadata)).
  { assert (Hsuf : HasSuffix (x +:+ "{" +:+ block +:+ "}") "}" = true).
    { replace (x +:+ "{" +:+ block +:+ "}")
        with ((x +:+ "{" +:+ block) +:+ "}") by (by rewrite !sapp_assoc).
      apply HasSuffix_sapp. }
    assert (Hsl : slice (x +:+ "{" +:+ block +:+ "}") (len x + 1)
                    (len (x +:+ "{" +:+ block +:+ "}") - 1) = block).
    { replace (x +:+ "{" +:+ block +:+ "}")
        with ((x +:+ "{") +:+ block +:+ "}") by (by rewrite !sapp_assoc).
      replace (len x + 1) with (len (x +:+ "{"))
        by (rewrite len_sapp; done).
      replace (len (((x +:+ "{") +:+ block +:+ "}")) - 1)
        with (len (x +:+ "{") + len block)
        by (rewrite !len_sapp; change (len "}") with 1; lia).
      by rewrite slice_sapp. }
    assert (Hlast : LastIndex (x +:+ "{" +:+ block +:+ "}") "{" = len x).
    { change (x +:+ "{" +:+ block +:+ "}")
        with (x +:+ String "{" (block +:+ "}")).
      apply LastIndex_sep. by rewrite mem_byte_sapp, Hbb. }
    assert (Hup : upto (x +:+ "{" +:+ block +:+ "}") (len x) = x)
      by apply upto_sapp.
    unfold extractMetadata.
    rewrite Hlast, Hsuf, Hsl, Hup, (ltb_len_pos _ Hx), Hbc. cbn [andb Z.eqb].
    by rewrite fold_parseMetaPart_no_colon by (by apply Split_byte_mem). }
  by rewrite Hm.
Qed.

(** The method of the parser tests, followed by a block without colon. *)
Lemma X10_parse_drops_block_witness :
  Parse ("net/http.(*Server).Serve" +:+ "{" +:+ "deprecated, v2" +:+ "}")
  = Parse "net/http.(*Server).Serve".
Proof.
  apply (X10_parse_drops_block_without_colon "net/http.(*Server).Serve"
           "deprecated, v2"); (done || reflexivity).
Defined.

(** ** Type arguments in stack traces *)

Lemma okTraceArg_inv a :
  okTraceArg a = true ->
  a <> "" /\ TrimSpace a = a /\ allC isAscii a = true
  /\ noneOf "[](),{}@" a = true /\ noneOf " /:" a = true.
Proof.
  unfold okTraceArg. intros [H1 H2]%andb_prop.
  destruct (okArg_inv _ H1) as (? & ? & ? & ?). done.
Qed.

Lemma okTraceArgs_okArgs l :
  forallb okTraceArg l = true -> forallb okArg l = true.
Proof.
  induction l as [|a l IH]; [done|]. cbn [forallb].
  intros [Ha Hl]%andb_prop. rewrite (IH Hl), andb_true_r.
  unfold okTraceArg in Ha. by apply andb_prop in Ha as [-> _].
Qed.

Lemma okTraceArgs_no c l :
  mem_byte c " /:" = true -> forallb okTraceArg l = true ->
  Forall (fun p => mem_byte c p = false) l.
Proof.
  intros Hc. induction l as [|a l IH]; [done|]. cbn [forallb].
  intros [Ha Hl]%andb_prop. constructor; [|by apply IH].
  destruct (okTraceArg_inv _ Ha) as (_ & _ & _ & _ & Hn).
  by apply (noneOf_no _ _ _ Hc).
Qed.

(** The bytes of a type argument are appended to the current element. *)
Lemma tparamsFold_plain a acc cur :
  noneOf "[](),{}@" a = true -> noneOf " /:" a = true ->
  fold_left tparamsStep (chars a) (mkTparams acc cur 0)
  = mkTparams acc (cur +:+ a) 0.
Proof.
  revert cur. induction a as [|c a IH]; intros cur Ha Hb.
  - by rewrite sapp_nil_r.
  - rewrite noneOf_cons in Ha, Hb.
    apply andb_prop in Ha as [Hc Ha]. apply andb_prop in Hb as [Hd Hb].
    cbn [chars fold_left].
    assert (Hstep : tparamsStep (mkTparams acc cur 0) (String c "")
                    = mkTparams acc (cur +:+ String c "") 0).
    { unfold tparamsStep. cbn [mem_byte] in Hc, Hd.
      rewrite !negb_orb in Hc, Hd.
      repeat match goal with
             | H : _ && _ = true |- _ => apply andb_prop in H as [? ?]
             end.
      repeat match goal with
             | H : negb (Ascii.eqb c ?x) = true |- _ =>
                 apply negb_true_iff, Ascii.eqb_neq in H
             end.
      destruct (String.eqb_spec (String c "") "[") as [[= ->]|_]; [done|].
      destruct (String.eqb_spec (String c "") "]") as [[= ->]|_]; [done|].
      destruct (String.eqb_spec (String c "") ",") as [[= ->]|_]; [done|].
      destruct (String.eqb_spec (String c "") " ") as [[= ->]|_]; [done|].
      done. }
    rewrite Hstep, (IH _ Ha Hb), sapp_assoc. done.
Qed.

Lemma tparamsFold_Join l acc :
  l <> [] -> forallb okTraceArg l = true ->
  (if 0 <? len (tp_current
                  (fold_left tparamsStep (chars (Join l ", "))
                     (mkTparams acc "" 0)))
   then (tp_result (fold_left tparamsStep (chars (Join l ", "))
                      (mkTparams acc "" 0))
         ++ [TrimSpace (tp_current
                          (fold_left tparamsStep (chars (Join l ", "))
                             (mkTparams acc "" 0)))])%list
   else tp_result (fold_left tparamsStep (chars (Join l ", "))
                     (mkTparams acc "" 0)))
  = (acc ++ l)%list.
Proof.
  revert acc. induction l as [|a l IH]; [done|].
  intros acc _ Hl. cbn [forallb] in Hl.
  apply andb_prop in Hl as [Ha Hl].
  destruct (okTraceArg_inv _ Ha) as (Hne & Htrim & _ & Hn1 & Hn2).
  destruct l as [|b l].
  - cbn [Join]. rewrite tparamsFold_plain by done.
    cbn [tp_current tp_result]. change ("" +:+ a) with a.
    by rewrite (ltb_len_pos _ Hne), Htrim.
  - change (Join (a :: b :: l) ", ") with (a +:+ ", " +:+ Join (b :: l) ", ").
    rewrite !chars_sapp, !fold_left_app, tparamsFold_plain by done.
    change ("" +:+ a) with a.
    change (fold_left tparamsStep (chars ", ") (mkTparams acc a 0))
      with (mkTparams (acc ++ [TrimSpace a]) "" 0).
    rewrite Htrim, (IH (acc ++ [a])%list) by done.
    by rewrite <-app_assoc.
Qed.

(** [parseTypeParams] splits the text that [ToStackTrace] joins. *)
Lemma parseTypeParams_Join l :
  l <> [] -> forallb okTraceArg l = true -> parseTypeParams (Join l ", ") = l.
Proof.
  intros Hne Hl. unfold parseTypeParams.
  rewrite runes_ascii
    by (apply allC_Join; [done|by apply okArgs_ascii, okTraceArgs_okArgs]).
  exact (tparamsFold_Join l [] Hne Hl).
Qed.

Lemma Join_trace_no c l :
  negb (mem_byte c ", ") && (mem_byte c "[](),{}@" || mem_byte c " /:") = true ->
  forallb okTraceArg l = true -> mem_byte c (Join l ", ") = false.
Proof.
  intros [Hs Hc]%andb_prop Hl. apply negb_true_iff in Hs.
  apply mem_byte_Join; [done|].
  apply orb_prop in Hc as [Hc|Hc].
  - by apply okArgs_no, okTraceArgs_okArgs.
  - by apply okTraceArgs_no.
Qed.

(** A byte that the first part of a text avoids lies in the second part. *)
Lemma sapp_after_prefix c a b U V :
  a +:+ b = U +:+ String c V -> mem_byte c a = false ->
  exists U', b = U' +:+ String c V.
Proof.
  intros H Ha. apply sapp_split in H as [(t & Ht & ->)|(b' & -> & _)].
  - destruct t as [|d t].
    + exists "". exact (eq_sym Ht).
    + injection Ht as <- _. rewrite mem_byte_sapp in Ha. cbn [mem_byte] in Ha.
      by rewrite Ascii.eqb_refl, orb_true_r in Ha.
  - by exists b'.
Qed.

(** No file information is found when the blanks are followed neither by a
    slash nor by a colon. *)
Lemma stripFileInfo_keep a b :
  mem_byte " " a = false -> mem_byte "/" b = false -> mem_byte ":" b = false ->
  stripFileInfo (a +:+ b) = a +:+ b.
Proof.
  intros Ha Hs Hc. unfold stripFileInfo.
  assert (Hi : Index (a +:+ b) " /" < 0).
  { apply Index_neg_iff. rewrite (Contains_skip " " "/" a b Ha).
    by apply (Contains_absent_any "/"). }
  destruct (Z.ltb_spec 0 (Index (a +:+ b) " /")); [lia|].
  destruct (Z.ltb_spec 0 (LastIndex (a +:+ b) " ")) as [Hlt|]; [|done].
  destruct (LastIndex_byte_inv " " (a +:+ b) _ eq_refl) as [Hsplit _]; [lia|].
  apply sapp_after_prefix in Hsplit as [U' HU]; [|done].
  assert (Hv : forall d, mem_byte d b = false ->
                 mem_byte d (from (a +:+ b) (LastIndex (a +:+ b) " " + 1))
                 = false).
  { intros d Hd. rewrite HU in Hd. rewrite mem_byte_sapp in Hd.
    apply orb_false_elim in Hd as [_ Hd]. cbn [mem_byte] in Hd.
    by apply orb_false_elim in Hd as [_ Hd]. }
  rewrite (Contains_absent_any ":" _ ".go:") by (done || by apply Hv).
  rewrite (Contains_absent_any "/" _ "/") by (done || by apply Hv).
  done.
Qed.

(** The branch of generic functions on the text that [ToStackTrace] writes. *)
Lemma traceGeneric_text pkg name J :
  pkg <> "" -> mem_byte "[" pkg = false ->
  mem_byte "[" name = false -> mem_byte "." name = false ->
  mem_byte "]" J = false ->
  traceGeneric (pkg +:+ "." +:+ name +:+ "[" +:+ J +:+ "]")
  = Some (mkSymbol pkg name None false false "" 0 [] (parseTypeParams J)
            "" noMetadata).
Proof.
  intros Hp Hbp Hbn Hdn HJ.
  set (T := pkg +:+ "." +:+ name +:+ "[" +:+ J +:+ "]").
  assert (Hpre : mem_byte "[" (pkg +:+ "." +:+ name) = false)
    by (by rewrite !mem_byte_sapp, Hbp, Hbn).
  assert (HI : Index T "[" = len (pkg +:+ "." +:+ name)).
  { replace T with ((pkg +:+ "." +:+ name) +:+ String "[" "" +:+ (J +:+ "]"))
      by (unfold T; by rewrite ?sapp_assoc).
    by apply Index_sep. }
  assert (HL : LastIndex T "]" = len (pkg +:+ "." +:+ name) + 1 + len J).
  { replace T with ((pkg +:+ "." +:+ name +:+ "[" +:+ J) +:+ String "]" "")
      by (unfold T; by rewrite ?sapp_assoc).
    rewrite LastIndex_sep by done. rewrite !len_sapp.
    change (len "[") with 1. lia. }
  assert (HU : upto T (len (pkg +:+ "." +:+ name)) = pkg +:+ "." +:+ name).
  { replace T with ((pkg +:+ "." +:+ name) +:+ ("[" +:+ J +:+ "]"))
      by (unfold T; by rewrite ?sapp_assoc).
    apply upto_sapp. }
  assert (HD : LastIndex (pkg +:+ "." +:+ name) "." = len pkg)
    by (by apply (LastIndex_sep "." pkg name)).
  assert (HP : upto T (len pkg) = pkg) by apply upto_sapp.
  assert (HN : from (pkg +:+ "." +:+ name) (len pkg + 1) = name).
  { rewrite from_sapp_add by lia. done. }
  assert (HS : slice T (len (pkg +:+ "." +:+ name) + 1)
                 (len (pkg +:+ "." +:+ name) + 1 + len J) = J).
  { replace T with (((pkg +:+ "." +:+ name) +:+ "[") +:+ J +:+ "]")
      by (unfold T; by rewrite ?sapp_assoc).
    replace (len (pkg +:+ "." +:+ name) + 1)
      with (len ((pkg +:+ "." +:+ name) +:+ "["))
      by (by rewrite (len_sapp _ "[")).
    apply slice_sapp. }
  unfold traceGeneric. rewrite HI, HL, HU, HD, HP, HN, HS.
  pose proof (len_nonneg J). pose proof (len_pos _ Hp).
  assert (0 < len (pkg +:+ "." +:+ name))
    by (rewrite len_sapp; pose proof (len_nonneg ("." +:+ name)); lia).
  destruct (Z.ltb_spec 0 (len (pkg +:+ "." +:+ name))); [|lia].
  destruct (Z.ltb_spec (len (pkg +:+ "." +:+ name))
              (len (pkg +:+ "." +:+ name) + 1 + len J)); [|lia].
  by destruct (Z.ltb_spec 0 (len pkg)); [|lia].
Qed.

(** X11: generic functions survive the stack-trace adapter.  For a plain
    package path and name and type arguments without blank, slash, colon or
    a character of the grammar, [FromStackTrace] reads back the Symbol that
    [ToStackTrace] wrote, provided the text holds no [.func]. *)
Theorem X11_stackTrace_generic_function_roundtrip pkg name args :
  pkg <> "" -> plainText pkg = true ->
  name <> "" -> plainText name = true -> mem_byte "." name = false ->
  args <> [] -> forallb okTraceArg args = true ->
  Contains (pkg +:+ "." +:+ name +:+ "[" +:+ Join args ", " +:+ "]") ".func"
  = false ->
  ToStackTrace (mkSymbol pkg name None false false "" 0 [] args "" noMetadata)
  = pkg +:+ "." +:+ name +:+ "[" +:+ Join args ", " +:+ "]"
  /\ FromStackTrace
       (ToStackTrace
          (mkSymbol pkg name None false false "" 0 [] args "" noMetadata))
     = (Some (mkSymbol pkg name None false false "" 0 [] args "" noMetadata),
        None).
Proof.
  intros Hp Hpp Hn Hpn Hdn Hargs Hok Hf.
  assert (Hto : ToStackTrace
                  (mkSymbol pkg name None false false "" 0 [] args ""
                     noMetadata)
                = pkg +:+ "." +:+ name +:+ "[" +:+ Join args ", " +:+ "]").
  { unfold ToStackTrace. cbn [IsAnonymous IsInit Recv PackagePath Name TypeArgs].
    change (if 0 <? Z.of_nat (length args) then _ else _) with (genText args).
    destruct args as [|a l]; [done|]. by rewrite genText_cons. }
  split; [exact Hto|]. rewrite Hto. unfold FromStackTrace.
  replace (pkg +:+ "." +:+ name +:+ "[" +:+ Join args ", " +:+ "]")
    with ((pkg +:+ "." +:+ name +:+ "[") +:+ (Join args ", " +:+ "]"))
    by (by rewrite ?sapp_assoc).
  rewrite stripFileInfo_keep.
  2:{ rewrite !mem_byte_sapp, (plainText_no " " pkg), (plainText_no " " name)
        by done. done. }
  2:{ by rewrite mem_byte_sapp, (Join_trace_no "/"). }
  2:{ by rewrite mem_byte_sapp, (Join_trace_no ":"). }
  replace ((pkg +:+ "." +:+ name +:+ "[") +:+ (Join args ", " +:+ "]"))
    with (pkg +:+ "." +:+ name +:+ "[" +:+ Join args ", " +:+ "]")
    by (by rewrite ?sapp_assoc).
  unfold fromStackTraceStripped.
  destruct (trace_patterns_none _ Hf) as [-> ->].
  assert (Hm : traceMethod
                 (pkg +:+ "." +:+ name +:+ "[" +:+ Join args ", " +:+ "]")
               = None).
  { unfold traceMethod. rewrite (Contains_absent_any "(" _ ".(*"); [done|done|].
    rewrite !mem_byte_sapp, (plainText_no "(" pkg), (plainText_no "(" name),
      (Join_trace_no "(") by done. done. }
  rewrite Hm, traceGeneric_text, parseTypeParams_Join; try done.
  - by apply plainText_no.
  - by apply plainText_no.
  - by apply (Join_trace_no "]").
Qed.

(** The generic function of the stack-trace tests. *)
Lemma X11_stackTrace_generic_function_witness :
  ToStackTrace
    (mkSymbol "pkg" "Map" None false false "" 0 [] ["int"; "string"] ""
       noMetadata)
  = "pkg" +:+ "." +:+ "Map" +:+ "[" +:+ Join ["int"; "string"] ", " +:+ "]"
  /\ FromStackTrace
       (ToStackTrace
          (mkSymbol "pkg" "Map" None false false "" 0 [] ["int"; "string"] ""
             noMetadata))
     = (Some (mkSymbol "pkg" "Map" None false false "" 0 [] ["int"; "string"]
                "" noMetadata), None).
Proof.
  apply (X11_stackTrace_generic_function_roundtrip "pkg" "Map"
           ["int"; "string"]); (done || reflexivity).
Defined.

(** ** Generic receivers in stack traces *)

(** The search of the closing parenthesis steps over plain text. *)
Lemma findCloseParen_skip_plain T rest i d b :
  plainText T = true ->
  findCloseParen (T +:+ rest) i d b = findCloseParen rest (i + len T) d b.
Proof.
  revert i. induction T as [|c T IH]; intros i HT.
  - change ("" +:+ rest) with rest. by rewrite len_empty, Z.add_0_r.
  - change (String c T +:+ rest) with (String c (T +:+ rest)).
    rewrite len_String.
    assert (Hc : mem_byte c traceSpecials = false /\ plainText T = true).
    { unfold plainText in *. cbn [ContainsAny] in HT.
      rewrite negb_orb in HT. apply andb_prop in HT as [H1 H2].
      by apply negb_true_iff in H1. }
    destruct Hc as [Hc HT'].
    cbn [findCloseParen].
    destruct (Ascii.eqb_spec c "[") as [->|_]; [done|].
    destruct (Ascii.eqb_spec c "]") as [->|_]; [done|].
    destruct (Ascii.eqb_spec c "(") as [->|_]; [done|].
    destruct (Ascii.eqb_spec c ")") as [->|_]; [done|].
    cbn [andb]. rewrite (IH _ HT'). f_equal. lia.
Qed.

(** Between brackets it steps over everything but a bracket. *)
Lemma findCloseParen_skip_bracketed J rest i d :
  mem_byte "[" J = false -> mem_byte "]" J = false ->
  findCloseParen (J +:+ rest) i d true = findCloseParen rest (i + len J) d true.
Proof.
  revert i. induction J as [|c J IH]; intros i H1 H2.
  - change ("" +:+ rest) with rest. by rewrite len_empty, Z.add_0_r.
  - change (String c J +:+ rest) with (String c (J +:+ rest)).
    rewrite len_String. cbn [mem_byte] in H1, H2.
    apply orb_false_elim in H1 as [Hc1 H1].
    apply orb_false_elim in H2 as [Hc2 H2].
    cbn [findCloseParen].
    rewrite (Ascii.eqb_sym c "["), Hc1, (Ascii.eqb_sym c "]"), Hc2.
    cbn [negb]. rewrite !andb_false_r, (IH _ H1 H2). f_equal. lia.
Qed.

Lemma findCloseParen_generic recv J r :
  plainText recv = true -> mem_byte "[" J = false -> mem_byte "]" J = false ->
  findCloseParen (recv +:+ "[" +:+ J +:+ "]" +:+ String ")" r) 0 1 false
  = len (recv +:+ "[" +:+ J +:+ "]").
Proof.
  intros Hr H1 H2. rewrite findCloseParen_skip_plain by done.
  change ("[" +:+ J +:+ "]" +:+ String ")" r)
    with (String "[" (J +:+ "]" +:+ String ")" r)).
  cbn [findCloseParen Ascii.eqb Bool.eqb].
  rewrite findCloseParen_skip_bracketed by done.
  change ("]" +:+ String ")" r) with (String "]" (String ")" r)).
  cbn [findCloseParen Ascii.eqb Bool.eqb andb negb].
  change (1 - 1 =? 0) with true. cbv iota.
  rewrite !len_sapp. change (len "[") with 1. change (len "]") with 1. lia.
Qed.

(** The method branch on the text that [ToStackTrace] writes for a generic
    receiver. *)
Lemma traceMethod_text pkg recv J name :
  pkg <> "" -> mem_byte "(" pkg = false ->
  recv <> "" -> plainText recv = true ->
  mem_byte "[" J = false -> mem_byte "]" J = false ->
  traceMethod (pkg +:+ ".(*" +:+ recv +:+ "[" +:+ J +:+ "]" +:+ ")." +:+ name)
  = Some (mkSymbol pkg name (Some (mkReceiver recv true (parseTypeParams J)))
            false false "" 0 [] [] "" noMetadata).
Proof.
  intros Hp Hpp Hr Hpr H1 H2.
  set (RC := recv +:+ "[" +:+ J +:+ "]").
  set (R := recv +:+ "[" +:+ J +:+ "]" +:+ String ")" ("." +:+ name)).
  assert (HR : R = RC +:+ String ")" ("." +:+ name))
    by (unfold R, RC; by rewrite ?sapp_assoc).
  assert (HC : findCloseParen R 0 1 false = len RC)
    by (by apply findCloseParen_generic).
  assert (HU : upto R (len RC) = RC) by (rewrite HR; apply upto_sapp).
  assert (HA : from R (len RC + 1) = "." +:+ name).
  { rewrite HR, from_sapp_add by lia. done. }
  assert (HI : Index RC "[" = len recv).
  { unfold RC. change (recv +:+ "[" +:+ J +:+ "]")
      with (recv +:+ String "[" "" +:+ (J +:+ "]")).
    apply Index_sep. by apply plainText_no. }
  assert (HL : LastIndex RC "]" = len recv + 1 + len J).
  { replace RC with ((recv +:+ "[" +:+ J) +:+ String "]" "")
      by (unfold RC; by rewrite ?sapp_assoc).
    rewrite LastIndex_sep by done. rewrite !len_sapp.
    change (len "[") with 1. lia. }
  assert (HUr : upto RC (len recv) = recv) by apply upto_sapp.
  assert (HS : slice RC (len recv + 1) (len recv + 1 + len J) = J).
  { replace RC with ((recv +:+ "[") +:+ J +:+ "]")
      by (unfold RC; by rewrite ?sapp_assoc).
    replace (len recv + 1) with (len (recv +:+ "["))
      by (by rewrite (len_sapp _ "[")).
    apply slice_sapp. }
  unfold traceMethod.
  change (pkg +:+ ".(*" +:+ recv +:+ "[" +:+ J +:+ "]" +:+ ")." +:+ name)
    with (pkg +:+ ".(*" +:+ R).
  rewrite Contains_mid.
  rewrite (Index_sep2 "." "(" "*") by done.
  rewrite (ltb_len_pos _ Hp), upto_sapp, from_sapp_add by lia.
  change (from (".(*" +:+ R) 3) with R.
  rewrite HC, HU, HA, HI, HL, HUr, HS.
  pose proof (len_pos _ Hr). pose proof (len_nonneg J).
  assert (0 < len RC)
    by (unfold RC; rewrite len_sapp;
        pose proof (len_nonneg ("[" +:+ J +:+ "]")); lia).
  destruct (Z.ltb_spec 0 (len RC)); [|lia].
  destruct (Z.ltb_spec 0 (len recv)); [|lia].
  by destruct (Z.ltb_spec (len recv) (len recv + 1 + len J)); [|lia].
Qed.

(** X12: methods of generic pointer receivers survive the stack-trace
    adapter.  For a plain package path, receiver type and method name, the
    name without slash and colon, and type arguments without blank, slash,
    colon or a character of the grammar, [FromStackTrace] reads back the
    Symbol that [ToStackTrace] wrote, provided the text holds no [.func]. *)
Theorem X12_stackTrace_generic_receiver_roundtrip pkg recv name args :
  pkg <> "" -> plainText pkg = true ->
  recv <> "" -> plainText recv = true ->
  plainText name = true -> noneOf "/:" name = true ->
  args <> [] -> forallb okTraceArg args = true ->
  Contains (pkg +:+ ".(*" +:+ recv +:+ "[" +:+ Join args ", " +:+ "]"
            +:+ ")." +:+ name) ".func" = false ->
  ToStackTrace (mkSymbol pkg name (Some (mkReceiver recv true args))
                  false false "" 0 [] [] "" noMetadata)
  = pkg +:+ ".(*" +:+ recv +:+ "[" +:+ Join args ", " +:+ "]" +:+ ")."
    +:+ name
  /\ FromStackTrace
       (ToStackTrace (mkSymbol pkg name (Some (mkReceiver recv true args))
                        false false "" 0 [] [] "" noMetadata))
     = (Some (mkSymbol pkg name (Some (mkReceiver recv true args))
                false false "" 0 [] [] "" noMetadata), None).
Proof.
  intros Hp Hpp Hr Hpr Hpn Hnn Hargs Hok Hf.
  assert (Hto : ToStackTrace
                  (mkSymbol pkg name (Some (mkReceiver recv true args))
                     false false "" 0 [] [] "" noMetadata)
                = pkg +:+ ".(*" +:+ recv +:+ "[" +:+ Join args ", " +:+ "]"
                  +:+ ")." +:+ name).
  { unfold ToStackTrace.
    cbn [IsAnonymous IsInit Recv PackagePath Name TypeName RTypeArgs].
    change (if 0 <? Z.of_nat (length args) then _ else _) with (genText args).
    destruct args as [|a l]; [done|]. rewrite genText_cons.
    by rewrite ?sapp_assoc. }
  split; [exact Hto|]. rewrite Hto. unfold FromStackTrace.
  replace (pkg +:+ ".(*" +:+ recv +:+ "[" +:+ Join args ", " +:+ "]"
           +:+ ")." +:+ name)
    with ((pkg +:+ ".(*" +:+ recv +:+ "[")
          +:+ (Join args ", " +:+ "]" +:+ ")." +:+ name))
    by (by rewrite ?sapp_assoc).
  rewrite stripFileInfo_keep.
  2:{ rewrite !mem_byte_sapp, (plainText_no " " pkg), (plainText_no " " recv)
        by done. done. }
  2:{ rewrite !mem_byte_sapp, (Join_trace_no "/"),
        (noneOf_no "/" "/:" name) by done. done. }
  2:{ rewrite !mem_byte_sapp, (Join_trace_no ":"),
        (noneOf_no ":" "/:" name) by done. done. }
  replace ((pkg +:+ ".(*" +:+ recv +:+ "[")
           +:+ (Join args ", " +:+ "]" +:+ ")." +:+ name))
    with (pkg +:+ ".(*" +:+ recv +:+ "[" +:+ Join args ", " +:+ "]"
          +:+ ")." +:+ name)
    by (by rewrite ?sapp_assoc).
  unfold fromStackTraceStripped.
  destruct (trace_patterns_none _ Hf) as [-> ->].
  rewrite traceMethod_text, parseTypeParams_Join; try done.
  - by apply plainText_no.
  - by apply (Join_trace_no "[").
  - by apply (Join_trace_no "]").
Qed.

(** The generic receiver with two type arguments of the stack-trace tests. *)
Lemma X12_stackTrace_generic_receiver_witness :
  ToStackTrace (mkSymbol "pkg" "Get" (Some (mkReceiver "Map" true ["K"; "V"]))
                  false false "" 0 [] [] "" noMetadata)
  = "pkg" +:+ ".(*" +:+ "Map" +:+ "[" +:+ Join ["K"; "V"] ", " +:+ "]" +:+ ")."
    +:+ "Get"
  /\ FromStackTrace
       (ToStackTrace (mkSymbol "pkg" "Get"
                        (Some (mkReceiver "Map" true ["K"; "V"]))
                        false false "" 0 [] [] "" noMetadata))
     = (Some (mkSymbol "pkg" "Get" (Some (mkReceiver "Map" true ["K"; "V"]))
                false false "" 0 [] [] "" noMetadata), None).
Proof.
  apply (X12_stackTrace_generic_receiver_roundtrip "pkg" "Map" "Get"
           ["K"; "V"]); (done || reflexivity).
Defined.

(** ** The notation is unambiguous on canonical Symbols *)

(** X13: two canonical Symbols that [Format] can write as the same text are
    the same Symbol, whatever the order in which the custom entries of
    either were written. *)
Theorem X13_format_injective_on_canonical_symbols s1 s2 out :
  Canonical s1 -> Canonical s2 -> Format s1 out -> Format s2 out -> s1 = s2.
Proof.
  intros H1 H2 F1 F2.
  pose proof (Parse_Format_canonical s1 out H1 F1) as P1.
  pose proof (Parse_Format_canonical s2 out H2 F2) as P2.
  congruence.
Qed.

(** The generic function [Map] with two type arguments and a position. *)
Lemma X13_format_injective_witness :
  let s := mkSymbol "pkg" "Map" None false false "" 0 [] ["int"; "string"] ""
             (mkMetadata "" "" "map.go:3:1" ∅) in
  Canonical s /\ Format s "pkg.Map[int, string]{pos:map.go:3:1}" /\ s = s.
Proof.
  intros s.
  assert (Hc : Canonical s).
  { apply mkCanonical.
    - split; [discriminate|reflexivity].
    - split; [discriminate|split; reflexivity].
    - exact I.
    - split; [discriminate|]. intros (_ & H & _). discriminate H.
    - repeat split.
    - reflexivity.
    - reflexivity.
    - reflexivity.
    - split; [reflexivity|]. split; [reflexivity|]. split; [reflexivity|].
      apply map_Forall_empty. }
  assert (Hf : Format s "pkg.Map[int, string]{pos:map.go:3:1}").
  { exists []. split; [|reflexivity].
    unfold map_range. simpl. by rewrite map_to_list_empty. }
  split; [exact Hc|]. split; [exact Hf|].
  exact (X13_format_injective_on_canonical_symbols s s _ Hc Hc Hf Hf).
Defined.

(** ** What [parseTypeParams] returns *)

Lemma tparamsFold_trimmed rs st :
  Forall (fun e => TrimSpace e = e) (tp_result st) ->
  Forall (fun e => TrimSpace e = e) (tp_result (fold_left tparamsStep rs st)).
Proof.
  revert st. induction rs as [|r rs IH]; intros st H; [done|].
  cbn [fold_left]. apply IH.
  destruct st as [result current depth]. unfold tparamsStep.
  cbn [tp_result] in H.
  repeat case_match; cbn [tp_result]; try done.
  apply Forall_app. split; [done|]. repeat constructor. apply TrimSpace_idem.
Qed.

Lemma tparamsFold_length rs st :
  length (tp_result (fold_left tparamsStep rs st))
  = (length (tp_result st) + commasOutsideBrackets rs (tp_depth st))%nat.
Proof.
  revert st. induction rs as [|r rs IH]; intros st.
  - cbn [fold_left commasOutsideBrackets]. lia.
  - cbn [fold_left commasOutsideBrackets]. rewrite IH.
    destruct st as [result current depth]. unfold tparamsStep.
    cbn [tp_result tp_depth].
    repeat case_match; cbn [tp_result tp_depth]; rewrite ?length_app;
      cbn [length]; lia.
Qed.

(** X14: every element that [parseTypeParams] returns is trimmed, and the
    text is split exactly at the commas that lie outside every bracket
    group: the list has one element per such comma, and one more when text
    is left behind the last of them. *)
Theorem X14_parseTypeParams_splits_outside_brackets s :
  (forall e, In e (parseTypeParams s) -> TrimSpace e = e)
  /\ (commasOutsideBrackets (runes s) 0 <= length (parseTypeParams s)
      <= 1 + commasOutsideBrackets (runes s) 0)%nat.
Proof.
  pose proof (tparamsFold_trimmed (runes s) (mkTparams [] "" 0)
                (Forall_nil_2 _)) as Ht.
  pose proof (tparamsFold_length (runes s) (mkTparams [] "" 0)) as Hl.
  cbn [tp_result tp_depth length] in Hl.
  unfold parseTypeParams. split.
  - intros e.
    destruct (0 <? _).
    + intros [Hin|Hin]%in_app_or.
      * rewrite List.Forall_forall in Ht. by apply Ht.
      * destruct Hin as [<-|[]]. apply TrimSpace_idem.
    + intros Hin. rewrite List.Forall_forall in Ht. by apply Ht.
  - destruct (0 <? _); rewrite ?length_app, Hl; cbn [length]; lia.
Qed.
